(** * Taylor-rule pipeline: a shallow embedding of the time-series
      normalisation, merge, deviation, estimation, analysis and plotting
      code.

    Layout of the development:
    - [Float64]   IEEE 754 binary64 arithmetic (numpy's float64), with
                  NaN standing for pandas' missing value;
    - [Py]        the exceptions the code can raise and the result monad;
    - [Calendar]  proleptic Gregorian day and month ordinals, the
                  representation behind [Timestamp] and [Period[M]];
    - [pd]        the pandas operations the sources call;
    - [Heap]      frames as objects behind references;
    - [processing], [estimation], [analytics], [pipeline], [vizualization]
                  the functions of the five source modules;
    - the vocabulary of the statements and the example data;
    - the lemmas and theorems, grouped by component. *)

From Stdlib Require Import ZArith List String Bool Lia.
From Stdlib Require Import Floats.SpecFloat.
From stdpp Require Import base option list strings gmap.

(** ** numpy float64 *)

Module Float64.

Local Open Scope Z_scope.

Definition float := spec_float.

Definition prec : Z := 53.
Definition emax : Z := 1024.

Definition nan : float := S754_nan.
Definition inf : float := S754_infinity false.
Definition zero : float := S754_zero false.

Definition add : float -> float -> float := SFadd prec emax.
Definition sub : float -> float -> float := SFsub prec emax.
Definition mul : float -> float -> float := SFmul prec emax.
Definition div : float -> float -> float := SFdiv prec emax.

(** Conversion of a Python [int] or numpy [int64] to float64. *)
Definition of_Z (z : Z) : float := binary_normalize prec emax z 0 false.

(** A decimal literal [m / 10^k], correctly rounded. *)
Definition of_decimal (m : Z) (k : nat) : float :=
  div (of_Z m) (of_Z (10 ^ Z.of_nat k)).

Definition isna (x : float) : bool :=
  match x with S754_nan => true | _ => false end.

Definition notna (x : float) : bool := negb (isna x).

Definition is_finite (x : float) : bool :=
  match x with
  | S754_zero _ | S754_finite _ _ _ => true
  | S754_infinity _ | S754_nan => false
  end.

(** numpy's [<=]: false as soon as one side is NaN. *)
Definition leb (x y : float) : bool := SFleb x y.

End Float64.

Abbreviation float := Float64.float.

(** ** Python exceptions and results *)

Module Py.

Inductive exn : Type :=
| KeyError (key : string)
| IndexError
| ValueError (msg : string)
| AttributeError (msg : string)
| TypeError (msg : string)
| NameError
| ZeroDivisionError
| MergeError
| PatsyError (name : string).

Inductive result (A : Type) : Type :=
| Ok (a : A)
| Raise (e : exn).

Arguments Ok {A} a.
Arguments Raise {A} e.

Definition bind {A B : Type} (f : A -> result B) (m : result A) : result B :=
  match m with
  | Ok a => f a
  | Raise e => Raise e
  end.

(** [raises m] holds when evaluating [m] signals an exception. *)
Definition raises {A : Type} (m : result A) : Prop :=
  exists e, m = Raise e.

Definition of_option {A : Type} (e : exn) (o : option A) : result A :=
  match o with Some a => Ok a | None => Raise e end.

(** Traverse a list left to right, stopping at the first exception. *)
Fixpoint traverse {A B : Type} (f : A -> result B) (l : list A) : result (list B) :=
  match l with
  | [] => Ok []
  | a :: l' =>
      match f a with
      | Raise e => Raise e
      | Ok b =>
          match traverse f l' with
          | Raise e => Raise e
          | Ok bs => Ok (b :: bs)
          end
      end
  end.

End Py.

Import Py.

#[global] Instance result_ret : MRet result := fun A a => Ok a.
#[global] Instance result_bind : MBind result := fun A B f m => Py.bind f m.

(** ** Calendar arithmetic

    A [Timestamp] of the date-only series handled here is a count of days
    since 1970-01-01, a [Period[M]] a count of months since 1970-01 (the
    ordinals pandas stores). *)

Module Calendar.

Local Open Scope Z_scope.

(** Day ordinal of the civil date [y-m-d] (proleptic Gregorian). *)
Definition days_from_civil (y m d : Z) : Z :=
  let y' := if m <=? 2 then y - 1 else y in
  let era := y' / 400 in
  let yoe := y' mod 400 in
  let mp := if 2 <? m then m - 3 else m + 9 in
  let doy := (153 * mp + 2) / 5 + d - 1 in
  let doe := yoe * 365 + yoe / 4 - yoe / 100 + doy in
  era * 146097 + doe - 719468.

(** Year, month and day of a day ordinal. *)
Definition civil_from_days (z0 : Z) : Z * Z * Z :=
  let z := z0 + 719468 in
  let era := z / 146097 in
  let doe := z mod 146097 in
  let yoe := (doe - doe / 1460 + doe / 36524 - doe / 146096) / 365 in
  let doy := doe - (365 * yoe + yoe / 4 - yoe / 100) in
  let mp := (5 * doy + 2) / 153 in
  let d := doy - (153 * mp + 2) / 5 + 1 in
  let m := if mp <? 10 then mp + 3 else mp - 9 in
  let y := yoe + era * 400 in
  (if m <=? 2 then y + 1 else y, m, d).

(** [Timestamp.to_period('M')]: the month ordinal of a day. *)
Definition month_of_day (z : Z) : Z :=
  let '(y, m, _) := civil_from_days z in (y - 1970) * 12 + (m - 1).

(** [Period.year] and [Period.month]. *)
Definition period_year (p : Z) : Z := 1970 + p / 12.
Definition period_month (p : Z) : Z := p mod 12 + 1.

(** Label of a month under the ['MS'] (month start) and ['ME'] (month end)
    frequencies. *)
Definition month_start (p : Z) : Z :=
  days_from_civil (period_year p) (period_month p) 1.
Definition month_end (p : Z) : Z := month_start (p + 1) - 1.

(** The period of a calendar month, e.g. [period 2003 6]. *)
Definition period (y m : Z) : Z := (y - 1970) * 12 + (m - 1).

End Calendar.

Import Calendar.

(** ** pandas

    A frame of this pipeline has a [Date] column followed by numeric columns.
    Dates and numbers are taken as already parsed from their text form; a
    date that fails to parse is outside the model, a number that fails to
    parse is NaN. *)

Module pd.

Inductive index_col : Type :=
| Datetime64 (ds : list Z)   (* datetime64: day ordinals *)
| PeriodM (ps : list Z).     (* period[M]: month ordinals *)

Inductive column : Type :=
| FloatCol (xs : list float)
| IntCol (ns : list Z).

Record DataFrame : Type := {
  Date : index_col;
  columns : list (string * column)
}.

Definition index_values (ix : index_col) : list Z :=
  match ix with Datetime64 ds => ds | PeriodM ps => ps end.

Definition len (df : DataFrame) : nat := length (index_values (Date df)).

Definition empty (df : DataFrame) : bool := Nat.eqb (len df) 0.

Definition names (df : DataFrame) : list string := map fst (columns df).

(** *** Column access *)

Fixpoint lookup_col (name : string) (cols : list (string * column)) : option column :=
  match cols with
  | [] => None
  | (n, c) :: cols' => if String.eqb n name then Some c else lookup_col name cols'
  end.

(** [df[name]]; of several columns of one name the first is meant. *)
Definition getitem (df : DataFrame) (name : string) : result column :=
  of_option (KeyError name) (lookup_col name (columns df)).

Fixpoint assign_col (name : string) (c : column) (cols : list (string * column))
  : list (string * column) :=
  match cols with
  | [] => [(name, c)]
  | (n, c0) :: cols' =>
      if String.eqb n name then (n, c) :: cols'
      else (n, c0) :: assign_col name c cols'
  end.

(** [df[name] = c]: overwrite the column in place, or append a new one. *)
Definition setitem (df : DataFrame) (name : string) (c : column) : DataFrame :=
  {| Date := Date df; columns := assign_col name c (columns df) |}.

(** [df.columns.values[i] = name] for a position [i >= 1] (position [0]
    holds [Date]). *)
Definition set_column_name (df : DataFrame) (i : positive) (name : string)
  : result DataFrame :=
  let k := Nat.pred (Pos.to_nat i) in
  match columns df !! k with
  | None => Raise IndexError
  | Some (_, c) =>
      Ok {| Date := Date df; columns := <[k := (name, c)]> (columns df) |}
  end.

(** [df.columns[i]] for a position [i >= 1]. *)
Definition column_name (df : DataFrame) (i : positive) : result string :=
  of_option IndexError (fst <$> columns df !! Nat.pred (Pos.to_nat i)).

(** *** Element-wise arithmetic *)

Definition wrap64 (z : Z) : Z := ((z + 2 ^ 63) mod 2 ^ 64 - 2 ^ 63)%Z.

Definition to_floats (c : column) : list float :=
  match c with
  | FloatCol xs => xs
  | IntCol ns => map Float64.of_Z ns
  end.

Definition col_add (a b : column) : column :=
  match a, b with
  | IntCol x, IntCol y => IntCol (zip_with (fun m n => wrap64 (m + n)) x y)
  | _, _ => FloatCol (zip_with Float64.add (to_floats a) (to_floats b))
  end.

Definition col_sub (a b : column) : column :=
  match a, b with
  | IntCol x, IntCol y => IntCol (zip_with (fun m n => wrap64 (m - n)) x y)
  | _, _ => FloatCol (zip_with Float64.sub (to_floats a) (to_floats b))
  end.

Definition col_mul (a b : column) : column :=
  match a, b with
  | IntCol x, IntCol y => IntCol (zip_with (fun m n => wrap64 (m * n)) x y)
  | _, _ => FloatCol (zip_with Float64.mul (to_floats a) (to_floats b))
  end.

(** [k - c] for a Python integer [k]. *)
Definition int_rsub (k : Z) (c : column) : column :=
  match c with
  | IntCol ns => IntCol (map (fun n => wrap64 (k - n)) ns)
  | FloatCol xs => FloatCol (map (Float64.sub (Float64.of_Z k)) xs)
  end.

(** [c / k] for a Python integer [k]: true division, always float64. *)
Definition int_truediv (c : column) (k : Z) : column :=
  FloatCol (map (fun x => Float64.div x (Float64.of_Z k)) (to_floats c)).

(** *** Missing values *)

Definition notna (c : column) : list bool :=
  match c with
  | FloatCol xs => map Float64.notna xs
  | IntCol ns => map (fun _ => true) ns
  end.

(** Select the entries of [plan] from a column; [None] is a row without a
    source, filled with NaN.  An integer column stays integer only when no
    NaN has to be stored. *)
Definition gather (c : column) (plan : list (option nat)) : column :=
  match c with
  | FloatCol xs =>
      FloatCol (map (fun o => default Float64.nan (o ≫= (xs !!.))) plan)
  | IntCol ns =>
      if forallb (fun o => bool_decide (is_Some (o ≫= (ns !!.)))) plan
      then IntCol (map (fun o => default 0%Z (o ≫= (ns !!.))) plan)
      else FloatCol (map (fun o => default Float64.nan
                                     (Float64.of_Z <$> (o ≫= (ns !!.)))) plan)
  end.

Definition gather_index (ix : index_col) (plan : list nat) : index_col :=
  match ix with
  | Datetime64 ds => Datetime64 (omap (ds !!.) plan)
  | PeriodM ps => PeriodM (omap (ps !!.) plan)
  end.

(** *** Boolean indexing *)

Fixpoint mask_filter {A : Type} (m : list bool) (l : list A) : list A :=
  match m, l with
  | b :: m', x :: l' => if b then x :: mask_filter m' l' else mask_filter m' l'
  | _, _ => []
  end.

Definition mask_col (m : list bool) (c : column) : column :=
  match c with
  | FloatCol xs => FloatCol (mask_filter m xs)
  | IntCol ns => IntCol (mask_filter m ns)
  end.

Definition mask_index (m : list bool) (ix : index_col) : index_col :=
  match ix with
  | Datetime64 ds => Datetime64 (mask_filter m ds)
  | PeriodM ps => PeriodM (mask_filter m ps)
  end.

(** [df[mask]] *)
Definition boolean_index (df : DataFrame) (m : list bool) : DataFrame :=
  {| Date := mask_index m (Date df);
     columns := map (fun '(n, c) => (n, mask_col m c)) (columns df) |}.

(** [series.isin(values)] *)
Definition isin (xs values : list Z) : list bool :=
  map (fun x => existsb (Z.eqb x) values) xs.

(** *** Merge

    [pd.merge(left, right, on='Date', how='left')]: every row of [left], in
    order, paired with each row of [right] of the same key (in the order of
    [right]), or with NaN when there is none.  A column name present on
    both sides gets the suffixes [_x] and [_y]. *)

Definition same_kind_keys (l r : index_col) : result (list Z * list Z) :=
  match l, r with
  | Datetime64 a, Datetime64 b => Ok (a, b)
  | PeriodM a, PeriodM b => Ok (a, b)
  | _, _ => Raise (ValueError "You are trying to merge on columns of different types")
  end.

(** Positions of [k] in [keys], counted from [i]. *)
Fixpoint matches_from (i : nat) (k : Z) (keys : list Z) : list nat :=
  match keys with
  | [] => []
  | k' :: keys' =>
      if Z.eqb k k' then i :: matches_from (S i) k keys'
      else matches_from (S i) k keys'
  end.

Fixpoint join_plan_from (i : nat) (lkeys rkeys : list Z) : list (nat * option nat) :=
  match lkeys with
  | [] => []
  | k :: lkeys' =>
      match matches_from 0 k rkeys with
      | [] => [(i, None)]
      | js => map (fun j => (i, Some j)) js
      end ++ join_plan_from (S i) lkeys' rkeys
  end.

Definition join_plan (lkeys rkeys : list Z) : list (nat * option nat) :=
  join_plan_from 0 lkeys rkeys.

Definition inb (x : string) (l : list string) : bool := existsb (String.eqb x) l.

(** [Index.duplicated()]: marks every repetition of an earlier label. *)
Fixpoint duplicated_from (seen l : list string) : list bool :=
  match l with
  | [] => []
  | x :: l' => inb x seen :: duplicated_from (x :: seen) l'
  end.

Definition duplicated (l : list string) : list bool := duplicated_from [] l.

Definition add_suffix (overlap : list string) (suffix : string) (n : string) : string :=
  if inb n overlap then (n ++ suffix)%string else n.

(** A renaming that makes a label collide which did not collide before is
    refused by pandas. *)
Definition new_duplicates (before after : list string) : bool :=
  existsb (fun '(b, a) => andb a (negb b))
          (zip (duplicated before) (duplicated after)).

Definition merge (left right : DataFrame) : result DataFrame :=
  '(lkeys, rkeys) ← same_kind_keys (Date left) (Date right);
  let overlap := List.filter (fun n => inb n (names right)) (names left) in
  let llabels := map (add_suffix overlap "_x") (names left) in
  let rlabels := map (add_suffix overlap "_y") (names right) in
  if orb (new_duplicates (names left) llabels) (new_duplicates (names right) rlabels)
  then Raise MergeError
  else
    let plan := join_plan lkeys rkeys in
    let lcols := map (fun '(n, c) => (add_suffix overlap "_x" n,
                                      gather c (map (fun p => Some (fst p)) plan)))
                     (columns left) in
    let rcols := map (fun '(n, c) => (add_suffix overlap "_y" n,
                                      gather c (map snd plan)))
                     (columns right) in
    mret {| Date := gather_index (Date left) (map fst plan);
            columns := lcols ++ rcols |}.

(** *** The [.dt] accessor *)

(** [series.dt.to_period('M')]; a period column has no [to_period]. *)
Definition dt_to_period (ix : index_col) : result index_col :=
  match ix with
  | Datetime64 ds => Ok (PeriodM (map month_of_day ds))
  | PeriodM _ =>
      Raise (AttributeError "'PeriodProperties' object has no attribute 'to_period'")
  end.

Definition year_of_day (z : Z) : Z := let '(y, _, _) := civil_from_days z in y.
Definition civil_month_of_day (z : Z) : Z := let '(_, m, _) := civil_from_days z in m.

(** [series.dt.year] and [series.dt.month] *)
Definition dt_year (ix : index_col) : column :=
  match ix with
  | Datetime64 ds => IntCol (map year_of_day ds)
  | PeriodM ps => IntCol (map period_year ps)
  end.

Definition dt_month_values (ix : index_col) : list Z :=
  match ix with
  | Datetime64 ds => map civil_month_of_day ds
  | PeriodM ps => map period_month ps
  end.

(** *** Shifts *)

(** [series.shift(n)] on float64 values. *)
Definition shift_floats (n : Z) (xs : list float) : list float :=
  if (0 <=? n)%Z
  then take (length xs) (replicate (Z.to_nat n) Float64.nan ++ xs)
  else drop (Z.to_nat (- n)) xs
       ++ replicate (Nat.min (Z.to_nat (- n)) (length xs)) Float64.nan.

(** [series.shift(n)]: an integer column becomes float64 as soon as a row
    has to hold NaN. *)
Definition shift (n : Z) (c : column) : column :=
  match c with
  | FloatCol xs => FloatCol (shift_floats n xs)
  | IntCol ns =>
      if orb (Z.eqb n 0) (Nat.eqb (length ns) 0) then IntCol ns
      else FloatCol (shift_floats n (map Float64.of_Z ns))
  end.

(** Value of the first later row of the same group. *)
Fixpoint next_in_group (k : Z) (keys : list Z) (xs : list float) : float :=
  match keys, xs with
  | k' :: keys', x :: xs' =>
      if Z.eqb k k' then x else next_in_group k keys' xs'
  | _, _ => Float64.nan
  end.

(** [df.groupby(key)[col].shift(-1)] on float64 values with integer keys. *)
Fixpoint groupby_shift_back (keys : list Z) (xs : list float) : list float :=
  match keys, xs with
  | k :: keys', x :: xs' =>
      next_in_group k keys' xs' :: groupby_shift_back keys' xs'
  | _, _ => []
  end.

(** *** dropna and ffill *)

Fixpoint all_true (ms : list (list bool)) (n : nat) : list bool :=
  match ms with
  | [] => replicate n true
  | m :: ms' => zip_with andb m (all_true ms' n)
  end.

(** Rows that hold no NaN in any of the [subset] columns. *)
Definition complete_rows (df : DataFrame) (subset : list string) : result (list bool) :=
  cols ← traverse (getitem df) subset;
  mret (all_true (map notna cols) (len df)).

(** [df.dropna(subset=subset)] *)
Definition dropna (df : DataFrame) (subset : list string) : result DataFrame :=
  m ← complete_rows df subset;
  mret (boolean_index df m).

Fixpoint ffill_from (last : float) (xs : list float) : list float :=
  match xs with
  | [] => []
  | x :: xs' =>
      let v := if Float64.isna x then last else x in
      v :: ffill_from v xs'
  end.

(** [series.ffill()] *)
Definition ffill (c : column) : column :=
  match c with
  | FloatCol xs => FloatCol (ffill_from Float64.nan xs)
  | IntCol ns => IntCol ns
  end.

(** *** Resampling to a monthly calendar *)

(** [pd.to_datetime(series)]: the identity on timestamps; period data is
    refused. *)
Definition to_datetime (ix : index_col) : result (list Z) :=
  match ix with
  | Datetime64 ds => Ok ds
  | PeriodM _ => Raise (TypeError "Passing PeriodDtype data is invalid")
  end.

Definition list_min (l : list Z) : option Z :=
  match l with [] => None | x :: l' => Some (fold_left Z.min l' x) end.

Definition list_max (l : list Z) : option Z :=
  match l with [] => None | x :: l' => Some (fold_left Z.max l' x) end.

(** The months [lo], [lo + 1], ..., [hi]. *)
Definition month_range (lo hi : Z) : list Z :=
  map (fun k => (lo + Z.of_nat k)%Z) (seq 0 (Z.to_nat (hi - lo + 1))).

(** The monthly bins that cover the observed dates. *)
Definition month_bins (ds : list Z) : list Z :=
  match list_min ds, list_max ds with
  | Some lo, Some hi => month_range (month_of_day lo) (month_of_day hi)
  | _, _ => []
  end.

Fixpoint index_from (i : nat) (z : Z) (l : list Z) : option nat :=
  match l with
  | [] => None
  | x :: l' => if Z.eqb x z then Some i else index_from (S i) z l'
  end.

Fixpoint has_duplicates (l : list Z) : bool :=
  match l with
  | [] => false
  | x :: l' => orb (existsb (Z.eqb x) l') (has_duplicates l')
  end.

(** [df.set_index('Date').resample('MS').asfreq().reset_index()]: one row
    per month start; a month start absent from the data holds NaN. *)
Definition resample_MS_asfreq (ds : list Z) (cols : list (string * column))
  : result DataFrame :=
  let labels := map month_start (month_bins ds) in
  if has_duplicates ds
  then Raise (ValueError "cannot reindex on an axis with duplicate labels")
  else
    let plan := map (fun t => index_from 0 t ds) labels in
    Ok {| Date := Datetime64 labels;
          columns := map (fun '(n, c) => (n, gather c plan)) cols |}.

(** Position of the last valid observation of month [p] in chronological
    order (of two rows of one date the later row counts as last). *)
Fixpoint last_from (i : nat) (p : Z) (ds : list Z) (valid : list bool)
  (best : option (Z * nat)) : option nat :=
  match ds, valid with
  | d :: ds', v :: valid' =>
      let later := match best with Some (d0, _) => (d0 <=? d)%Z | None => true end in
      let best' := if v && (month_of_day d =? p)%Z && later
                   then Some (d, i) else best in
      last_from (S i) p ds' valid' best'
  | _, _ => snd <$> best
  end.

(** [df.set_index('Date').resample('ME').last().reset_index()]: one row per
    month end, holding each column's last non-missing value of the month. *)
Definition resample_ME_last (ds : list Z) (cols : list (string * column))
  : DataFrame :=
  let bins := month_bins ds in
  {| Date := Datetime64 (map month_end bins);
     columns := map (fun '(n, c) =>
                       (n, gather c (map (fun p => last_from 0 p ds (notna c) None) bins)))
                    cols |}.

(** [df.rename(columns=mapper)] with a dict [mapper]. *)
Definition rename_columns (df : DataFrame) (mapper : gmap string string) : DataFrame :=
  {| Date := Date df;
     columns := map (fun '(n, c) => (default n (mapper !! n), c)) (columns df) |}.

(** [series.dt.to_timestamp()]: the first day of each period; a datetime
    column has no [to_timestamp]. *)
Definition dt_to_timestamp (ix : index_col) : result index_col :=
  match ix with
  | PeriodM ps => Ok (Datetime64 (map month_start ps))
  | Datetime64 _ =>
      Raise (AttributeError "'DatetimeProperties' object has no attribute 'to_timestamp'")
  end.

(** [series.dtype.name] *)
Definition dtype_name (ix : index_col) : string :=
  match ix with
  | Datetime64 _ => "datetime64[ns]"
  | PeriodM _ => "period[M]"
  end.

(** Python's [sub in s] on strings. *)
Definition str_contains (sub s : string) : bool :=
  match String.index 0 sub s with Some _ => true | None => false end.

(** [series >= p] and [series <= p] for a [Period] scalar [p] of monthly
    frequency: an ordering of timestamps against a period is refused. *)
Definition period_ge (ix : index_col) (p : Z) : result (list bool) :=
  match ix with
  | PeriodM qs => Ok (map (fun q => (p <=? q)%Z) qs)
  | Datetime64 _ =>
      Raise (TypeError "Invalid comparison between dtype=datetime64[ns] and Period")
  end.

Definition period_le (ix : index_col) (p : Z) : result (list bool) :=
  match ix with
  | PeriodM qs => Ok (map (fun q => (q <=? p)%Z) qs)
  | Datetime64 _ =>
      Raise (TypeError "Invalid comparison between dtype=datetime64[ns] and Period")
  end.

(** [mask.astype(int)] *)
Definition astype_int (m : list bool) : column := IntCol (map Z.b2z m).

(** [series.pct_change(fill_method=None)], that is
    [series / series.shift(1) - 1]. *)
Definition pct_change (c : column) : column :=
  let xs := to_floats c in
  FloatCol (zip_with (fun x previous =>
                        Float64.sub (Float64.div x previous) (Float64.of_Z 1))
                     xs (shift_floats 1 xs)).

(** [c * k] for a Python integer [k]. *)
Definition int_mul (c : column) (k : Z) : column :=
  match c with
  | IntCol ns => IntCol (map (fun n => wrap64 (n * k)) ns)
  | FloatCol xs => FloatCol (map (fun x => Float64.mul x (Float64.of_Z k)) xs)
  end.

(** The values of the rows dated in month [p], in row order. *)
Definition month_values (p : Z) (ds : list Z) (xs : list float) : list float :=
  omap (fun dx : Z * float => if (month_of_day dx.1 =? p)%Z then Some dx.2 else None)
       (zip ds xs).

End pd.

Import pd.

(** ** Frames as objects

    A Python variable holds a reference to a frame, and two references may
    name one frame.  The heap is threaded through the functions whose
    effect on their arguments matters below. *)

Module Heap.

Abbreviation ref := nat (only parsing).
Abbreviation heap := (list DataFrame) (only parsing).

Definition load (h : heap) (r : ref) : result DataFrame :=
  of_option NameError (h !! r).

Definition store (h : heap) (r : ref) (df : DataFrame) : heap := <[r := df]> h.

Definition alloc (h : heap) (df : DataFrame) : heap * ref := (h ++ [df], length h).

End Heap.

Import Heap.

(** ** processing.py

    The [load_data] flag only writes a CSV snapshot of the result and is left
    out, as are the text-to-number and text-to-date conversions
    ([str.replace], [pd.to_numeric], the format of [pd.to_datetime]), which
    act on cells the model holds in parsed form. *)

Module processing.

Local Open Scope Z_scope.

(** An entry of the meetings list returned by the central bank's API. *)
Record Ata : Type := { dataReferencia : Z }.

Definition Timedelta_days (k : Z) : Z := k.

(** The [for offset in range(1, 8)] loop of
    [filter_expected_inflation_dates], with its [break]. *)
Fixpoint fallback_search (offsets : list Z) (dates : list Z)
  (df_expected filtered_df : DataFrame) : DataFrame :=
  match offsets with
  | [] => filtered_df
  | offset :: offsets' =>
      if Nat.ltb 0 (len filtered_df) then filtered_df
      else
        let fallback_dates := map (fun d => d - Timedelta_days offset) dates in
        fallback_search offsets' dates df_expected
          (boolean_index df_expected
             (isin (index_values (Date df_expected)) fallback_dates))
  end.

Definition range_1_8 : list Z := [1; 2; 3; 4; 5; 6; 7].

(** [pd.DataFrame(atas_data)['dataReferencia']]: the frame made of an empty
    list has no columns, and the lookup raises [KeyError]. *)
Definition dataReferencia_column (atas_data : list Ata) : result (list Z) :=
  match atas_data with
  | [] => Raise (KeyError "dataReferencia")
  | _ :: _ => Ok (map dataReferencia atas_data)
  end.

(** The rename of the second column and the conversion of [Date] are also
    written into the caller's [df_expected]; only the returned selection is
    followed here. *)
Definition filter_expected_inflation_dates (atas_data : list Ata)
  (df_expected : DataFrame) : result DataFrame :=
  dates ← dataReferencia_column atas_data;
  let eve_dates := map (fun d => d - Timedelta_days 1) dates in
  ds ← to_datetime (Date df_expected);
  df_expected ← set_column_name {| Date := Datetime64 ds;
                                   columns := columns df_expected |}
                                1 "focus_expected_inflation";
  let filtered_df := boolean_index df_expected (isin ds eve_dates) in
  mret (fallback_search range_1_8 dates df_expected filtered_df).

Section Interpolation.

(** [Series.interpolate(method='linear')] on float64 values, a function
    of the library. *)
Variable interpolate_linear : list float -> list float.

Definition interpolate (c : column) : column :=
  match c with
  | FloatCol xs => FloatCol (interpolate_linear xs)
  | IntCol ns => IntCol ns
  end.

Definition interpolate_quartely_data (df : DataFrame) (column : string)
  : result DataFrame :=
  ds ← to_datetime (Date df);
  c ← getitem df column;
  let df := setitem df column c in
  df ← resample_MS_asfreq ds (columns df);
  c ← getitem df column;
  let df := setitem df column (interpolate c) in
  set_column_name df 1 "bcb_expected_inflation".

End Interpolation.

(** The source does not use its [column] argument. *)
Definition resample_daily_to_monthly (df : DataFrame) (column : string)
  : result DataFrame :=
  df ← set_column_name df 1 "selic_target";
  ds ← to_datetime (Date df);
  c ← getitem df "selic_target";
  let df := setitem df "selic_target" c in
  mret (resample_ME_last ds (columns df)).

(** The [try] block of the source converts the two columns with
    [pd.to_numeric] and passes over any exception: no effect on parsed
    columns. *)
Definition resample_annualy_to_monthly (df : DataFrame) : result DataFrame :=
  c1 ← column_name df 1;
  c2 ← column_name df 2;
  let df := rename_columns df (<[c2 := "interval_size"]>
                                (<[c1 := "inflation_target"]> ∅))%string in
  ds ← to_datetime (Date df);
  df ← resample_MS_asfreq ds (columns df);
  target ← getitem df "inflation_target";
  let df := setitem df "inflation_target" (ffill target) in
  target ← getitem df "inflation_target";
  interval ← getitem df "interval_size";
  let df := setitem df "upper_limit" (col_add target interval) in
  target ← getitem df "inflation_target";
  interval ← getitem df "interval_size";
  let df := setitem df "lower_limit" (col_sub target interval) in
  mret df.

(** The loop [for df in dfs: df['Date'] = df['Date'].dt.to_period('M')],
    which writes into the frames the caller passed. *)
Fixpoint to_period_loop (h : heap) (dfs : list ref) : result heap :=
  match dfs with
  | [] => Ok h
  | r :: dfs' =>
      df ← load h r;
      p ← dt_to_period (Date df);
      to_period_loop (store h r {| Date := p; columns := columns df |}) dfs'
  end.

(** [functools.reduce(lambda left, right: pd.merge(left, right, on='Date',
    how='left'), ...)] once the first element is taken as accumulator. *)
Fixpoint reduce_merge (left_df : DataFrame) (rest : list DataFrame) : result DataFrame :=
  match rest with
  | [] => Ok left_df
  | right_df :: rest' => m ← merge left_df right_df; reduce_merge m rest'
  end.

(** [merge_datasets]: returns the heap after the call and the reference of
    the merged frame.  Reducing a one-element list returns that element. *)
Definition merge_datasets (h : heap) (dfs : list ref) : result (heap * ref) :=
  h ← to_period_loop h dfs;
  match dfs with
  | [] => Raise (TypeError "reduce() of empty iterable with no initial value")
  | [r] => _ ← load h r; mret (h, r)
  | r :: rest =>
      first ← load h r;
      others ← traverse (load h) rest;
      df_merged ← reduce_merge first others;
      mret (alloc h df_merged)
  end.

(** One deviation column: [((12 - mes) / 12) * (expected - target)
    + (mes / 12) * (expected - target_next)]. *)
Definition deviation (mes expected target target_next : column) : column :=
  col_add (col_mul (int_truediv (int_rsub 12 mes) 12) (col_sub expected target))
          (col_mul (int_truediv mes 12) (col_sub expected target_next)).

(** [calculate_deviation_from_target] on the copy it makes of its
    argument. *)
Definition calculate_deviation_from_target (df_final : DataFrame)
  : result DataFrame :=
  let df_final := setitem df_final "ano" (dt_year (Date df_final)) in
  let mes := dt_month_values (Date df_final) in
  let df_final := setitem df_final "mes" (IntCol mes) in
  target ← getitem df_final "inflation_target";
  let target_next := FloatCol (groupby_shift_back mes (to_floats target)) in
  let df_final := setitem df_final "inflation_target_next" target_next in
  bcb ← getitem df_final "bcb_expected_inflation";
  target ← getitem df_final "inflation_target";
  target_next ← getitem df_final "inflation_target_next";
  let df_final := setitem df_final "bcb_inflation_deviation"
                    (deviation (IntCol mes) bcb target target_next) in
  focus ← getitem df_final "focus_expected_inflation";
  target ← getitem df_final "inflation_target";
  target_next ← getitem df_final "inflation_target_next";
  let df_final := setitem df_final "focus_inflation_deviation"
                    (deviation (IntCol mes) focus target target_next) in
  mret df_final.

(** The same on the heap: [df_final.copy()] is a new object, the argument
    stays as it was. *)
Definition calculate_deviation_from_target_at (h : heap) (r : ref)
  : result (heap * ref) :=
  df_final ← load h r;
  df_final ← calculate_deviation_from_target df_final;
  mret (alloc h df_final).

(** [process_inflation]: the second column is named [inflation_12m]; the
    frame is not resampled. *)
Definition process_inflation (df : DataFrame) : result DataFrame :=
  df ← set_column_name df 1 "inflation_12m";
  ds ← to_datetime (Date df);
  let df := {| Date := Datetime64 ds; columns := columns df |} in
  c ← getitem df "inflation_12m";
  let df := setitem df "inflation_12m" c in
  mret df.

Section HPFilter.

(** [statsmodels.tsa.filters.hp_filter.hpfilter(series, lamb)], a function
    of the library: the cycle and the trend of the series, or an
    exception. *)
Variable Lambda : Type.
Variable hpfilter : list float -> Lambda -> result (list float * list float).

(** In [dropna(subset=['Date', column])] the [Date] entry has no effect on
    parsed dates. *)
Definition hp_filter_output (df : DataFrame) (column : string) (lamb : Lambda)
  : result DataFrame :=
  ds ← to_datetime (Date df);
  df ← dropna {| Date := Datetime64 ds; columns := columns df |} [column];
  c ← getitem df column;
  '(_, output_potential) ← hpfilter (to_floats c) lamb;
  let df := setitem df "output_potential" (FloatCol output_potential) in
  c ← getitem df column;
  potential ← getitem df "output_potential";
  let df := setitem df "output_gap" (col_sub c potential) in
  mret df.

End HPFilter.

Section ExchangeRate.

(** Two functions of the library: numpy's [argsort] of the dates, by which
    [sort_index] reorders the rows, and the mean [resample('ME').mean()]
    takes of the values of one month. *)
Variable argsort : list Z -> list nat.
Variable group_mean : list float -> float.

Definition sort_index (df : DataFrame) : DataFrame :=
  let order := argsort (index_values (Date df)) in
  {| Date := gather_index (Date df) order;
     columns := map (fun '(n, c) => (n, gather c (map Some order))) (columns df) |}.

(** [df.set_index('Date').resample('ME').mean().reset_index()] on a frame
    sorted by date. *)
Definition resample_ME_mean (ds : list Z) (cols : list (string * column))
  : DataFrame :=
  let bins := month_bins ds in
  {| Date := Datetime64 (map month_end bins);
     columns := map (fun '(n, c) =>
                       (n, FloatCol (map (fun p => group_mean
                                                     (month_values p ds (to_floats c)))
                                         bins)))
                    cols |}.

Definition process_exchange_rate_data (df : DataFrame) : result DataFrame :=
  df ← set_column_name df 1 "exchange_rate";
  ds ← to_datetime (Date df);
  let df := {| Date := Datetime64 ds; columns := columns df |} in
  c ← getitem df "exchange_rate";
  let df := setitem df "exchange_rate" c in
  c ← getitem df "exchange_rate";
  let df := setitem df "exchange_rate" c in
  let df := sort_index df in
  let df := resample_ME_mean (index_values (Date df)) (columns df) in
  c ← getitem df "exchange_rate";
  let df := setitem df "exchange_rate_var" (int_mul (pct_change c) 100) in
  mret df.

End ExchangeRate.

End processing.

(** ** estimation.py *)

Module estimation.

Local Open Scope Z_scope.

Record TaylorRuleEstimator : Type := {
  data : DataFrame;
  source : string;
  lag : Z
}.

(** [TaylorRuleEstimator(data, source, lag)]: [self.data = data.copy()]. *)
Definition __init__ (h : heap) (r : ref) (source : string) (lag : Z)
  : result TaylorRuleEstimator :=
  data ← load h r;
  mret {| data := data; source := source; lag := lag |}.

Definition with_data (self : TaylorRuleEstimator) (d : DataFrame) : TaylorRuleEstimator :=
  {| data := d; source := source self; lag := lag self |}.

(** The methods update [self.data]; they return the estimator after the
    call. *)
Definition _source_column (self : TaylorRuleEstimator) : result TaylorRuleEstimator :=
  if String.eqb (source self) "market" then
    c ← getitem (data self) "focus_inflation_deviation";
    mret (with_data self (setitem (data self) "inf_dev" c))
  else if String.eqb (source self) "bc" then
    c ← getitem (data self) "bcb_inflation_deviation";
    mret (with_data self (setitem (data self) "inf_dev" c))
  else Raise (ValueError "Source must be either 'market' or 'bc'.").

Definition _apply_lag (self : TaylorRuleEstimator) : result TaylorRuleEstimator :=
  c ← getitem (data self) "output_gap";
  let d := setitem (data self) "output_gap_lag" (shift (lag self) c) in
  c ← getitem d "exchange_rate_var";
  let d := setitem d "exchange_rate_var_lag" (shift (lag self) c) in
  c ← getitem d "selic_target";
  let d := setitem d "selic_target_lag" (shift (lag self) c) in
  d ← dropna d ["output_gap_lag"; "exchange_rate_var_lag"; "selic_target_lag"; "inf_dev"]%string;
  mret (with_data self d).

(** A model built by [smf.ols(formula, data)]: the names of the formula
    and the rows patsy keeps, those with no NaN in a variable of the
    formula. *)
Record OLS : Type := {
  endog : string;
  exog : list string;
  design : DataFrame
}.

Definition nobs (m : OLS) : nat := len (design m).

Definition ols (endog_ : string) (exog_ : list string) (d : DataFrame) : result OLS :=
  match complete_rows d (endog_ :: exog_) with
  | Ok m => Ok {| endog := endog_; exog := exog_; design := boolean_index d m |}
  | Raise (KeyError name) => Raise (PatsyError name)
  | Raise e => Raise e
  end.

(** The three [smf.ols] calls shared by [estimate_naive] and
    [estimate_range]. *)
Definition three_models (d : DataFrame) : result (OLS * OLS * OLS) :=
  model_i ← ols "selic_target" ["selic_target_lag"; "inf_dev"]%string d;
  model_ii ← ols "selic_target"
               ["selic_target_lag"; "inf_dev"; "output_gap_lag"]%string d;
  model_iii ← ols "selic_target"
                ["selic_target_lag"; "inf_dev"; "output_gap_lag";
                 "exchange_rate_var_lag"]%string d;
  mret (model_i, model_ii, model_iii).

Definition estimate_naive (self : TaylorRuleEstimator)
  : result (TaylorRuleEstimator * (OLS * OLS * OLS)) :=
  self ← _source_column self;
  self ← _apply_lag self;
  ms ← three_models (data self);
  mret (self, ms).

(** [(data['ano'] >= lo) & (data['ano'] <= hi)] *)
Definition between (c : column) (lo hi : Z) : list bool :=
  match c with
  | IntCol ns => map (fun n => (lo <=? n) && (n <=? hi)) ns
  | FloatCol xs =>
      map (fun x => Float64.leb (Float64.of_Z lo) x && Float64.leb x (Float64.of_Z hi)) xs
  end.

Definition estimate_range (self : TaylorRuleEstimator) (year_range : Z * Z)
  : result (TaylorRuleEstimator * (OLS * OLS * OLS)) :=
  self ← _source_column self;
  self ← _apply_lag self;
  ano ← getitem (data self) "ano";
  let df_range := boolean_index (data self)
                    (between ano (fst year_range) (snd year_range)) in
  if empty df_range
  then Raise (ValueError "No data available for the specified year range")
  else
    ms ← three_models df_range;
    mret (self, ms).

(** A model whose formula has interaction terms: each term is the list of
    the variables it multiplies, [a:b] being [[a; b]]. *)
Definition ols_terms (endog_ : string) (terms : list (list string)) (d : DataFrame)
  : result OLS :=
  match complete_rows d (endog_ :: concat terms) with
  | Ok m => Ok {| endog := endog_; exog := map (String.concat ":") terms;
                  design := boolean_index d m |}
  | Raise (KeyError name) => Raise (PatsyError name)
  | Raise e => Raise e
  end.

(** The body of the [try] block of [estimate_finer]; [dummy_range] holds
    the two months [pd.Period(..., freq='M')] reads from its texts. *)
Definition dummy_var (df_range : DataFrame) (dummy_range : Z * Z)
  : result DataFrame :=
  let start_period := fst dummy_range in
  let end_period := snd dummy_range in
  df_range ← (if negb (negb (str_contains "Period" (dtype_name (Date df_range))))
              then p ← dt_to_period (Date df_range);
                   mret {| Date := p; columns := columns df_range |}
              else mret df_range);
  ge ← period_ge (Date df_range) start_period;
  le ← period_le (Date df_range) end_period;
  mret (setitem df_range "dummy_var" (astype_int (zip_with andb ge le))).

(** [try: ... except Exception as e: raise ValueError(...) from e] *)
Definition except_as_ValueError {A : Type} (msg : string) (m : result A) : result A :=
  match m with
  | Ok a => Ok a
  | Raise _ => Raise (ValueError msg)
  end.

Definition estimate_finer (self : TaylorRuleEstimator) (year_range : Z * Z)
  (dummy_range : Z * Z) : result (TaylorRuleEstimator * (OLS * OLS * OLS)) :=
  self ← _source_column self;
  self ← _apply_lag self;
  ano ← getitem (data self) "ano";
  let df_range := boolean_index (data self)
                    (between ano (fst year_range) (snd year_range)) in
  if empty df_range
  then Raise (ValueError "No data available for the specified year range")
  else
    df_range ← except_as_ValueError "Error creating dummy variable"
                 (dummy_var df_range dummy_range);
    model_i ← ols_terms "selic_target"
                [["selic_target_lag"]; ["inf_dev"]; ["dummy_var"; "inf_dev"]]%string
                df_range;
    model_ii ← ols_terms "selic_target"
                 [["selic_target_lag"]; ["inf_dev"]; ["output_gap_lag"];
                  ["dummy_var"; "inf_dev"]]%string
                 df_range;
    model_iii ← ols_terms "selic_target"
                  [["selic_target_lag"]; ["inf_dev"]; ["output_gap_lag"];
                   ["exchange_rate_var_lag"]; ["dummy_var"; "inf_dev"]]%string
                  df_range;
    mret (self, (model_i, model_ii, model_iii)).

Section Fit.

(** [model.fit(cov_type='HAC', cov_kwds={'maxlags': 4})], a function of the
    library, with the type of what it returns. *)
Variable RegressionResultsWrapper : Type.
Variable fit : OLS -> result RegressionResultsWrapper.

(** [fit_models(function)]: the caller has evaluated the argument; with
    [None] the method calls [estimate_naive] itself. *)
Definition fit_models (self : TaylorRuleEstimator) (function : option (OLS * OLS * OLS))
  : result (TaylorRuleEstimator
            * (RegressionResultsWrapper * RegressionResultsWrapper
               * RegressionResultsWrapper)) :=
  '(self, (model_i, model_ii, model_iii)) ←
    match function with
    | None => estimate_naive self
    | Some models => mret (self, models)
    end;
  results_i ← fit model_i;
  results_ii ← fit model_ii;
  results_iii ← fit model_iii;
  mret (self, (results_i, results_ii, results_iii)).

End Fit.

End estimation.

(** ** analytics.py *)

Module analytics.

Local Open Scope Z_scope.

(** What the code reads from a statsmodels regression result: the
    coefficient series, and the outcome of the three library calls made on
    it ([summary()], [t_test(hypothesis)] and
    [acorr_breusch_godfrey(results, nlags)]). *)
Record RegressionResults : Type := {
  params : gmap string float;
  summary : string;
  t_test : string -> string;
  acorr_breusch_godfrey : Z -> float * float * float * float
}.

(** [params[key]]: a missing label raises [KeyError]. *)
Definition getitem (p : gmap string float) (key : string) : result float :=
  of_option (KeyError key) (p !! key).

(** [params.get(key, 0)]: the default is the Python integer [0], which the
    following division converts to float64. *)
Definition get (p : gmap string float) (key : string) (dflt : Z) : float :=
  default (Float64.of_Z dflt) (p !! key).

(** [analyze.estructural_params] *)
Definition estructural_params (results : RegressionResults)
  : result (float * float * float * float) :=
  alpha1 ← getitem (params results) "selic_target_lag";
  inf_dev ← getitem (params results) "inf_dev";
  let alpha2 := Float64.div inf_dev (Float64.sub (Float64.of_Z 1) alpha1) in
  let alpha3 := Float64.div (get (params results) "output_gap_lag" 0)
                            (Float64.sub (Float64.of_Z 1) alpha1) in
  let alpha4 := Float64.div (get (params results) "exchange_rate_var_lag" 0)
                            (Float64.sub (Float64.of_Z 1) alpha1) in
  mret (alpha1, alpha2, alpha3, alpha4).

(** [analyze.lm_value]: component 3 of the Breusch-Godfrey tuple. *)
Definition lm_value (results : RegressionResults) : float :=
  let '(_, _, _, x3) := acorr_breusch_godfrey results 4 in x3.

(** The values interpolated into the report text, in the order of the
    f-string of [summarize_results]. *)
Record Report : Type := {
  rep_alpha1 : float;
  rep_alpha2 : float;
  rep_alpha3 : float;
  rep_alpha4 : float;
  rep_lm_stat : float;
  rep_test : string;
  rep_summary : string
}.

(** [analyze.summarize_results] *)
Definition summarize_results (results : RegressionResults) : result Report :=
  let summary_ := summary results in
  '(alpha1, alpha2, alpha3, alpha4) ← estructural_params results;
  let test := t_test results "inf_dev + selic_target_lag = 1" in
  let lm_stat := lm_value results in
  mret {| rep_alpha1 := alpha1; rep_alpha2 := alpha2; rep_alpha3 := alpha3;
          rep_alpha4 := alpha4; rep_lm_stat := lm_stat; rep_test := test;
          rep_summary := summary_ |}.

End analytics.

(** ** pipeline.py *)

Module pipeline.

Import analytics.

(** Key of the results dictionary: the source and the year range. *)
Definition key : Type := string * option (Z * Z).

(** [res_list[-1]] *)
Definition last_item {A : Type} (l : list A) : result A :=
  of_option IndexError (last l).

(** The entry [results[(source, normalized_range)] = res] written by
    [run_estimation], where [est, *res = self.estimate_taylor_rule(...)]. *)
Definition entry (x : key * (RegressionResults * RegressionResults * RegressionResults))
  : key * list RegressionResults :=
  let '(k, (results_i, results_ii, results_iii)) := x in
  (k, [results_i; results_ii; results_iii]).

(** The part of an entry that belongs to specification III. *)
Definition third (x : key * (RegressionResults * RegressionResults * RegressionResults))
  : key * RegressionResults :=
  let '(k, (_, _, results_iii)) := x in (k, results_iii).

(** [Pipeline.run_analysis]: the dictionaries are taken in insertion
    order. *)
Definition run_analysis (results : list (key * list RegressionResults))
  : result (list (key * Report)) :=
  traverse (fun '(k, res_list) =>
              r ← last_item res_list;
              summary_text ← summarize_results r;
              mret (k, summary_text))
           results.

(** What a method of [Pipeline] does: it returns, or it raises
    [PipelineError] from the exception it caught. *)
Inductive outcome (A : Type) : Type :=
| Returned (a : A)
| PipelineError (msg : string) (cause : exn).

Arguments Returned {A} a.
Arguments PipelineError {A} msg cause.

(** [try: ... except Exception as e: raise PipelineError(msg) from e] *)
Definition except_as_PipelineError {A : Type} (msg : string) (m : result A) : outcome A :=
  match m with
  | Ok a => Returned a
  | Raise e => PipelineError msg e
  end.

(** An entry of [config['estimation']['year_ranges']]. *)
Record YearRange : Type := {
  start : Z;
  end_ : Z;
  dummy_range : option (Z * Z)
}.

(** [d[k] = v] on a dictionary in insertion order: a key that is present
    keeps its place. *)
Fixpoint dict_set {V : Type} (k : key) (v : V) (d : list (key * V)) : list (key * V) :=
  match d with
  | [] => [(k, v)]
  | (k', v') :: d' =>
      if decide (k' = k) then (k, v) :: d' else (k', v') :: dict_set k v d'
  end.

(** [d.get(k)] *)
Fixpoint dict_get {V : Type} (k : key) (d : list (key * V)) : option V :=
  match d with
  | [] => None
  | (k', v') :: d' => if decide (k' = k) then Some v' else dict_get k d'
  end.

Section Estimation.

(** The fit of the library and [int(self.config['estimation']['lag'])]. *)
Variable fit : estimation.OLS -> result RegressionResults.
Variable lag : Z.

(** [Pipeline.estimate_taylor_rule]; the decorator [log_execution] logs and
    re-raises. *)
Definition estimate_taylor_rule (h : heap) (data : ref) (source : string)
  (year_range : option (Z * Z)) (dummy_range : option (Z * Z))
  : outcome (estimation.TaylorRuleEstimator
             * (RegressionResults * RegressionResults * RegressionResults)) :=
  except_as_PipelineError "Failed to estimate Taylor Rule"
    (estimator ← estimation.__init__ h data source lag;
     match year_range with
     | None => estimation.fit_models _ fit estimator None
     | Some year_range =>
         match dummy_range with
         | Some dummy_range =>
             '(estimator, models) ← estimation.estimate_finer estimator year_range
                                      dummy_range;
             estimation.fit_models _ fit estimator (Some models)
         | None =>
             '(estimator, models) ← estimation.estimate_range estimator year_range;
             estimation.fit_models _ fit estimator (Some models)
         end
     end).

(** [tuple((year_range['start'], year_range['end'])) if year_range else None] *)
Definition normalized_range (year_range : option YearRange) : option (Z * Z) :=
  match year_range with
  | Some r => Some (start r, end_ r)
  | None => None
  end.

(** [year_range.get('dummy_range') if year_range else None] *)
Definition dummy_range_of (year_range : option YearRange) : option (Z * Z) :=
  match year_range with
  | Some r => dummy_range r
  | None => None
  end.

(** The loop [for i in range(2)] of [run_estimation], over the sources
    ["market"] and ["bc"] in that order. *)
Fixpoint run_sources (h : heap) (df_final : ref) (year_range : option YearRange)
  (sources : list string) (results : list (key * list RegressionResults))
  : outcome (list (key * list RegressionResults)) :=
  match sources with
  | [] => Returned results
  | source :: sources' =>
      match estimate_taylor_rule h df_final source (normalized_range year_range)
              (dummy_range_of year_range) with
      | PipelineError msg cause => PipelineError msg cause
      | Returned (est, (results_i, results_ii, results_iii)) =>
          run_sources h df_final year_range sources'
            (dict_set (source, normalized_range year_range)
                      [results_i; results_ii; results_iii] results)
      end
  end.

(** The loop [for year_range in ranges or [None]]. *)
Fixpoint run_ranges (h : heap) (df_final : ref) (ranges : list (option YearRange))
  (results : list (key * list RegressionResults))
  : outcome (list (key * list RegressionResults)) :=
  match ranges with
  | [] => Returned results
  | year_range :: ranges' =>
      match run_sources h df_final year_range ["market"; "bc"]%string results with
      | PipelineError msg cause => PipelineError msg cause
      | Returned results => run_ranges h df_final ranges' results
      end
  end.

(** [Pipeline.run_estimation] on a final dataset that is given; the
    dictionary of the estimators, which is not returned, is left out. *)
Definition run_estimation (h : heap) (df_final : ref)
  (ranges : option (list (option YearRange)))
  : outcome (list (key * list RegressionResults)) :=
  let ranges := match ranges with
                | None | Some [] => [None]
                | Some ranges => ranges
                end in
  run_ranges h df_final ranges [].

End Estimation.

End pipeline.

(** ** vizualization.py

    Of a plot the model keeps the series handed to [plt.plot], in the order
    of the calls. *)

Module vizualization.

(** [Plotter(data)]: [self.data = data], the caller's frame and no copy. *)
Record Plotter : Type := { data : ref }.

(** One call [plt.plot(x, y, label=...)]. *)
Record Line : Type := {
  label : string;
  xdata : index_col;
  ydata : column
}.

(** [Plotter.plot_inflation]: returns the heap after the call and the
    lines drawn. *)
Definition plot_inflation (h : heap) (self : Plotter) : result (heap * list Line) :=
  df ← load h (data self);
  ts ← dt_to_timestamp (Date df);
  let df := {| Date := ts; columns := columns df |} in
  let h := store h (data self) df in
  inflation ← getitem df "inflation_12m";
  with_limit ← dropna df ["upper_limit"%string];
  with_limit' ← dropna df ["upper_limit"%string];
  target ← getitem with_limit' "inflation_target";
  expected ← getitem df "focus_expected_inflation";
  with_limit_l ← dropna df ["upper_limit"%string];
  with_limit_l' ← dropna df ["upper_limit"%string];
  lower ← getitem with_limit_l' "lower_limit";
  with_limit_u ← dropna df ["upper_limit"%string];
  with_limit_u' ← dropna df ["upper_limit"%string];
  upper ← getitem with_limit_u' "upper_limit";
  mret (h,
        [ {| label := "12-Month Inflation Rate"; xdata := Date df; ydata := inflation |};
          {| label := "Inflation Target"; xdata := Date with_limit; ydata := target |};
          {| label := "Expected Inflation"; xdata := Date df; ydata := expected |};
          {| label := "Lower Limit"; xdata := Date with_limit_l; ydata := lower |};
          {| label := "Upper Limit"; xdata := Date with_limit_u; ydata := upper |} ]).

End vizualization.

(** * Vocabulary of the statements *)

(** What [run_analysis] does with one entry, in terms of its third result. *)
Definition report_of_third (x : pipeline.key * analytics.RegressionResults)
  : result (pipeline.key * analytics.Report) :=
  summary_text ← analytics.summarize_results x.2;
  mret (x.1, summary_text).

(** The event alignment as the specification words it (not as the code
    does it): each meeting date looks for its own first offset among one to
    seven days before. *)
Definition meeting_offset (survey_dates : list Z) (d : Z) : option Z :=
  find (fun k => existsb (Z.eqb (d - k)%Z) survey_dates) processing.range_1_8.

Definition dates_selected_per_meeting (dates survey_dates : list Z) : list Z :=
  omap (fun d => (fun k => (d - k)%Z) <$> meeting_offset survey_dates d) dates.

Definition per_meeting_alignment (dates : list Z) (df_expected : DataFrame) : DataFrame :=
  let ds := index_values (Date df_expected) in
  boolean_index df_expected (isin ds (dates_selected_per_meeting dates ds)).

(** What the code selects at one offset, for all meetings at once. *)
Definition selection_at (dates : list Z) (df_expected : DataFrame) (offset : Z) : DataFrame :=
  boolean_index df_expected
    (isin (index_values (Date df_expected)) (map (fun d => (d - offset)%Z) dates)).

(** A month key that grows strictly from row to row. *)
Fixpoint ascending (l : list Z) : bool :=
  match l with
  | x :: l' =>
      match l' with
      | y :: _ => (x <? y)%Z && ascending l'
      | [] => true
      end
  | [] => true
  end.

(** The next-year target as the documentation words it,
    [inflation_target(t+1)] (not as the code does it): the target of the row
    dated twelve months after month [p], missing when the panel has no such
    row. *)
Definition target_following_year (ps : list Z) (target : list float) (p : Z)
  : float :=
  default Float64.nan (index_from 0 (p + 12)%Z ps ≫= (target !!.)).

(** The forward-looking blend of the deviation for calendar month [m]. *)
Definition blend (m : Z) (expected target_now target_next : float) : float :=
  Float64.add
    (Float64.mul (Float64.div (Float64.of_Z (12 - m)) (Float64.of_Z 12))
                 (Float64.sub expected target_now))
    (Float64.mul (Float64.div (Float64.of_Z m) (Float64.of_Z 12))
                 (Float64.sub expected target_next)).

(** The float64 values of a deviation column computed from float64 columns
    and the integer month column. *)
Definition deviation_values (mes : list Z) (expected target target_next : list float)
  : list float :=
  zip_with Float64.add
    (zip_with Float64.mul
       (map (fun x => Float64.div x (Float64.of_Z 12))
            (map Float64.of_Z (map (fun n => wrap64 (12 - n)) mes)))
       (zip_with Float64.sub expected target))
    (zip_with Float64.mul
       (map (fun x => Float64.div x (Float64.of_Z 12)) (map Float64.of_Z mes))
       (zip_with Float64.sub expected target_next)).

(** Number of rows selected by the year mask [m] that are complete
    according to [c]. *)
Definition sample_size (m c : list bool) (ix : list Z) : nat :=
  length (mask_filter (zip_with andb m c) ix).

(** The inclusive year test of [estimate_range] on integer years. *)
Definition in_years (lo hi : Z) (n : Z) : bool := ((lo <=? n) && (n <=? hi))%Z.

(** The variables of the three specifications. *)
Definition spec_i : list string :=
  ["selic_target"; "selic_target_lag"; "inf_dev"]%string.
Definition spec_ii : list string :=
  ["selic_target"; "selic_target_lag"; "inf_dev"; "output_gap_lag"]%string.
Definition spec_iii : list string :=
  ["selic_target"; "selic_target_lag"; "inf_dev"; "output_gap_lag";
   "exchange_rate_var_lag"]%string.

(** The months covered by the [Date] column of a frame. *)
Definition months_of (df : DataFrame) : list Z :=
  match Date df with
  | Datetime64 ds => map month_of_day ds
  | PeriodM ps => ps
  end.

(** Each entry is the month after the one before it. *)
Fixpoint consecutive (l : list Z) : bool :=
  match l with
  | x :: l' =>
      match l' with
      | y :: _ => (y =? x + 1)%Z && consecutive l'
      | [] => true
      end
  | [] => true
  end.

(** Days from 1 March of year 0 to 1 March of year [y]. *)
Definition days_before_year (y : Z) : Z :=
  (365 * y + y / 4 - y / 100 + y / 400)%Z.

(** The year of the era as [civil_from_days] computes it from the day of the
    era. *)
Definition year_of_era (doe : Z) : Z :=
  ((doe - doe / 1460 + doe / 36524 - doe / 146096) / 365)%Z.

(** Checks, for [fuel] years from [y] on, that the first and the last day of
    a year are given that year. *)
Fixpoint years_checked (fuel : nat) (y : Z) : bool :=
  match fuel with
  | O => true
  | S fuel' =>
      (year_of_era (days_before_year y) =? y)%Z
      && (year_of_era (days_before_year (y + 1) - 1) =? y)%Z
      && years_checked fuel' (y + 1)%Z
  end.

(** Checks, for [fuel] months from [p] on, that the labels of a month lie
    in that month. *)
Fixpoint labels_in_month (fuel : nat) (p : Z) : bool :=
  match fuel with
  | O => true
  | S fuel' =>
      (month_of_day (month_start p) =? p)%Z
      && (month_of_day (month_end p) =? p)%Z
      && labels_in_month fuel' (p + 1)%Z
  end.

Definition col_length (c : column) : nat :=
  match c with FloatCol xs => length xs | IntCol ns => length ns end.

(** Every column has one entry per row. *)
Definition well_formed (df : DataFrame) : Prop :=
  Forall (fun nc => col_length nc.2 = len df) (columns df).

(** The columns under their names extended by a suffix. *)
Definition with_suffix (suffix : string) (cols : list (string * column))
  : list (string * column) :=
  map (fun nc => ((nc.1 ++ suffix)%string, nc.2)) cols.

(** Row [j] holds [x], the last non-missing observation of month [p]: no
    non-missing observation of the month has a later date, or the same date
    in a later row. *)
Definition last_observation (p : Z) (ds : list Z) (xs : list float)
  (j : nat) (x : float) : Prop :=
  exists d,
    ds !! j = Some d /\ xs !! j = Some x /\ Float64.notna x = true
    /\ month_of_day d = p
    /\ forall j' d' x',
         ds !! j' = Some d' -> xs !! j' = Some x' -> Float64.notna x' = true ->
         month_of_day d' = p -> (d' < d)%Z \/ (d' = d /\ j' <= j).

(** What [last_from] has found after the rows before position [i]. *)
Definition best_so_far (p : Z) (DS : list Z) (VALID : list bool) (i : nat)
  (best : option (Z * nat)) : Prop :=
  match best with
  | None =>
      forall j d, j < i -> DS !! j = Some d -> VALID !! j = Some true ->
                  month_of_day d <> p
  | Some (d0, j0) =>
      j0 < i /\ DS !! j0 = Some d0 /\ VALID !! j0 = Some true /\ month_of_day d0 = p
      /\ forall j d, j < i -> DS !! j = Some d -> VALID !! j = Some true ->
                     month_of_day d = p -> (d < d0)%Z \/ (d = d0 /\ j <= j0)
  end.


(** A float64 zero of either sign. *)
Definition is_zero (x : float) : bool :=
  match x with S754_zero _ => true | _ => false end.

(** The entry one estimation run writes into the results dictionary for
    [source] and [year_range]. *)
Definition written (fit : estimation.OLS -> result analytics.RegressionResults)
  (lag : Z) (h : heap) (df_final : ref) (source : string)
  (year_range : option pipeline.YearRange)
  (results : list (pipeline.key * list analytics.RegressionResults)) : Prop :=
  exists est results_i results_ii results_iii,
    pipeline.estimate_taylor_rule fit lag h df_final source
      (pipeline.normalized_range year_range) (pipeline.dummy_range_of year_range)
    = pipeline.Returned (est, (results_i, results_ii, results_iii))
    /\ pipeline.dict_get (source, pipeline.normalized_range year_range) results
       = Some [results_i; results_ii; results_iii].

(** * Example data *)

Module Examples.
Import analytics.

Definition day (y m d : Z) : Z := days_from_civil y m d.
Definition dec (m : Z) (k : nat) : float := Float64.of_decimal m k.

(** Two policy meetings; the survey has a row on the eve of the first and,
    for the second, only five days before it. *)
Definition meetings : list processing.Ata :=
  [ {| processing.dataReferencia := day 2024 1 31 |};
    {| processing.dataReferencia := day 2024 3 20 |} ].

Definition survey : DataFrame :=
  {| Date := Datetime64 [day 2024 1 30; day 2024 2 10; day 2024 3 15];
     columns := [("Mediana"%string, FloatCol [dec 39 1; dec 40 1; dec 41 1])] |}.

(** A panel with the months June 2003 and June 2004. *)
Definition june_panel : DataFrame :=
  {| Date := PeriodM [period 2003 6; period 2004 6];
     columns := [("focus_expected_inflation"%string, FloatCol [dec 50 1; dec 45 1]);
                 ("bcb_expected_inflation"%string, FloatCol [dec 50 1; dec 40 1]);
                 ("inflation_target"%string, FloatCol [dec 40 1; dec 35 1])] |}.

(** A panel with June 2003 and June 2005 and no row for June 2004, as the
    event-aligned panel has when no meeting falls in a month; and a panel
    with two rows in June 2003, as it has when two meetings fall in one
    month. *)
Definition skipped_year_panel : DataFrame :=
  {| Date := PeriodM [period 2003 6; period 2005 6];
     columns := [("focus_expected_inflation"%string, FloatCol [dec 50 1; dec 45 1]);
                 ("bcb_expected_inflation"%string, FloatCol [dec 50 1; dec 40 1]);
                 ("inflation_target"%string, FloatCol [dec 40 1; dec 35 1])] |}.

Definition repeated_month_panel : DataFrame :=
  {| Date := PeriodM [period 2003 6; period 2003 6; period 2004 6];
     columns := [("focus_expected_inflation"%string,
                  FloatCol [dec 50 1; dec 50 1; dec 45 1]);
                 ("bcb_expected_inflation"%string,
                  FloatCol [dec 50 1; dec 50 1; dec 40 1]);
                 ("inflation_target"%string,
                  FloatCol [dec 40 1; dec 40 1; dec 35 1])] |}.

(** A merged panel of eight months over the years 4, 5, 10, 11 and 13. *)
Definition small_panel : DataFrame :=
  {| Date := PeriodM [0; 1; 2; 3; 4; 5; 6; 7]%Z;
     columns :=
       [("ano"%string, IntCol [4; 5; 5; 10; 11; 11; 13; 13]%Z);
        ("selic_target"%string,
         FloatCol [dec 190 1; dec 185 1; dec 180 1; dec 175 1; dec 170 1;
                   dec 165 1; Float64.nan; dec 160 1]);
        ("output_gap"%string,
         FloatCol [dec 1 1; dec 2 1; dec 3 1; dec 4 1; dec 5 1; dec 6 1;
                   dec 7 1; dec 8 1]);
        ("exchange_rate_var"%string,
         FloatCol [Float64.nan; dec 11 1; dec 12 1; dec 13 1; dec 14 1;
                   dec 15 1; dec 16 1; dec 17 1]);
        ("focus_inflation_deviation"%string,
         FloatCol [dec 5 1; dec 6 1; dec 7 1; dec 8 1; Float64.nan; dec 9 1;
                   dec 10 1; dec 11 1]);
        ("bcb_inflation_deviation"%string,
         FloatCol [dec 5 1; dec 6 1; dec 7 1; dec 8 1; dec 9 1; dec 9 1;
                   dec 10 1; dec 11 1])] |}.

Definition market_estimator : estimation.TaylorRuleEstimator :=
  {| estimation.data := small_panel; estimation.source := "market";
     estimation.lag := 1 |}.

(** Annual inflation targets for 2020 and 2021 with their interval width. *)
Definition annual_targets : DataFrame :=
  {| Date := Datetime64 [day 2020 1 1; day 2021 1 1];
     columns := [("Meta"%string, FloatCol [dec 400 2; dec 375 2]);
                 ("Intervalo"%string, FloatCol [dec 150 2; dec 150 2])] |}.

(** The monthly frame computed from [annual_targets]. *)
Definition annual_monthly : DataFrame :=
  match processing.resample_annualy_to_monthly annual_targets with
  | Ok out => out
  | Raise _ => annual_targets
  end.

(** Three meetings, two of them in January 2024 and none in February, each
    with a survey row on its eve. *)
Definition three_meetings : list processing.Ata :=
  [ {| processing.dataReferencia := day 2024 1 10 |};
    {| processing.dataReferencia := day 2024 1 31 |};
    {| processing.dataReferencia := day 2024 3 20 |} ].

Definition eve_survey : DataFrame :=
  {| Date := Datetime64 [day 2024 1 9; day 2024 1 30; day 2024 3 19];
     columns := [("Mediana"%string, FloatCol [dec 38 1; dec 39 1; dec 41 1])] |}.

(** Two normalised series as the stages hand them to the merger, and the
    heap that holds them. *)
Definition focus_series : DataFrame :=
  {| Date := Datetime64 [day 2024 1 30; day 2024 3 15];
     columns := [("focus_expected_inflation"%string, FloatCol [dec 39 1; dec 41 1])] |}.

Definition selic_series : DataFrame :=
  {| Date := Datetime64 [day 2024 1 31; day 2024 2 29; day 2024 3 31];
     columns := [("selic_target"%string,
                  FloatCol [dec 1175 2; dec 1125 2; dec 1075 2])] |}.

Definition two_series : heap := [focus_series; selic_series].

(** A panel keyed by month and an equal copy of it, as two objects. *)
Definition panel_a : DataFrame :=
  {| Date := Datetime64 [day 2024 1 1; day 2024 2 1];
     columns := [("selic_target"%string, FloatCol [dec 1175 2; dec 1125 2])] |}.

Definition panel_and_copy : heap := [panel_a; panel_a].

(** One meeting whose nearest survey row lies nine days back. *)
Definition lone_meeting : list processing.Ata :=
  [ {| processing.dataReferencia := day 2024 3 20 |} ].

Definition stale_survey : DataFrame :=
  {| Date := Datetime64 [day 2024 3 11];
     columns := [("Mediana"%string, FloatCol [dec 41 1])] |}.

(** A fitted result whose smoothing coefficient is exactly 1. *)
Definition unit_root_fit : RegressionResults :=
  {| params := <["inf_dev" := Float64.of_decimal 3 1]>
                 (<["selic_target_lag" := Float64.of_Z 1]> ∅);
     summary := "";
     t_test := fun _ => ""%string;
     acorr_breusch_godfrey := fun _ =>
       (Float64.zero, Float64.zero, Float64.zero, Float64.zero) |}.

(** Two runs that differ in specifications I and II only. *)
Definition fit_with (inertia : float) (note : string) : RegressionResults :=
  {| params := <["inf_dev" := Float64.of_decimal 3 1]>
                 (<["selic_target_lag" := inertia]> ∅);
     summary := note;
     t_test := fun h => (note ++ h)%string;
     acorr_breusch_godfrey := fun _ =>
       (Float64.zero, Float64.zero, Float64.zero, inertia) |}.

Definition half : float := Float64.of_decimal 5 1.

Definition run_a : list (pipeline.key * (RegressionResults * RegressionResults * RegressionResults)) :=
  [(("market"%string, None),
    (fit_with (Float64.of_decimal 9 1) "I", fit_with (Float64.of_decimal 8 1) "II",
     fit_with half "III"));
   (("bc"%string, Some (5, 10)%Z),
    (fit_with (Float64.of_decimal 7 1) "I", fit_with (Float64.of_decimal 6 1) "II",
     fit_with half "III"))].

Definition run_b : list (pipeline.key * (RegressionResults * RegressionResults * RegressionResults)) :=
  [(("market"%string, None),
    (fit_with (Float64.of_Z 1) "one", fit_with Float64.nan "two", fit_with half "III"));
   (("bc"%string, Some (5, 10)%Z),
    (fit_with Float64.zero "one", fit_with Float64.inf "two", fit_with half "III"))].

(** Daily policy-rate observations: two in January 2024, the later one
    missing, none in February and one in March. *)
Definition daily_selic : DataFrame :=
  {| Date := Datetime64 [day 2024 1 30; day 2024 1 31;
                         day 2024 3 1];
     columns := [("valor"%string,
                  FloatCol [dec 1175 2; Float64.nan; dec 1075 2])] |}.

(** Annual targets in which the year 2020 is entered twice. *)
Definition repeated_targets : DataFrame :=
  {| Date := Datetime64 [day 2020 1 1; day 2020 1 1];
     columns := [("Meta"%string, FloatCol [dec 400 2; dec 375 2]);
                 ("Intervalo"%string, FloatCol [dec 150 2; dec 150 2])] |}.

(** An estimator built with the source name of the pipeline's docstring. *)
Definition bcb_estimator : estimation.TaylorRuleEstimator :=
  {| estimation.data := small_panel; estimation.source := "bcb";
     estimation.lag := 1 |}.

(** The panel of [small_panel] with timestamps in its [Date] column. *)
Definition dated_panel : DataFrame :=
  {| Date := Datetime64 (map month_start [0; 1; 2; 3; 4; 5; 6; 7]%Z);
     columns := columns small_panel |}.

Definition dated_estimator : estimation.TaylorRuleEstimator :=
  {| estimation.data := dated_panel; estimation.source := "market";
     estimation.lag := 1 |}.

(** A final panel of three months whose limits are present in January
    only, and the plotter built on it. *)
Definition plot_panel : DataFrame :=
  {| Date := PeriodM [period 2024 1; period 2024 2; period 2024 3];
     columns :=
       [("focus_expected_inflation"%string,
         FloatCol [dec 39 1; dec 40 1; dec 41 1]);
        ("inflation_target"%string,
         FloatCol [dec 30 1; dec 30 1; dec 30 1]);
        ("upper_limit"%string,
         FloatCol [dec 45 1; Float64.nan; Float64.nan]);
        ("lower_limit"%string,
         FloatCol [dec 15 1; Float64.nan; Float64.nan]);
        ("inflation_12m"%string,
         FloatCol [dec 45 1; dec 44 1; dec 42 1])] |}.

Definition plotter : vizualization.Plotter := {| vizualization.data := 0 |}.

(** Daily exchange rates over two months, in date order. *)
Definition daily_rates : DataFrame :=
  {| Date := Datetime64 [day 2024 1 30; day 2024 1 31;
                         day 2024 2 1];
     columns := [("valor"%string,
                  FloatCol [dec 49 1; dec 51 1; dec 55 1])] |}.

(** Stand-ins on this example for two functions of the library: the order
    of dates that are sorted already, and a mean by plain summation. *)
Definition sorted_order (ds : list Z) : list nat := seq 0 (length ds).

Definition plain_mean (xs : list float) : float :=
  Float64.div (fold_left Float64.add xs Float64.zero)
              (Float64.of_Z (Z.of_nat (length xs))).

(** A stand-in for the fit of the library that records the terms of the
    model it is given. *)
Definition fit_terms (m : estimation.OLS) : result analytics.RegressionResults :=
  Ok (fit_with half (String.concat " + " (estimation.exog m))).

(** Two configured windows over the same years, the second one with a
    dummy range. *)
Definition same_years : list (option pipeline.YearRange) :=
  [ Some {| pipeline.start := 5; pipeline.end_ := 10;
            pipeline.dummy_range := None |};
    Some {| pipeline.start := 5; pipeline.end_ := 10;
            pipeline.dummy_range := Some (2, 3)%Z |} ].

(** Two fetched datasets with timestamps: the expectations, dated inside
    the month, and the targets, in another order. *)
Definition dated_expectations : DataFrame :=
  {| Date := Datetime64 [day 2003 6 15; day 2004 6 30];
     columns := [("focus_expected_inflation"%string,
                  FloatCol [dec 50 1; dec 45 1]);
                 ("bcb_expected_inflation"%string,
                  FloatCol [dec 50 1; dec 40 1])] |}.

Definition dated_targets : DataFrame :=
  {| Date := Datetime64 [day 2004 6 1; day 2003 6 1];
     columns := [("inflation_target"%string,
                  FloatCol [dec 35 1; dec 40 1])] |}.

Definition raw_sources : heap := [dated_expectations; dated_targets].

End Examples.

(** * Properties *)

(** ** Floating-point facts used below *)

Lemma float_one_minus_one :
  Float64.sub (Float64.of_Z 1) (Float64.of_Z 1) = Float64.zero.
Proof. reflexivity. Qed.

Lemma float_div_zero_not_finite (x : float) :
  Float64.is_finite (Float64.div x Float64.zero) = false.
Proof. destruct x as [s|s| |s m e]; reflexivity. Qed.

Lemma float_add_nan_r (x : float) : Float64.add x Float64.nan = Float64.nan.
Proof. destruct x as [s|s| |s m e]; reflexivity. Qed.

Lemma float_mul_nan_r (x : float) : Float64.mul x Float64.nan = Float64.nan.
Proof. destruct x as [s|s| |s m e]; reflexivity. Qed.

Lemma float_sub_nan_r (x : float) : Float64.sub x Float64.nan = Float64.nan.
Proof. destruct x as [s|s| |s m e]; reflexivity. Qed.

Lemma float_add_nan_l (x : float) : Float64.add Float64.nan x = Float64.nan.
Proof. reflexivity. Qed.

(** ** The result monad *)

Lemma bind_Ok {A B : Type} (f : A -> result B) (a : A) :
  (Ok a ≫= f) = f a.
Proof. reflexivity. Qed.

Lemma bind_Ok_inv {A B : Type} (f : A -> result B) (m : result A) (b : B) :
  (m ≫= f) = Ok b -> exists a, m = Ok a /\ f a = Ok b.
Proof. destruct m as [a|e]; [eauto | discriminate]. Qed.

Lemma not_raises_Ok {A : Type} (a : A) : ~ raises (Ok a).
Proof. intros [e He]. discriminate. Qed.

(** ** Analyzer: structural parameters *)

(** C3, as stated, fails: with [alpha1 = 1.0] and a raw inflation
    coefficient of 0.3, [estructural_params] raises nothing and returns
    [(1.0, +inf, NaN, NaN)]. *)
Lemma estructural_params_unit_root_returns :
  analytics.params Examples.unit_root_fit !! "selic_target_lag"%string
    = Some (Float64.of_Z 1)
  /\ analytics.estructural_params Examples.unit_root_fit
     = Ok (Float64.of_Z 1, Float64.inf, Float64.nan, Float64.nan)
  /\ ~ raises (analytics.estructural_params Examples.unit_root_fit).
Proof.
  assert (H : analytics.estructural_params Examples.unit_root_fit
              = Ok (Float64.of_Z 1, Float64.inf, Float64.nan, Float64.nan))
    by (vm_compute; reflexivity).
  split; [vm_compute; reflexivity | split; [exact H |]].
  rewrite H. apply not_raises_Ok.
Qed.

(** C3, amended: when the coefficient on the lagged policy rate is exactly 1
    (and the inflation-deviation coefficient is present), [estructural_params]
    signals nothing: it returns [alpha1 = 1] together with rescaled responses
    [alpha2], [alpha3], [alpha4] none of which is a finite number (each is an
    infinity or NaN, the IEEE result of dividing by zero). *)
Theorem estructural_params_unit_root_not_finite
  (results : analytics.RegressionResults) (b : float) :
  analytics.params results !! "selic_target_lag"%string = Some (Float64.of_Z 1) ->
  analytics.params results !! "inf_dev"%string = Some b ->
  exists alpha2 alpha3 alpha4,
    analytics.estructural_params results
      = Ok (Float64.of_Z 1, alpha2, alpha3, alpha4)
    /\ Float64.is_finite alpha2 = false
    /\ Float64.is_finite alpha3 = false
    /\ Float64.is_finite alpha4 = false.
Proof.
  intros H1 Hb. unfold analytics.estructural_params, analytics.getitem.
  rewrite H1, Hb. cbn [of_option mbind result_bind Py.bind mret result_ret].
  rewrite float_one_minus_one.
  do 3 eexists. split; [reflexivity |].
  repeat split; apply float_div_zero_not_finite.
Qed.

Lemma estructural_params_unit_root_not_finite_witness :
  exists alpha2 alpha3 alpha4,
    analytics.estructural_params Examples.unit_root_fit
      = Ok (Float64.of_Z 1, alpha2, alpha3, alpha4)
    /\ Float64.is_finite alpha2 = false
    /\ Float64.is_finite alpha3 = false
    /\ Float64.is_finite alpha4 = false.
Proof.
  apply (estructural_params_unit_root_not_finite
           Examples.unit_root_fit (Float64.of_decimal 3 1));
    vm_compute; reflexivity.
Defined.

(** ** Analysis report *)

Lemma traverse_map {A B C : Type} (h : A -> B) (g : B -> result C) (l : list A) :
  traverse (fun a => g (h a)) l = traverse g (map h l).
Proof.
  induction l as [|a l IH]; cbn; [reflexivity |].
  destruct (g (h a)); [rewrite IH |]; reflexivity.
Qed.

Lemma traverse_ext {A B : Type} (f g : A -> result B) (l : list A) :
  (forall a, f a = g a) -> traverse f l = traverse g l.
Proof.
  intros E. induction l as [|a l IH]; cbn; [reflexivity |].
  rewrite E, IH. reflexivity.
Qed.

Lemma run_analysis_entries
  (xs : list (pipeline.key * (analytics.RegressionResults
                              * analytics.RegressionResults
                              * analytics.RegressionResults))) :
  pipeline.run_analysis (map pipeline.entry xs)
  = traverse report_of_third (map pipeline.third xs).
Proof.
  unfold pipeline.run_analysis.
  rewrite <- !traverse_map. apply traverse_ext.
  intros [k [[r1 r2] r3]]. reflexivity.
Qed.

(** C10: the report of every (source, window) combination is computed from
    the third specification's result alone.  [run_analysis] on the triples
    written by [run_estimation] equals the traversal that summarises the
    third component of each triple, so two result dictionaries with the same
    keys and the same third results yield the same reports, whatever their
    results for specifications I and II are. *)
Theorem run_analysis_third_spec_only
  (xs ys : list (pipeline.key * (analytics.RegressionResults
                                 * analytics.RegressionResults
                                 * analytics.RegressionResults))) :
  map pipeline.third xs = map pipeline.third ys ->
  pipeline.run_analysis (map pipeline.entry xs)
    = traverse report_of_third (map pipeline.third xs)
  /\ pipeline.run_analysis (map pipeline.entry xs)
     = pipeline.run_analysis (map pipeline.entry ys).
Proof.
  intros E. split; [apply run_analysis_entries |].
  rewrite !run_analysis_entries, E. reflexivity.
Qed.

Lemma run_analysis_third_spec_only_witness :
  map pipeline.entry Examples.run_a <> map pipeline.entry Examples.run_b
  /\ pipeline.run_analysis (map pipeline.entry Examples.run_a)
     = traverse report_of_third (map pipeline.third Examples.run_a)
  /\ pipeline.run_analysis (map pipeline.entry Examples.run_a)
     = pipeline.run_analysis (map pipeline.entry Examples.run_b).
Proof.
  split.
  - intros H. apply (f_equal (fun l => analytics.summary <$> (l !! 0%nat ≫= fun e => e.2 !! 0%nat))) in H.
    vm_compute in H. discriminate H.
  - apply (run_analysis_third_spec_only Examples.run_a Examples.run_b).
    reflexivity.
Defined.

(** ** Event alignment *)

Lemma mask_filter_all_false {A : Type} (l : list A) (m : list bool) :
  Forall (fun b => b = false) m -> mask_filter m l = [].
Proof.
  intros H. revert l. induction H as [|b m Hb _ IH]; intros [|x l]; cbn;
    try reflexivity.
  subst b. apply IH.
Qed.

Lemma isin_no_match (xs values : list Z) :
  (forall x v, x ∈ xs -> v ∈ values -> x <> v) ->
  Forall (fun b => b = false) (isin xs values).
Proof.
  intros H. unfold isin. apply Forall_map, Forall_forall. intros x Hx. cbn.
  apply not_true_is_false. intros E. apply existsb_exists in E as (v & Hv & Ev).
  apply Z.eqb_eq in Ev. apply (H x v); [exact Hx | | exact Ev].
  apply list_elem_of_In. exact Hv.
Qed.

Lemma len_boolean_index_all_false (df : DataFrame) (m : list bool) :
  Forall (fun b => b = false) m -> len (boolean_index df m) = 0%nat.
Proof.
  intros H. unfold len, boolean_index; cbn.
  destruct (Date df); cbn; rewrite mask_filter_all_false; auto.
Qed.

(** Once some row has been selected the loop leaves at its first test. *)
Lemma fallback_search_break (offsets dates : list Z) (df filtered : DataFrame) :
  (0 < len filtered)%nat ->
  processing.fallback_search offsets dates df filtered = filtered.
Proof.
  intros H. destruct offsets as [|o offsets]; [reflexivity |].
  cbn [processing.fallback_search].
  apply Nat.ltb_lt in H. rewrite H. reflexivity.
Qed.

(** If no offset of the list selects a row the loop ends with no row. *)
Lemma fallback_search_no_match (offsets dates : list Z) (df filtered : DataFrame) :
  len filtered = 0%nat ->
  (forall k d x, k ∈ offsets -> d ∈ dates -> x ∈ index_values (Date df) ->
                 x <> (d - k)%Z) ->
  len (processing.fallback_search offsets dates df filtered) = 0%nat.
Proof.
  revert filtered. induction offsets as [|o offsets IH]; intros filtered H0 Hno;
    cbn [processing.fallback_search].
  - exact H0.
  - rewrite H0. cbn [Nat.ltb Nat.leb]. apply IH.
    + apply len_boolean_index_all_false, isin_no_match.
      intros x v Hx Hv. apply list_elem_of_fmap in Hv as (d & -> & Hd).
      apply (Hno o d x); [left | exact Hd | exact Hx].
    + intros k d x Hk. apply Hno. right. exact Hk.
Qed.

Lemma set_column_name_Date (df df' : DataFrame) (i : positive) (n : string) :
  set_column_name df i n = Ok df' -> Date df' = Date df.
Proof.
  unfold set_column_name.
  destruct (columns df !! Nat.pred (Pos.to_nat i)) as [[n0 c]|]; [|discriminate].
  intros [= <-]. reflexivity.
Qed.

(** Without meetings there is no column of meeting dates to read. *)
Lemma filter_expected_inflation_dates_no_meetings (df_expected : DataFrame) :
  processing.filter_expected_inflation_dates [] df_expected
  = Raise (KeyError "dataReferencia").
Proof. reflexivity. Qed.

(** With at least one meeting the dates are read and the search runs. *)
Lemma filter_expected_inflation_dates_meetings
  (atas_data : list processing.Ata) (df_expected : DataFrame) :
  atas_data <> [] ->
  processing.filter_expected_inflation_dates atas_data df_expected
  = (let dates := map processing.dataReferencia atas_data in
     let eve_dates := map (fun d => (d - processing.Timedelta_days 1)%Z) dates in
     ds ← to_datetime (Date df_expected);
     df_expected ← set_column_name {| Date := Datetime64 ds;
                                      columns := columns df_expected |}
                                   1 "focus_expected_inflation";
     let filtered_df := boolean_index df_expected (isin ds eve_dates) in
     mret (processing.fallback_search processing.range_1_8 dates df_expected
             filtered_df)).
Proof.
  intros Hne. destruct atas_data as [|a atas_data]; [contradiction | reflexivity].
Qed.

(** As soon as one meeting has a survey row on its eve, the result is the
    eve selection alone: no other meeting is given a fallback offset. *)
Lemma filter_expected_inflation_dates_eve_only
  (atas_data : list processing.Ata) (df_expected renamed : DataFrame) (ds : list Z) :
  atas_data <> [] ->
  Date df_expected = Datetime64 ds ->
  set_column_name df_expected 1 "focus_expected_inflation" = Ok renamed ->
  let eve_dates := map (fun d => (d - 1)%Z) (map processing.dataReferencia atas_data) in
  (0 < len (boolean_index renamed (isin ds eve_dates)))%nat ->
  processing.filter_expected_inflation_dates atas_data df_expected
  = Ok (boolean_index renamed (isin ds eve_dates)).
Proof.
  intros Hne HD Hren eve Hpos.
  rewrite filter_expected_inflation_dates_meetings by exact Hne.
  rewrite HD. cbn [to_datetime mbind result_bind Py.bind].
  replace {| Date := Datetime64 ds; columns := columns df_expected |} with df_expected
    by (destruct df_expected; cbn in *; congruence).
  rewrite Hren. cbn [mbind result_bind Py.bind mret result_ret].
  f_equal. apply fallback_search_break. exact Hpos.
Qed.

(** The loop returns the selection of the first offset, taken for all
    meetings at once, that selects any row. *)
Lemma fallback_search_first_offset (before after : list Z) (k : Z) (dates : list Z)
  (df filtered : DataFrame) :
  len filtered = 0 ->
  (forall j, j ∈ before -> len (selection_at dates df j) = 0) ->
  0 < len (selection_at dates df k) ->
  processing.fallback_search (before ++ k :: after) dates df filtered
  = selection_at dates df k.
Proof.
  revert filtered. induction before as [|j before IH]; intros filtered H0 Hb Hk;
    cbn [app processing.fallback_search]; rewrite H0; cbn [Nat.ltb Nat.leb].
  - apply fallback_search_break. exact Hk.
  - apply IH; [apply Hb; left | intros i Hi; apply Hb; right; exact Hi | exact Hk].
Qed.

(** The function returns the selection of the first offset from 1 to 7 at
    which some meeting has a survey row. *)
Lemma filter_expected_inflation_dates_first_offset
  (atas_data : list processing.Ata) (df_expected renamed : DataFrame) (ds : list Z)
  (before after : list Z) (k : Z) :
  atas_data <> [] ->
  Date df_expected = Datetime64 ds ->
  set_column_name df_expected 1 "focus_expected_inflation" = Ok renamed ->
  processing.range_1_8 = before ++ k :: after ->
  let dates := map processing.dataReferencia atas_data in
  (forall j, j ∈ before -> len (selection_at dates renamed j) = 0) ->
  0 < len (selection_at dates renamed k) ->
  processing.filter_expected_inflation_dates atas_data df_expected
  = Ok (selection_at dates renamed k).
Proof.
  intros Hne HD Hren Hrange dates Hb Hk.
  rewrite filter_expected_inflation_dates_meetings by exact Hne.
  rewrite HD. cbn [to_datetime mbind result_bind Py.bind].
  replace {| Date := Datetime64 ds; columns := columns df_expected |} with df_expected
    by (destruct df_expected; cbn in *; congruence).
  rewrite Hren. cbn [mbind result_bind Py.bind mret result_ret]. f_equal.
  assert (HDr : index_values (Date renamed) = ds)
    by (rewrite (set_column_name_Date _ _ _ _ Hren), HD; reflexivity).
  fold dates.
  assert (Hinit : boolean_index renamed
                    (isin ds (map (fun d => (d - processing.Timedelta_days 1)%Z) dates))
                  = selection_at dates renamed 1)
    by (unfold selection_at; rewrite HDr; reflexivity).
  rewrite Hinit.
  destruct before as [|j before].
  - cbn [app] in Hrange. injection Hrange as <- _.
    apply fallback_search_break. exact Hk.
  - rewrite Hrange. apply fallback_search_first_offset; [| exact Hb | exact Hk].
    cbn [app] in Hrange. injection Hrange as <- _.
    apply Hb. left.
Qed.

(** The two single-meeting examples of the specification hold: a survey row
    five days before the meeting only is returned at offset 5, and of rows at
    one and nine days before the meeting the eve row alone is returned. *)
Lemma filter_expected_inflation_dates_single_meeting :
  processing.filter_expected_inflation_dates Examples.lone_meeting
    {| Date := Datetime64 [Examples.day 2024 3 15];
       columns := [("Mediana"%string, FloatCol [Examples.dec 41 1])] |}
  = Ok {| Date := Datetime64 [Examples.day 2024 3 15];
          columns := [("focus_expected_inflation"%string,
                       FloatCol [Examples.dec 41 1])] |}
  /\ processing.filter_expected_inflation_dates Examples.lone_meeting
       {| Date := Datetime64 [Examples.day 2024 3 11; Examples.day 2024 3 19];
          columns := [("Mediana"%string,
                       FloatCol [Examples.dec 40 1; Examples.dec 41 1])] |}
     = Ok {| Date := Datetime64 [Examples.day 2024 3 19];
             columns := [("focus_expected_inflation"%string,
                          FloatCol [Examples.dec 41 1])] |}.
Proof. split; vm_compute; reflexivity. Qed.

(** C1 fails on the code at this input.  Of two meetings, one has a survey
    row on its eve and the other only five days before it: the function
    returns the eve row alone.  The alignment worded in the specification
    gives the second meeting offset 5 and returns both rows. *)
Theorem filter_expected_inflation_dates_global_fallback :
  processing.filter_expected_inflation_dates Examples.meetings Examples.survey
  = Ok {| Date := Datetime64 [Examples.day 2024 1 30];
          columns := [("focus_expected_inflation"%string,
                       FloatCol [Examples.dec 39 1])] |}
  /\ meeting_offset (index_values (Date Examples.survey)) (Examples.day 2024 3 20)
     = Some 5%Z
  /\ per_meeting_alignment (map processing.dataReferencia Examples.meetings)
                           Examples.survey
     = {| Date := Datetime64 [Examples.day 2024 1 30; Examples.day 2024 3 15];
          columns := [("Mediana"%string,
                       FloatCol [Examples.dec 39 1; Examples.dec 41 1])] |}.
Proof. repeat split; vm_compute; reflexivity. Qed.

(** C6, as stated, fails: a meeting whose nearest survey row lies nine days
    back yields an empty frame, not an exception. *)
Lemma filter_expected_inflation_dates_empty_returns :
  processing.filter_expected_inflation_dates Examples.lone_meeting Examples.stale_survey
  = Ok {| Date := Datetime64 [];
          columns := [("focus_expected_inflation"%string, FloatCol [])] |}
  /\ ~ raises (processing.filter_expected_inflation_dates
                 Examples.lone_meeting Examples.stale_survey).
Proof.
  assert (H : processing.filter_expected_inflation_dates
                Examples.lone_meeting Examples.stale_survey
              = Ok {| Date := Datetime64 [];
                      columns := [("focus_expected_inflation"%string, FloatCol [])] |})
    by (vm_compute; reflexivity).
  split; [exact H | rewrite H; apply not_raises_Ok].
Qed.

(** C6, amended: when there is at least one meeting and no survey row is
    dated one to seven days before any meeting,
    [filter_expected_inflation_dates] (on a survey table with timestamps and
    a value column) signals nothing and returns a frame with no rows. *)
Theorem filter_expected_inflation_dates_no_match_empty
  (atas_data : list processing.Ata) (df_expected : DataFrame) (ds : list Z) :
  atas_data <> [] ->
  Date df_expected = Datetime64 ds ->
  columns df_expected <> [] ->
  (forall k d, k ∈ processing.range_1_8 ->
               d ∈ map processing.dataReferencia atas_data ->
               (d - k)%Z ∉ ds) ->
  exists filtered_df,
    processing.filter_expected_inflation_dates atas_data df_expected = Ok filtered_df
    /\ len filtered_df = 0%nat.
Proof.
  intros Hne0 HD Hcols Hno.
  rewrite filter_expected_inflation_dates_meetings by exact Hne0.
  rewrite HD. cbn [to_datetime mbind result_bind Py.bind].
  unfold set_column_name. cbn [columns Pos.to_nat Pos.iter_op Nat.pred].
  destruct (columns df_expected) as [|[n c] cols] eqn:Ecols; [congruence |].
  cbn [lookup list_lookup mbind result_bind Py.bind mret result_ret].
  eexists. split; [reflexivity |].
  assert (Hne : forall k d x, k ∈ processing.range_1_8 ->
                  d ∈ map processing.dataReferencia atas_data ->
                  x ∈ ds -> x <> (d - k)%Z).
  { intros k d x Hk Hd Hx ->. exact (Hno k d Hk Hd Hx). }
  apply fallback_search_no_match.
  - apply len_boolean_index_all_false, isin_no_match.
    intros x v Hx Hv. apply list_elem_of_fmap in Hv as (d & -> & Hd).
    apply (Hne 1%Z d x); [left | exact Hd | exact Hx].
  - cbn [Date index_values]. exact Hne.
Qed.

Lemma filter_expected_inflation_dates_no_match_empty_witness :
  exists filtered_df,
    processing.filter_expected_inflation_dates Examples.lone_meeting Examples.stale_survey
    = Ok filtered_df
    /\ len filtered_df = 0%nat.
Proof.
  apply (filter_expected_inflation_dates_no_match_empty
           Examples.lone_meeting Examples.stale_survey [Examples.day 2024 3 11]).
  - discriminate.
  - reflexivity.
  - discriminate.
  - assert (H : Forall (fun k => Forall (fun d => (d - k)%Z ∉ [Examples.day 2024 3 11])
                                      (map processing.dataReferencia Examples.lone_meeting))
                       processing.range_1_8)
      by (apply (bool_decide_unpack _); vm_compute; exact I).
    intros k d Hk Hd.
    exact (proj1 (Forall_forall _ _) (proj1 (Forall_forall _ _) H k Hk) d Hd).
Defined.

(** ** Column access *)

Lemma lookup_assign_col_eq (n : string) (c : column) (cols : list (string * column)) :
  lookup_col n (assign_col n c cols) = Some c.
Proof.
  induction cols as [|[n0 c0] cols IH]; cbn.
  - rewrite String.eqb_refl. reflexivity.
  - destruct (String.eqb n0 n) eqn:E; cbn; rewrite E; [reflexivity | exact IH].
Qed.

Lemma lookup_assign_col_ne (n n' : string) (c : column) (cols : list (string * column)) :
  n <> n' -> lookup_col n (assign_col n' c cols) = lookup_col n cols.
Proof.
  intros Hne. induction cols as [|[n0 c0] cols IH]; cbn.
  - destruct (String.eqb_spec n' n); [congruence | reflexivity].
  - destruct (String.eqb_spec n0 n'); cbn.
    + subst n0. destruct (String.eqb_spec n' n); [congruence | reflexivity].
    + destruct (String.eqb_spec n0 n); [reflexivity | exact IH].
Qed.

Lemma getitem_setitem_eq (df : DataFrame) (n : string) (c : column) :
  getitem (setitem df n c) n = Ok c.
Proof. unfold getitem, setitem; cbn. rewrite lookup_assign_col_eq. reflexivity. Qed.

Lemma getitem_setitem_ne (df : DataFrame) (n n' : string) (c : column) :
  n <> n' -> getitem (setitem df n' c) n = getitem df n.
Proof.
  intros H. unfold getitem, setitem; cbn. rewrite lookup_assign_col_ne by exact H.
  reflexivity.
Qed.

Lemma getitem_setitem (df : DataFrame) (n n' : string) (c : column) :
  getitem (setitem df n' c) n = if String.eqb n' n then Ok c else getitem df n.
Proof.
  destruct (String.eqb_spec n' n) as [-> | Hne].
  - apply getitem_setitem_eq.
  - apply getitem_setitem_ne. congruence.
Qed.

(** Resolve every read of a column that follows writes of literal names. *)
Ltac getitem_through_setitem :=
  rewrite ?getitem_setitem;
  repeat match goal with
         | |- context [String.eqb ?a ?b] =>
             let v := eval vm_compute in (String.eqb a b) in
             change (String.eqb a b) with v
         end;
  cbv iota.

(** ** Deviation from target *)

Lemma ascending_cons_inv (x : Z) (l : list Z) :
  ascending (x :: l) = true -> ascending l = true /\ forall y, y ∈ l -> (x < y)%Z.
Proof.
  revert x. induction l as [|y l IH]; intros x H.
  - split; [reflexivity | intros y Hy; inversion Hy].
  - cbn [ascending] in H. apply andb_true_iff in H as [Hxy Hl].
    apply Z.ltb_lt in Hxy. split; [exact Hl |].
    destruct (IH y Hl) as [_ Hall].
    intros z Hz. apply elem_of_cons in Hz as [-> | Hz]; [exact Hxy |].
    specialize (Hall z Hz). lia.
Qed.

Lemma ascending_lookup_lt (l : list Z) (i j : nat) (a b : Z) :
  ascending l = true -> (i < j)%nat -> l !! i = Some a -> l !! j = Some b -> (a < b)%Z.
Proof.
  revert i j. induction l as [|x l IH]; intros i j Hasc Hij Ha Hb; [discriminate |].
  apply ascending_cons_inv in Hasc as [Hl Hall].
  destruct i as [|i]; destruct j as [|j]; try lia; cbn in Ha, Hb.
  - injection Ha as ->. apply Hall. eapply list_elem_of_lookup_2. exact Hb.
  - apply (IH i j); [exact Hl | lia | exact Ha | exact Hb].
Qed.

Lemma ascending_lookup_inv (l : list Z) (i j : nat) (a b : Z) :
  ascending l = true -> l !! i = Some a -> l !! j = Some b -> (a < b)%Z -> (i < j)%nat.
Proof.
  intros Hasc Ha Hb Hab.
  destruct (Nat.lt_trichotomy i j) as [H | [H | H]]; [exact H | |].
  - subst j. rewrite Ha in Hb. injection Hb as ->. lia.
  - pose proof (ascending_lookup_lt l j i b a Hasc H Hb Ha). lia.
Qed.

Lemma period_month_range (p : Z) : (1 <= period_month p <= 12)%Z.
Proof. unfold period_month. pose proof (Z.mod_pos_bound p 12). lia. Qed.

Lemma period_month_within_year (p q : Z) :
  (p < q < p + 12)%Z -> period_month q <> period_month p.
Proof.
  unfold period_month. intros H E.
  pose proof (Z.div_mod p 12). pose proof (Z.div_mod q 12). lia.
Qed.

Lemma period_month_next_year (p : Z) : period_month (p + 12) = period_month p.
Proof.
  unfold period_month. replace (p + 12)%Z with (p + 1 * 12)%Z by lia.
  rewrite Z.mod_add by lia. reflexivity.
Qed.

Lemma wrap64_small (z : Z) : (- 2 ^ 63 <= z < 2 ^ 63)%Z -> wrap64 z = z.
Proof.
  intros H. unfold wrap64. rewrite Z.mod_small; lia.
Qed.

Lemma next_in_group_found (k : Z) (keys : list Z) (xs : list float) (j : nat) (x : float) :
  keys !! j = Some k -> xs !! j = Some x ->
  (forall j' k', (j' < j)%nat -> keys !! j' = Some k' -> k' <> k) ->
  next_in_group k keys xs = x.
Proof.
  revert xs j. induction keys as [|k0 keys IH]; intros xs j Hk Hx Hbefore;
    [discriminate |].
  destruct xs as [|x0 xs]; [discriminate |].
  destruct j as [|j]; cbn in Hk, Hx |- *.
  - injection Hk as ->. injection Hx as ->. rewrite Z.eqb_refl. reflexivity.
  - destruct (Z.eqb_spec k k0) as [E | _].
    + exfalso. apply (Hbefore 0%nat k0); [lia | reflexivity | congruence].
    + apply (IH xs j Hk Hx). intros j' k' Hj' Hk'.
      apply (Hbefore (S j') k'); [lia | exact Hk'].
Qed.

Lemma next_in_group_none (k : Z) (keys : list Z) (xs : list float) :
  (forall k', k' ∈ keys -> k' <> k) -> next_in_group k keys xs = Float64.nan.
Proof.
  revert xs. induction keys as [|k0 keys IH]; intros xs H; [reflexivity |].
  destruct xs as [|x0 xs]; [reflexivity |]. cbn.
  destruct (Z.eqb_spec k k0) as [E | _].
  - exfalso. apply (H k0); [left | congruence].
  - apply IH. intros k' Hk'. apply H. right. exact Hk'.
Qed.

Lemma groupby_shift_back_lookup (keys : list Z) (xs : list float) (i : nat)
  (k : Z) (x : float) :
  keys !! i = Some k -> xs !! i = Some x ->
  groupby_shift_back keys xs !! i
  = Some (next_in_group k (drop (S i) keys) (drop (S i) xs)).
Proof.
  revert xs i. induction keys as [|k0 keys IH]; intros xs i Hk Hx; [discriminate |].
  destruct xs as [|x0 xs]; [discriminate |].
  destruct i as [|i]; cbn in Hk, Hx |- *.
  - injection Hk as ->. rewrite !drop_0. reflexivity.
  - apply IH; assumption.
Qed.

Lemma target_next_following_year (ps : list Z) (ts : list float) (i j : nat)
  (p : Z) (tn : float) :
  ascending ps = true ->
  ps !! i = Some p -> ps !! j = Some (p + 12)%Z -> ts !! j = Some tn ->
  next_in_group (period_month p) (drop (S i) (map period_month ps)) (drop (S i) ts) = tn.
Proof.
  intros Hasc Hi Hj Htn.
  assert (Hij : (i < j)%nat) by (eapply ascending_lookup_inv; eauto; lia).
  apply (next_in_group_found _ _ _ (j - S i)).
  - rewrite lookup_drop, list_lookup_fmap.
    replace (S i + (j - S i))%nat with j by lia.
    rewrite Hj. cbn. rewrite period_month_next_year. reflexivity.
  - rewrite lookup_drop. replace (S i + (j - S i))%nat with j by lia. exact Htn.
  - intros j' k' Hj' Hk'. rewrite lookup_drop, list_lookup_fmap in Hk'.
    destruct (ps !! (S i + j')%nat) as [q|] eqn:Hq; [|discriminate].
    cbn in Hk'. injection Hk' as <-.
    apply period_month_within_year. split.
    + apply (ascending_lookup_lt ps i (S i + j')); auto; lia.
    + apply (ascending_lookup_lt ps (S i + j') j); auto; lia.
Qed.

Lemma target_next_final_year (ps : list Z) (ts : list float) (i : nat) (p : Z) :
  ascending ps = true ->
  ps !! i = Some p -> (forall q, q ∈ ps -> (q < p + 12)%Z) ->
  next_in_group (period_month p) (drop (S i) (map period_month ps)) (drop (S i) ts)
  = Float64.nan.
Proof.
  intros Hasc Hi Hlast. apply next_in_group_none. intros k' Hk'.
  apply list_elem_of_lookup in Hk' as [j' Hk'].
  rewrite lookup_drop, list_lookup_fmap in Hk'.
  destruct (ps !! (S i + j')%nat) as [q|] eqn:Hq; [|discriminate].
  cbn in Hk'. injection Hk' as <-.
  apply period_month_within_year. split.
  - apply (ascending_lookup_lt ps i (S i + j')); auto; lia.
  - apply Hlast. eapply list_elem_of_lookup_2. exact Hq.
Qed.

Lemma deviation_float_columns (mes : list Z) (es ts ns : list float) :
  processing.deviation (IntCol mes) (FloatCol es) (FloatCol ts) (FloatCol ns)
  = FloatCol (deviation_values mes es ts ns).
Proof. reflexivity. Qed.

Lemma deviation_values_lookup (mes : list Z) (es ts ns : list float) (i : nat)
  (m : Z) (e t tn : float) :
  mes !! i = Some m -> (1 <= m <= 12)%Z ->
  es !! i = Some e -> ts !! i = Some t -> ns !! i = Some tn ->
  deviation_values mes es ts ns !! i = Some (blend m e t tn).
Proof.
  intros Hm Hr He Ht Hn. unfold deviation_values.
  rewrite !lookup_zip_with, !list_lookup_fmap.
  rewrite Hm, He, Ht, Hn. cbn.
  rewrite wrap64_small by lia. reflexivity.
Qed.

Lemma blend_nan_next (m : Z) (e t : float) : blend m e t Float64.nan = Float64.nan.
Proof.
  unfold blend. rewrite float_sub_nan_r, float_mul_nan_r, float_add_nan_r.
  reflexivity.
Qed.

(** On a merged panel keyed by strictly ascending months,
    [calculate_deviation_from_target] succeeds and both deviation columns
    hold, at the row of month [p] with calendar month number [m],
    [(12 - m)/12 * (e - t_now) + m/12 * (e - t_next)] in float64 arithmetic,
    where [t_next] is the target at the row of the same calendar month one
    year later (the value the grouped shift picks); at a row of the final
    twelve months of the sample, where no such row follows, both columns
    hold NaN (missing).  For [m = 6], [e = 5.0], [t_now = 4.0],
    [t_next = 3.5] the blend is exactly 1.25. *)
Theorem calculate_deviation_from_target_blend
  (df_final : DataFrame) (ps : list Z) (focus bcb target : list float) :
  Date df_final = PeriodM ps ->
  ascending ps = true ->
  getitem df_final "focus_expected_inflation" = Ok (FloatCol focus) ->
  getitem df_final "bcb_expected_inflation" = Ok (FloatCol bcb) ->
  getitem df_final "inflation_target" = Ok (FloatCol target) ->
  exists out focus_dev bcb_dev,
    processing.calculate_deviation_from_target df_final = Ok out
    /\ getitem out "focus_inflation_deviation" = Ok (FloatCol focus_dev)
    /\ getitem out "bcb_inflation_deviation" = Ok (FloatCol bcb_dev)
    /\ (forall (i : nat) (p : Z) (e_focus e_bcb t_now : float),
          ps !! i = Some p -> focus !! i = Some e_focus ->
          bcb !! i = Some e_bcb -> target !! i = Some t_now ->
          (forall (j : nat) (t_next : float),
              ps !! j = Some (p + 12)%Z -> target !! j = Some t_next ->
              focus_dev !! i = Some (blend (period_month p) e_focus t_now t_next)
              /\ bcb_dev !! i = Some (blend (period_month p) e_bcb t_now t_next))
          /\ ((forall q, q ∈ ps -> (q < p + 12)%Z) ->
              focus_dev !! i = Some Float64.nan
              /\ bcb_dev !! i = Some Float64.nan))
    /\ blend 6 (Float64.of_decimal 50 1) (Float64.of_decimal 40 1)
               (Float64.of_decimal 35 1)
       = Float64.of_decimal 125 2.
Proof.
  intros HD Hasc Hf Hb Ht.
  set (mes := map period_month ps).
  set (next := groupby_shift_back mes target).
  eassert (Hcalc : processing.calculate_deviation_from_target df_final = Ok _).
  { unfold processing.calculate_deviation_from_target. cbv zeta.
    getitem_through_setitem.
    rewrite Ht. cbn [mbind result_bind Py.bind to_floats].
    getitem_through_setitem.
    rewrite Hb, Ht. cbn [mbind result_bind Py.bind].
    getitem_through_setitem.
    rewrite Hf, Ht. cbn [mbind result_bind Py.bind mret result_ret].
    cbn [setitem Date]. rewrite HD. cbn [dt_month_values].
    fold mes. fold next. rewrite !deviation_float_columns. reflexivity. }
  eexists. exists (deviation_values mes focus target next).
  exists (deviation_values mes bcb target next).
  split; [exact Hcalc |].
  split; [apply getitem_setitem_eq |].
  split; [rewrite getitem_setitem_ne by discriminate; apply getitem_setitem_eq |].
  split; [| vm_compute; reflexivity].
  intros i p e_focus e_bcb t_now Hp Hef Heb Htn.
  assert (Hm : mes !! i = Some (period_month p))
    by (unfold mes; rewrite list_lookup_fmap, Hp; reflexivity).
  pose proof (period_month_range p) as Hr.
  assert (Hnext : next !! i
                  = Some (next_in_group (period_month p) (drop (S i) mes)
                                        (drop (S i) target)))
    by (apply (groupby_shift_back_lookup mes target i (period_month p) t_now);
        assumption).
  assert (Hdev : forall es e tn, es !! i = Some e ->
            next_in_group (period_month p) (drop (S i) mes) (drop (S i) target) = tn ->
            deviation_values mes es target next !! i
            = Some (blend (period_month p) e t_now tn)).
  { intros es e tn He Hg. rewrite Hg in Hnext.
    apply deviation_values_lookup; assumption. }
  split.
  - intros j t_next Hj Htj.
    pose proof (target_next_following_year ps target i j p t_next Hasc Hp Hj Htj) as Hg.
    split; apply Hdev; assumption.
  - intros Hlast.
    pose proof (target_next_final_year ps target i p Hasc Hp Hlast) as Hg.
    rewrite (Hdev focus e_focus Float64.nan Hef Hg).
    rewrite (Hdev bcb e_bcb Float64.nan Heb Hg).
    rewrite !blend_nan_next. split; reflexivity.
Qed.

Lemma calculate_deviation_from_target_blend_witness :
  exists out focus_dev bcb_dev,
    processing.calculate_deviation_from_target Examples.june_panel = Ok out
    /\ getitem out "focus_inflation_deviation" = Ok (FloatCol focus_dev)
    /\ getitem out "bcb_inflation_deviation" = Ok (FloatCol bcb_dev)
    /\ (forall (i : nat) (p : Z) (e_focus e_bcb t_now : float),
          [period 2003 6; period 2004 6] !! i = Some p ->
          [Examples.dec 50 1; Examples.dec 45 1] !! i = Some e_focus ->
          [Examples.dec 50 1; Examples.dec 40 1] !! i = Some e_bcb ->
          [Examples.dec 40 1; Examples.dec 35 1] !! i = Some t_now ->
          (forall (j : nat) (t_next : float),
              [period 2003 6; period 2004 6] !! j = Some (p + 12)%Z ->
              [Examples.dec 40 1; Examples.dec 35 1] !! j = Some t_next ->
              focus_dev !! i = Some (blend (period_month p) e_focus t_now t_next)
              /\ bcb_dev !! i = Some (blend (period_month p) e_bcb t_now t_next))
          /\ ((forall q, q ∈ [period 2003 6; period 2004 6] -> (q < p + 12)%Z) ->
              focus_dev !! i = Some Float64.nan
              /\ bcb_dev !! i = Some Float64.nan))
    /\ blend 6 (Float64.of_decimal 50 1) (Float64.of_decimal 40 1)
               (Float64.of_decimal 35 1)
       = Float64.of_decimal 125 2.
Proof.
  apply (calculate_deviation_from_target_blend Examples.june_panel
           [period 2003 6; period 2004 6]
           [Examples.dec 50 1; Examples.dec 45 1]
           [Examples.dec 50 1; Examples.dec 40 1]
           [Examples.dec 40 1; Examples.dec 35 1]); reflexivity.
Defined.

(** C2 fails on the code at this input.  The panel holds June 2003 and
    June 2005 and no row for June 2004.  The grouped shift hands June 2003
    the target of the next row of the same calendar month, the 3.5 of June
    2005, and both deviations of June 2003 are 1.25; the target of the same
    month of the following year is not in the panel, and the deviation
    worded in the claim and in the docstring is missing. *)
Theorem calculate_deviation_from_target_skipped_year :
  (processing.calculate_deviation_from_target Examples.skipped_year_panel
     ≫= fun out => getitem out "inflation_target_next")
  = Ok (FloatCol [Float64.of_decimal 35 1; Float64.nan])
  /\ (processing.calculate_deviation_from_target Examples.skipped_year_panel
        ≫= fun out => getitem out "focus_inflation_deviation")
     = Ok (FloatCol [Float64.of_decimal 125 2; Float64.nan])
  /\ (processing.calculate_deviation_from_target Examples.skipped_year_panel
        ≫= fun out => getitem out "bcb_inflation_deviation")
     = Ok (FloatCol [Float64.of_decimal 125 2; Float64.nan])
  /\ target_following_year [period 2003 6; period 2005 6]
       [Float64.of_decimal 40 1; Float64.of_decimal 35 1] (period 2003 6)
     = Float64.nan
  /\ blend 6 (Float64.of_decimal 50 1) (Float64.of_decimal 40 1)
       (target_following_year [period 2003 6; period 2005 6]
          [Float64.of_decimal 40 1; Float64.of_decimal 35 1] (period 2003 6))
     = Float64.nan.
Proof. repeat split; vm_compute; reflexivity. Qed.

(** Of two rows of one month the first is given the target of the second,
    a target of its own year: with expectation 5.0 and target 4.0 its
    deviation is 1.0, where the target of June 2004 gives 1.25. *)
Lemma calculate_deviation_from_target_repeated_month :
  (processing.calculate_deviation_from_target Examples.repeated_month_panel
     ≫= fun out => getitem out "inflation_target_next")
  = Ok (FloatCol [Float64.of_decimal 40 1; Float64.of_decimal 35 1; Float64.nan])
  /\ (processing.calculate_deviation_from_target Examples.repeated_month_panel
        ≫= fun out => getitem out "focus_inflation_deviation")
     = Ok (FloatCol [Float64.of_Z 1; Float64.of_decimal 125 2; Float64.nan])
  /\ target_following_year [period 2003 6; period 2003 6; period 2004 6]
       [Float64.of_decimal 40 1; Float64.of_decimal 40 1; Float64.of_decimal 35 1]
       (period 2003 6)
     = Float64.of_decimal 35 1.
Proof. repeat split; vm_compute; reflexivity. Qed.

(** The worked example of the specification, through the function itself:
    June 2003 with expectation 5.0, target 4.0 and next-year target 3.5. *)
Lemma calculate_deviation_from_target_june :
  (processing.calculate_deviation_from_target Examples.june_panel
     ≫= fun out => getitem out "focus_inflation_deviation")
  = Ok (FloatCol [Float64.of_decimal 125 2; Float64.nan]).
Proof. vm_compute. reflexivity. Qed.


(** The years written by the deviation stage are integers, as the
    estimation sample below expects them. *)
Lemma calculate_deviation_from_target_ano (df_final out : DataFrame) :
  processing.calculate_deviation_from_target df_final = Ok out ->
  getitem out "ano" = Ok (dt_year (Date df_final))
  /\ exists years, dt_year (Date df_final) = IntCol years.
Proof.
  unfold processing.calculate_deviation_from_target. cbv zeta. intros H.
  apply bind_Ok_inv in H as (t1 & _ & H).
  apply bind_Ok_inv in H as (b & _ & H).
  apply bind_Ok_inv in H as (t2 & _ & H).
  apply bind_Ok_inv in H as (n1 & _ & H).
  apply bind_Ok_inv in H as (f & _ & H).
  apply bind_Ok_inv in H as (t3 & _ & H).
  apply bind_Ok_inv in H as (n2 & _ & H).
  injection H as <-. split.
  - getitem_through_setitem. reflexivity.
  - destruct (Date df_final); cbn; eauto.
Qed.

(** ** Boolean indexing *)

Lemma mask_filter_map {A B : Type} (f : A -> B) (m : list bool) (l : list A) :
  mask_filter m (map f l) = map f (mask_filter m l).
Proof.
  revert l. induction m as [|b m IH]; intros [|x l]; cbn; try reflexivity.
  destruct b; cbn; rewrite IH; reflexivity.
Qed.

Lemma mask_filter_zip_with {A B C : Type} (f : A -> B -> C) (m : list bool)
  (l : list A) (k : list B) :
  zip_with f (mask_filter m l) (mask_filter m k) = mask_filter m (zip_with f l k).
Proof.
  revert l k. induction m as [|b m IH]; intros [|x l] [|y k]; cbn;
    try reflexivity.
  - destruct b; cbn; [| rewrite zip_with_nil_r]; reflexivity.
  - destruct b; cbn; rewrite IH; reflexivity.
Qed.

Lemma mask_filter_replicate {A : Type} (m : list bool) (l : list A) :
  mask_filter m (replicate (length l) true)
  = replicate (length (mask_filter m l)) true.
Proof.
  revert l. induction m as [|b m IH]; intros [|x l]; cbn; try reflexivity.
  destruct b; cbn; rewrite IH; reflexivity.
Qed.

(** Filtering by [c] what was kept by [m] keeps the rows set in both. *)
Lemma mask_filter_twice {A : Type} (m c : list bool) (l : list A) :
  mask_filter (mask_filter m c) (mask_filter m l) = mask_filter (zip_with andb m c) l.
Proof.
  revert c l. induction m as [|b m IH]; intros [|x c] [|y l]; cbn;
    try reflexivity.
  - destruct b; cbn; [destruct x | destruct (mask_filter m c)]; reflexivity.
  - destruct b; cbn; [destruct x |]; rewrite IH; reflexivity.
Qed.

Lemma len_boolean_index (df : DataFrame) (m : list bool) :
  len (boolean_index df m) = length (mask_filter m (index_values (Date df))).
Proof. unfold len, boolean_index; cbn. destruct (Date df); reflexivity. Qed.

Lemma lookup_col_mask (n : string) (m : list bool) (cols : list (string * column)) :
  lookup_col n (map (fun '(n0, c) => (n0, mask_col m c)) cols)
  = mask_col m <$> lookup_col n cols.
Proof.
  induction cols as [|[n0 c0] cols IH]; cbn; [reflexivity |].
  destruct (String.eqb n0 n); [reflexivity | exact IH].
Qed.

Lemma getitem_boolean_index (df : DataFrame) (m : list bool) (n : string) :
  getitem (boolean_index df m) n
  = match getitem df n with Ok c => Ok (mask_col m c) | Raise e => Raise e end.
Proof.
  unfold getitem, boolean_index; cbn. rewrite lookup_col_mask.
  destruct (lookup_col n (columns df)); reflexivity.
Qed.

Lemma traverse_getitem_boolean_index (df : DataFrame) (m : list bool)
  (vars : list string) :
  traverse (getitem (boolean_index df m)) vars
  = match traverse (getitem df) vars with
    | Ok cols => Ok (map (mask_col m) cols)
    | Raise e => Raise e
    end.
Proof.
  induction vars as [|v vars IH]; cbn; [reflexivity |].
  rewrite getitem_boolean_index. destruct (getitem df v); [|reflexivity].
  rewrite IH. destruct (traverse (getitem df) vars); reflexivity.
Qed.

Lemma notna_mask_col (m : list bool) (c : column) :
  notna (mask_col m c) = mask_filter m (notna c).
Proof. destruct c; cbn; rewrite mask_filter_map; reflexivity. Qed.

Lemma all_true_mask (m : list bool) (ms : list (list bool)) (ix : list Z) :
  all_true (map (mask_filter m) ms) (length (mask_filter m ix))
  = mask_filter m (all_true ms (length ix)).
Proof.
  induction ms as [|a ms IH]; cbn.
  - rewrite mask_filter_replicate. reflexivity.
  - rewrite IH. apply mask_filter_zip_with.
Qed.

Lemma complete_rows_boolean_index (df : DataFrame) (m : list bool)
  (subset : list string) :
  complete_rows (boolean_index df m) subset
  = match complete_rows df subset with
    | Ok c => Ok (mask_filter m c)
    | Raise e => Raise e
    end.
Proof.
  unfold complete_rows. rewrite traverse_getitem_boolean_index.
  destruct (traverse (getitem df) subset) as [cols|e]; [|reflexivity].
  cbn [mbind result_bind Py.bind mret result_ret]. f_equal.
  rewrite len_boolean_index. unfold len.
  rewrite <- all_true_mask. f_equal.
  rewrite !map_map. apply map_ext. intros c. apply notna_mask_col.
Qed.

(** ** Estimation sample *)

Lemma index_values_mask (m : list bool) (ix : index_col) :
  index_values (mask_index m ix) = mask_filter m (index_values ix).
Proof. destruct ix; reflexivity. Qed.

Lemma ols_boolean_index (e : string) (x : list string) (df : DataFrame) (m : list bool) :
  estimation.ols e x (boolean_index df m)
  = match complete_rows df (e :: x) with
    | Ok c => Ok {| estimation.endog := e; estimation.exog := x;
                    estimation.design :=
                      boolean_index (boolean_index df m) (mask_filter m c) |}
    | Raise (KeyError name) => Raise (PatsyError name)
    | Raise err => Raise err
    end.
Proof.
  unfold estimation.ols. rewrite complete_rows_boolean_index.
  destruct (complete_rows df (e :: x)) as [c | err]; reflexivity.
Qed.

Lemma nobs_ols_boolean_index (e : string) (x : list string) (df : DataFrame)
  (m c : list bool) (model : estimation.OLS) :
  complete_rows df (e :: x) = Ok c ->
  estimation.ols e x (boolean_index df m) = Ok model ->
  estimation.nobs model = sample_size m c (index_values (Date df)).
Proof.
  intros Hc Hm. rewrite ols_boolean_index, Hc in Hm. injection Hm as <-.
  unfold estimation.nobs, sample_size. cbn [estimation.design].
  rewrite len_boolean_index. cbn [boolean_index Date].
  rewrite index_values_mask, mask_filter_twice. reflexivity.
Qed.

Lemma ols_boolean_index_ok (e : string) (x : list string) (df : DataFrame)
  (m c : list bool) :
  complete_rows df (e :: x) = Ok c ->
  exists model, estimation.ols e x (boolean_index df m) = Ok model.
Proof. intros Hc. rewrite ols_boolean_index, Hc. eauto. Qed.

Lemma ols_boolean_index_inv (e : string) (x : list string) (df : DataFrame)
  (m : list bool) (model : estimation.OLS) :
  estimation.ols e x (boolean_index df m) = Ok model ->
  exists c, complete_rows df (e :: x) = Ok c.
Proof.
  rewrite ols_boolean_index.
  destruct (complete_rows df (e :: x)) as [c | []]; [eauto | discriminate..].
Qed.

(** The three models built on a year slice: one complete-row mask of the
    unsliced data per specification decides their sample sizes. *)
Lemma three_models_inv (df : DataFrame) (m : list bool)
  (ms : estimation.OLS * estimation.OLS * estimation.OLS) :
  estimation.three_models (boolean_index df m) = Ok ms ->
  exists c1 c2 c3,
    complete_rows df spec_i = Ok c1
    /\ complete_rows df spec_ii = Ok c2
    /\ complete_rows df spec_iii = Ok c3
    /\ estimation.nobs ms.1.1 = sample_size m c1 (index_values (Date df))
    /\ estimation.nobs ms.1.2 = sample_size m c2 (index_values (Date df))
    /\ estimation.nobs ms.2 = sample_size m c3 (index_values (Date df)).
Proof.
  unfold estimation.three_models. intros H.
  apply bind_Ok_inv in H as (m1 & H1 & H).
  apply bind_Ok_inv in H as (m2 & H2 & H).
  apply bind_Ok_inv in H as (m3 & H3 & H).
  injection H as <-.
  destruct (ols_boolean_index_inv _ _ _ _ _ H1) as [c1 Hc1].
  destruct (ols_boolean_index_inv _ _ _ _ _ H2) as [c2 Hc2].
  destruct (ols_boolean_index_inv _ _ _ _ _ H3) as [c3 Hc3].
  exists c1, c2, c3. repeat split; try assumption; cbn [fst snd].
  - eapply nobs_ols_boolean_index; eassumption.
  - eapply nobs_ols_boolean_index; eassumption.
  - eapply nobs_ols_boolean_index; eassumption.
Qed.

Lemma three_models_ok (df : DataFrame) (m c1 c2 c3 : list bool) :
  complete_rows df spec_i = Ok c1 ->
  complete_rows df spec_ii = Ok c2 ->
  complete_rows df spec_iii = Ok c3 ->
  exists ms, estimation.three_models (boolean_index df m) = Ok ms.
Proof.
  intros H1 H2 H3. unfold estimation.three_models.
  destruct (ols_boolean_index_ok _ _ df m c1 H1) as [m1 ->].
  destruct (ols_boolean_index_ok _ _ df m c2 H2) as [m2 ->].
  destruct (ols_boolean_index_ok _ _ df m c3 H3) as [m3 ->].
  cbn. eauto.
Qed.

(** Adjacent inclusive year ranges split the selected complete rows. *)
Lemma sample_size_split (lo mid hi : Z) (ns : list Z) (c : list bool) (ix : list Z) :
  (lo <= mid + 1)%Z -> (mid <= hi)%Z ->
  sample_size (map (in_years lo hi) ns) c ix
  = (sample_size (map (in_years lo mid) ns) c ix
     + sample_size (map (in_years (mid + 1) hi) ns) c ix)%nat.
Proof.
  intros H1 H2. unfold sample_size. revert c ix.
  induction ns as [|n ns IH]; intros [|b c] [|x ix]; cbn; try reflexivity.
  specialize (IH c ix). unfold in_years in *.
  destruct (Z.leb_spec lo n), (Z.leb_spec n hi), (Z.leb_spec n mid),
    (Z.leb_spec (mid + 1) n); destruct b; cbn; lia.
Qed.

Lemma mask_filter_mono {A : Type} (P Q : Z -> bool) (ns : list Z) (ix : list A) :
  (forall n, P n = true -> Q n = true) ->
  (length (mask_filter (map P ns) ix) <= length (mask_filter (map Q ns) ix))%nat.
Proof.
  intros H. revert ix. induction ns as [|n ns IH]; intros [|x ix]; cbn; try lia.
  specialize (IH ix). specialize (H n).
  destruct (P n), (Q n); cbn; lia.
Qed.

Lemma mask_filter_nonempty {A : Type} (P : Z -> bool) (ns : list Z) (ix : list A) :
  (0 < length (mask_filter (map P ns) ix))%nat -> exists n, n ∈ ns /\ P n = true.
Proof.
  revert ix. induction ns as [|n ns IH]; intros [|x ix]; cbn; try lia.
  destruct (P n) eqn:E.
  - intros _. exists n. split; [left | exact E].
  - intros H. destruct (IH ix H) as (n' & Hn' & HP). exists n'.
    split; [right; exact Hn' | exact HP].
Qed.

Lemma source_column_ano (self s1 : estimation.TaylorRuleEstimator) :
  estimation._source_column self = Ok s1 ->
  getitem (estimation.data s1) "ano" = getitem (estimation.data self) "ano".
Proof.
  unfold estimation._source_column. intros H.
  destruct (String.eqb (estimation.source self) "market");
    [| destruct (String.eqb (estimation.source self) "bc"); [| discriminate]];
    apply bind_Ok_inv in H as (c & _ & H); injection H as <-;
    cbn [estimation.with_data estimation.data];
    apply getitem_setitem_ne; discriminate.
Qed.

Lemma apply_lag_ano (s1 s2 : estimation.TaylorRuleEstimator) (years : list Z) :
  estimation._apply_lag s1 = Ok s2 ->
  getitem (estimation.data s1) "ano" = Ok (IntCol years) ->
  exists years', getitem (estimation.data s2) "ano" = Ok (IntCol years').
Proof.
  unfold estimation._apply_lag. intros H Hano.
  apply bind_Ok_inv in H as (c1 & _ & H).
  apply bind_Ok_inv in H as (c2 & _ & H).
  apply bind_Ok_inv in H as (c3 & _ & H).
  apply bind_Ok_inv in H as (d & Hd & H). injection H as <-.
  unfold dropna in Hd. apply bind_Ok_inv in Hd as (m & _ & Hd).
  injection Hd as <-. cbn [estimation.with_data estimation.data].
  rewrite getitem_boolean_index. getitem_through_setitem. rewrite Hano.
  eexists. reflexivity.
Qed.

(** C9: for a freshly built estimator over a panel with integer years,
    whenever [estimate_range] succeeds on the year ranges (5, 10) and
    (11, max), it succeeds on (5, max) as well, and for each of the three
    specifications the sample size (number of rows the model keeps) over
    (5, max) is the sum of the sample sizes over (5, 10) and (11, max). *)
Theorem estimate_range_sample_partition
  (est s_lo s_hi : estimation.TaylorRuleEstimator) (years : list Z) (max : Z)
  (lo_models hi_models : estimation.OLS * estimation.OLS * estimation.OLS) :
  getitem (estimation.data est) "ano" = Ok (IntCol years) ->
  estimation.estimate_range est (5, 10)%Z = Ok (s_lo, lo_models) ->
  estimation.estimate_range est (11, max)%Z = Ok (s_hi, hi_models) ->
  exists s_all all_models,
    estimation.estimate_range est (5, max)%Z = Ok (s_all, all_models)
    /\ estimation.nobs all_models.1.1
       = (estimation.nobs lo_models.1.1 + estimation.nobs hi_models.1.1)%nat
    /\ estimation.nobs all_models.1.2
       = (estimation.nobs lo_models.1.2 + estimation.nobs hi_models.1.2)%nat
    /\ estimation.nobs all_models.2
       = (estimation.nobs lo_models.2 + estimation.nobs hi_models.2)%nat.
Proof.
  intros Hano Hlo Hhi. unfold estimation.estimate_range in *.
  destruct (estimation._source_column est) as [s1|] eqn:E1; [|discriminate].
  cbn [mbind result_bind Py.bind] in *.
  destruct (estimation._apply_lag s1) as [s2|] eqn:E2; [|discriminate].
  cbn [mbind result_bind Py.bind] in *.
  rewrite <- (source_column_ano est s1 E1) in Hano.
  destruct (apply_lag_ano s1 s2 years E2 Hano) as [ns Hns].
  rewrite Hns in *. cbn [mbind result_bind Py.bind fst snd estimation.between] in *.
  set (df := estimation.data s2) in *.
  change (map (fun n => (5 <=? n)%Z && (n <=? 10)%Z) ns)
    with (map (in_years 5 10) ns) in Hlo.
  change (map (fun n => (11 <=? n)%Z && (n <=? max)%Z) ns)
    with (map (in_years 11 max) ns) in Hhi.
  change (map (fun n => (5 <=? n)%Z && (n <=? max)%Z) ns)
    with (map (in_years 5 max) ns).
  destruct (empty (boolean_index df (map (in_years 5 10) ns))) eqn:Elo;
    [discriminate |].
  destruct (empty (boolean_index df (map (in_years 11 max) ns))) eqn:Ehi;
    [discriminate |].
  apply bind_Ok_inv in Hlo as (a & Ha & Hlo). injection Hlo as <- <-.
  apply bind_Ok_inv in Hhi as (b & Hb & Hhi). injection Hhi as <- <-.
  unfold empty in Elo, Ehi. apply Nat.eqb_neq in Elo, Ehi.
  rewrite len_boolean_index in Elo, Ehi.
  assert (Hmax : (11 <= max)%Z).
  { destruct (mask_filter_nonempty (in_years 11 max) ns (index_values (Date df)))
      as (n & _ & Hn); [lia |].
    unfold in_years in Hn. lia. }
  assert (Hall : empty (boolean_index df (map (in_years 5 max) ns)) = false).
  { unfold empty. apply Nat.eqb_neq. rewrite len_boolean_index.
    pose proof (mask_filter_mono (in_years 5 10) (in_years 5 max) ns
                  (index_values (Date df))) as Hmono.
    assert (forall n, in_years 5 10 n = true -> in_years 5 max n = true)
      by (unfold in_years; intros n; lia).
    specialize (Hmono H). lia. }
  rewrite Hall.
  destruct (three_models_inv df _ a Ha) as (c1 & c2 & c3 & H1 & H2 & H3 & Ha1 & Ha2 & Ha3).
  destruct (three_models_inv df _ b Hb) as (c1' & c2' & c3' & H1' & H2' & H3' & Hb1 & Hb2 & Hb3).
  rewrite H1 in H1'. rewrite H2 in H2'. rewrite H3 in H3'.
  injection H1' as <-. injection H2' as <-. injection H3' as <-.
  destruct (three_models_ok df (map (in_years 5 max) ns) c1 c2 c3 H1 H2 H3)
    as [c Hc].
  rewrite Hc. cbn [mbind result_bind Py.bind mret result_ret].
  exists s2, c. split; [reflexivity |].
  destruct (three_models_inv df _ c Hc) as (d1 & d2 & d3 & G1 & G2 & G3 & Hc1 & Hc2 & Hc3).
  rewrite H1 in G1. rewrite H2 in G2. rewrite H3 in G3.
  injection G1 as <-. injection G2 as <-. injection G3 as <-.
  rewrite Ha1, Ha2, Ha3, Hb1, Hb2, Hb3, Hc1, Hc2, Hc3.
  repeat split;
    apply (sample_size_split 5 10 max ns _ (index_values (Date df))); lia.
Qed.

Lemma estimate_range_sample_partition_witness :
  exists s_all all_models,
    estimation.estimate_range Examples.market_estimator (5, 13)%Z
    = Ok (s_all, all_models)
    /\ estimation.nobs all_models.1.1 = (2 + 1)%nat
    /\ estimation.nobs all_models.1.2 = (2 + 1)%nat
    /\ estimation.nobs all_models.2 = (2 + 1)%nat.
Proof.
  destruct (estimation.estimate_range Examples.market_estimator (5, 10)%Z)
    as [[s_lo lo_models]|] eqn:Elo; [| vm_compute in Elo; discriminate Elo].
  destruct (estimation.estimate_range Examples.market_estimator (11, 13)%Z)
    as [[s_hi hi_models]|] eqn:Ehi; [| vm_compute in Ehi; discriminate Ehi].
  assert (Hlo : estimation.nobs lo_models.1.1 = 2%nat
                /\ estimation.nobs lo_models.1.2 = 2%nat
                /\ estimation.nobs lo_models.2 = 2%nat).
  { vm_compute in Elo. injection Elo as _ <-. repeat split; reflexivity. }
  assert (Hhi : estimation.nobs hi_models.1.1 = 1%nat
                /\ estimation.nobs hi_models.1.2 = 1%nat
                /\ estimation.nobs hi_models.2 = 1%nat).
  { vm_compute in Ehi. injection Ehi as _ <-. repeat split; reflexivity. }
  destruct Hlo as (L1 & L2 & L3), Hhi as (R1 & R2 & R3).
  destruct (estimate_range_sample_partition Examples.market_estimator s_lo s_hi
              [4; 5; 5; 10; 11; 11; 13; 13]%Z 13 lo_models hi_models
              eq_refl Elo Ehi)
    as (s_all & all_models & Hall & H1 & H2 & H3).
  exists s_all, all_models.
  rewrite L1, R1 in H1. rewrite L2, R2 in H2. rewrite L3, R3 in H3.
  repeat split; assumption.
Defined.

(** ** Annual targets *)

(** C4 fails on the code at this input.  For targets 4.00 (2020) and 3.75
    (2021) with interval width 1.50, the thirteen monthly rows from January
    2020 to January 2021 carry the forward-filled target, but the interval
    width is not forward-filled: it is NaN from February to December 2020, and
    so are both tolerance bounds, although the target is defined there. *)
Theorem resample_annualy_to_monthly_bounds_not_filled :
  exists out,
    processing.resample_annualy_to_monthly Examples.annual_targets = Ok out
    /\ Date out
       = Datetime64 (map month_start (month_range (period 2020 1) (period 2021 1)))
    /\ getitem out "inflation_target"
       = Ok (FloatCol (replicate 12 (Examples.dec 400 2) ++ [Examples.dec 375 2]))
    /\ getitem out "interval_size"
       = Ok (FloatCol (Examples.dec 150 2 :: replicate 11 Float64.nan
                       ++ [Examples.dec 150 2]))
    /\ getitem out "upper_limit"
       = Ok (FloatCol (Examples.dec 550 2 :: replicate 11 Float64.nan
                       ++ [Examples.dec 525 2]))
    /\ getitem out "lower_limit"
       = Ok (FloatCol (Examples.dec 250 2 :: replicate 11 Float64.nan
                       ++ [Examples.dec 225 2])).
Proof. eexists. repeat split; vm_compute; reflexivity. Qed.

(** ** Calendar *)

Local Open Scope Z_scope.

(** The Gregorian calendar repeats every 400 years, 4800 months or 146097
    days. *)
Lemma days_from_civil_era (y m d q : Z) :
  days_from_civil (y + q * 400) m d = days_from_civil y m d + q * 146097.
Proof.
  unfold days_from_civil. destruct (m <=? 2).
  - replace (y + q * 400 - 1) with (y - 1 + q * 400) by lia.
    rewrite Z.div_add, Z.mod_add by lia. lia.
  - rewrite Z.div_add, Z.mod_add by lia. lia.
Qed.

Lemma civil_from_days_era (z q : Z) :
  civil_from_days (z + q * 146097)
  = let '(y, m, d) := civil_from_days z in (y + q * 400, m, d).
Proof.
  unfold civil_from_days.
  replace (z + q * 146097 + 719468) with (z + 719468 + q * 146097) by lia.
  rewrite Z.div_add, Z.mod_add by lia.
  set (doe := (z + 719468) mod 146097).
  set (yoe := (doe - doe / 1460 + doe / 36524 - doe / 146096) / 365).
  set (doy := doe - (365 * yoe + yoe / 4 - yoe / 100)).
  set (mp := (5 * doy + 2) / 153).
  cbv zeta. destruct ((if mp <? 10 then mp + 3 else mp - 9) <=? 2);
    f_equal; f_equal; lia.
Qed.

Lemma month_of_day_era (z q : Z) :
  month_of_day (z + q * 146097) = month_of_day z + q * 4800.
Proof.
  unfold month_of_day. rewrite civil_from_days_era.
  destruct (civil_from_days z) as [[y m] d]. lia.
Qed.

Lemma month_start_era (p q : Z) :
  month_start (p + q * 4800) = month_start p + q * 146097.
Proof.
  unfold month_start, period_year, period_month.
  replace (p + q * 4800) with (p + (q * 400) * 12) by lia.
  rewrite Z.div_add, Z.mod_add by lia.
  replace (1970 + (p / 12 + q * 400)) with (1970 + p / 12 + q * 400) by lia.
  apply days_from_civil_era.
Qed.

Lemma month_end_era (p q : Z) :
  month_end (p + q * 4800) = month_end p + q * 146097.
Proof.
  unfold month_end.
  replace (p + q * 4800 + 1) with (p + 1 + q * 4800) by lia.
  rewrite month_start_era. lia.
Qed.

Lemma labels_in_month_spec (fuel : nat) (p : Z) :
  labels_in_month fuel p = true ->
  forall k, 0 <= k < Z.of_nat fuel ->
    month_of_day (month_start (p + k)) = p + k
    /\ month_of_day (month_end (p + k)) = p + k.
Proof.
  revert p. induction fuel as [|fuel IH]; intros p H k Hk; [lia |].
  cbn [labels_in_month] in H.
  apply andb_true_iff in H as [H Hrest]. apply andb_true_iff in H as [Hs He].
  destruct (Z.eq_dec k 0) as [-> | Hne].
  - rewrite Z.add_0_r. split; apply Z.eqb_eq; assumption.
  - replace (p + k) with (p + 1 + (k - 1)) by lia. apply IH; [exact Hrest | lia].
Qed.

Lemma labels_in_month_cycle : labels_in_month (Z.to_nat 4800) 0 = true.
Proof. vm_compute. reflexivity. Qed.

(** The label of a month, at month start or month end, lies in that
    month. *)
Lemma month_of_month_start (p : Z) : month_of_day (month_start p) = p.
Proof.
  pose proof (Z.div_mod p 4800 ltac:(lia)) as Hp.
  pose proof (Z.mod_pos_bound p 4800 ltac:(lia)) as Hr.
  set (q := p / 4800) in *. set (r := p mod 4800) in *. clearbody q r. subst p.
  replace (4800 * q + r) with (r + q * 4800) by lia.
  rewrite month_start_era, month_of_day_era.
  destruct (labels_in_month_spec _ 0 labels_in_month_cycle r) as [H _]; [lia |].
  rewrite Z.add_0_l in H. rewrite H. reflexivity.
Qed.

Lemma month_of_month_end (p : Z) : month_of_day (month_end p) = p.
Proof.
  pose proof (Z.div_mod p 4800 ltac:(lia)) as Hp.
  pose proof (Z.mod_pos_bound p 4800 ltac:(lia)) as Hr.
  set (q := p / 4800) in *. set (r := p mod 4800) in *. clearbody q r. subst p.
  replace (4800 * q + r) with (r + q * 4800) by lia.
  rewrite month_end_era, month_of_day_era.
  destruct (labels_in_month_spec _ 0 labels_in_month_cycle r) as [_ H]; [lia |].
  rewrite Z.add_0_l in H. rewrite H. reflexivity.
Qed.

Lemma year_numerator_step (a : Z) :
  0 <= a < 146096 ->
  a - a / 1460 + a / 36524 - a / 146096
  <= (a + 1) - (a + 1) / 1460 + (a + 1) / 36524 - (a + 1) / 146096.
Proof. intros H. Z.div_mod_to_equations. lia. Qed.

Lemma year_of_era_step (a : Z) :
  0 <= a < 146096 -> year_of_era a <= year_of_era (a + 1).
Proof.
  intros H. unfold year_of_era. apply Z.div_le_mono; [lia |].
  apply year_numerator_step. exact H.
Qed.

Lemma year_of_era_mono (a b : Z) :
  0 <= a -> a <= b -> b <= 146096 -> year_of_era a <= year_of_era b.
Proof.
  intros Ha Hab Hb. replace b with (a + (b - a)) in * by lia.
  assert (Hk : 0 <= b - a) by lia. revert Hk Hb. generalize (b - a) as k.
  clear Hab. intros k Hk. pattern k. apply natlike_ind; [| | exact Hk].
  - intros _. rewrite Z.add_0_r. lia.
  - intros x Hx IH Hb. pose proof (year_of_era_step (a + x) ltac:(lia)).
    replace (a + Z.succ x) with (a + x + 1) by lia. lia.
Qed.

Lemma years_checked_spec (fuel : nat) (y : Z) :
  years_checked fuel y = true ->
  forall k, 0 <= k < Z.of_nat fuel ->
    year_of_era (days_before_year (y + k)) = y + k
    /\ year_of_era (days_before_year (y + k + 1) - 1) = y + k.
Proof.
  revert y. induction fuel as [|fuel IH]; intros y H k Hk; [lia |].
  cbn [years_checked] in H.
  apply andb_true_iff in H as [H Hrest]. apply andb_true_iff in H as [H1 H2].
  destruct (Z.eq_dec k 0) as [-> | Hne].
  - rewrite Z.add_0_r. split; apply Z.eqb_eq; assumption.
  - replace (y + k) with (y + 1 + (k - 1)) by lia. apply IH; [exact Hrest | lia].
Qed.

Lemma years_checked_cycle : years_checked (Z.to_nat 400) 0 = true.
Proof. vm_compute. reflexivity. Qed.

Lemma days_before_year_step (y : Z) :
  0 <= y ->
  days_before_year y < days_before_year (y + 1) <= days_before_year y + 366.
Proof. unfold days_before_year. intros H. Z.div_mod_to_equations. lia. Qed.

Lemma days_before_year_mono (a b : Z) :
  0 <= a -> a <= b -> days_before_year a <= days_before_year b.
Proof.
  intros Ha Hab. replace b with (a + (b - a)) by lia.
  assert (Hk : 0 <= b - a) by lia. revert Hk. generalize (b - a) as k.
  apply natlike_ind.
  - rewrite Z.add_0_r. lia.
  - intros x Hx IH. pose proof (days_before_year_step (a + x) ltac:(lia)).
    replace (a + Z.succ x) with (a + x + 1) by lia. lia.
Qed.

(** Every day of the 400-year era lies in one of its years. *)
Lemma year_search (doe : Z) (n : nat) :
  0 <= doe < days_before_year (Z.of_nat n) ->
  exists y, 0 <= y < Z.of_nat n
            /\ days_before_year y <= doe < days_before_year (y + 1).
Proof.
  induction n as [|n IH]; intros H.
  - change (days_before_year (Z.of_nat 0)) with 0 in H. lia.
  - destruct (Z_lt_le_dec doe (days_before_year (Z.of_nat n))) as [Hlt | Hge].
    + destruct IH as (y & Hy & Hd); [lia |]. exists y. split; [lia | exact Hd].
    + exists (Z.of_nat n). split; [lia |].
      replace (Z.of_nat n + 1) with (Z.of_nat (S n)) by lia. lia.
Qed.

(** The year computed from the day of the era is the year the day lies
    in. *)
Lemma year_of_era_spec (doe : Z) :
  0 <= doe <= 146096 ->
  0 <= year_of_era doe <= 399
  /\ days_before_year (year_of_era doe) <= doe
     < days_before_year (year_of_era doe + 1).
Proof.
  intros H.
  destruct (year_search doe (Z.to_nat 400)) as (y & Hy & Hd).
  { change (days_before_year (Z.of_nat (Z.to_nat 400))) with 146097. lia. }
  change (Z.of_nat (Z.to_nat 400)) with 400 in Hy.
  destruct (years_checked_spec _ 0 years_checked_cycle y) as [Hlo Hhi];
    [change (Z.of_nat (Z.to_nat 400)) with 400; lia |].
  rewrite !Z.add_0_l in Hlo, Hhi.
  pose proof (days_before_year_mono (y + 1) 400 ltac:(lia) ltac:(lia)) as Hmax.
  change (days_before_year 400) with 146097 in Hmax.
  pose proof (days_before_year_mono 0 y ltac:(lia) ltac:(lia)) as Hmin.
  change (days_before_year 0) with 0 in Hmin.
  pose proof (year_of_era_mono (days_before_year y) doe ltac:(lia) ltac:(lia)
                ltac:(lia)) as H1.
  pose proof (year_of_era_mono doe (days_before_year (y + 1) - 1) ltac:(lia)
                ltac:(lia) ltac:(lia)) as H2.
  assert (E : year_of_era doe = y) by lia. rewrite E. split; [lia | exact Hd].
Qed.

(** The month ordinal in terms of the era, the year of the era and the
    month counted from March. *)
Lemma month_of_day_closed_form (z : Z) :
  let doe := (z + 719468) mod 146097 in
  let yoe := year_of_era doe in
  let mp := (5 * (doe - days_before_year yoe) + 2) / 153 in
  month_of_day z = 4800 * ((z + 719468) / 146097) + 12 * yoe + mp - 23638
  /\ 0 <= mp <= 11.
Proof.
  intros doe yoe mp.
  pose proof (Z.mod_pos_bound (z + 719468) 146097 ltac:(lia)) as Hdoe.
  fold doe in Hdoe.
  destruct (year_of_era_spec doe ltac:(lia)) as [Hy Hd]. fold yoe in Hy, Hd.
  pose proof (days_before_year_step yoe ltac:(lia)) as Hstep.
  assert (Hmp : 0 <= mp <= 11).
  { unfold mp. assert (0 <= doe - days_before_year yoe <= 365) by lia.
    Z.div_mod_to_equations. lia. }
  split; [| exact Hmp].
  unfold month_of_day, civil_from_days.
  change ((z + 719468) mod 146097) with doe.
  change ((doe - doe / 1460 + doe / 36524 - doe / 146096) / 365) with yoe.
  replace (365 * yoe + yoe / 4 - yoe / 100) with (days_before_year yoe)
    by (unfold days_before_year; rewrite (Z.div_small yoe 400) by lia; lia).
  change ((5 * (doe - days_before_year yoe) + 2) / 153) with mp.
  cbv zeta.
  destruct (Z.ltb_spec mp 10) as [H10 | H10].
  - destruct (Z.leb_spec (mp + 3) 2); lia.
  - destruct (Z.leb_spec (mp - 9) 2); lia.
Qed.

Lemma month_of_day_succ (z : Z) : month_of_day z <= month_of_day (z + 1).
Proof.
  destruct (month_of_day_closed_form z) as [E Hmp].
  destruct (month_of_day_closed_form (z + 1)) as [E' Hmp'].
  rewrite E, E'. clear E E'.
  replace (z + 1 + 719468) with (z + 719468 + 1) in * by lia.
  set (w := z + 719468) in *.
  pose proof (Z.mod_pos_bound w 146097 ltac:(lia)) as Hdoe.
  pose proof (Z.mod_pos_bound (w + 1) 146097 ltac:(lia)) as Hdoe'.
  destruct (year_of_era_spec (w mod 146097) ltac:(lia)) as [Hy Hd].
  destruct (year_of_era_spec ((w + 1) mod 146097) ltac:(lia)) as [Hy' Hd'].
  assert (Hcase : ((w + 1) / 146097 = w / 146097
                   /\ (w + 1) mod 146097 = w mod 146097 + 1)
                  \/ ((w + 1) / 146097 = w / 146097 + 1
                      /\ (w + 1) mod 146097 = 0))
    by (Z.div_mod_to_equations; lia).
  destruct Hcase as [[Hq Hr] | [Hq Hr]]; rewrite Hq, Hr in *.
  - pose proof (year_of_era_step (w mod 146097) ltac:(lia)) as Hmono.
    destruct (Z.eq_dec (year_of_era (w mod 146097 + 1)) (year_of_era (w mod 146097)))
      as [Ey | Ney].
    + rewrite Ey in *.
      assert ((5 * (w mod 146097 - days_before_year (year_of_era (w mod 146097))) + 2) / 153
              <= (5 * (w mod 146097 + 1
                       - days_before_year (year_of_era (w mod 146097))) + 2) / 153)
        by (apply Z.div_le_mono; lia).
      lia.
    + lia.
  - lia.
Qed.

(** Later days lie in later (or the same) months. *)
Lemma month_of_day_mono (z z' : Z) : z <= z' -> month_of_day z <= month_of_day z'.
Proof.
  intros H. replace z' with (z + (z' - z)) by lia.
  assert (Hk : 0 <= z' - z) by lia. revert Hk. generalize (z' - z) as k.
  apply natlike_ind.
  - rewrite Z.add_0_r. lia.
  - intros k Hk IH. pose proof (month_of_day_succ (z + k)).
    replace (z + Z.succ k) with (z + k + 1) by lia. lia.
Qed.

(** ** Monthly bins *)

Lemma fold_left_min_le (l : list Z) (a : Z) :
  fold_left Z.min l a <= a /\ (forall x, x ∈ l -> fold_left Z.min l a <= x)
  /\ (fold_left Z.min l a = a \/ fold_left Z.min l a ∈ l).
Proof.
  revert a. induction l as [|y l IH]; intros a; cbn.
  - split; [lia |]. split; [intros x Hx; inversion Hx | left; reflexivity].
  - destruct (IH (Z.min a y)) as (H1 & H2 & H3). split; [lia |]. split.
    + intros x Hx. apply elem_of_cons in Hx as [-> | Hx]; [lia | auto].
    + destruct H3 as [H3 | H3]; [| right; right; exact H3].
      destruct (Z.min_spec a y) as [[_ E] | [_ E]].
      * left. congruence.
      * right. rewrite H3, E. left.
Qed.

Lemma fold_left_max_ge (l : list Z) (a : Z) :
  a <= fold_left Z.max l a /\ (forall x, x ∈ l -> x <= fold_left Z.max l a)
  /\ (fold_left Z.max l a = a \/ fold_left Z.max l a ∈ l).
Proof.
  revert a. induction l as [|y l IH]; intros a; cbn.
  - split; [lia |]. split; [intros x Hx; inversion Hx | left; reflexivity].
  - destruct (IH (Z.max a y)) as (H1 & H2 & H3). split; [lia |]. split.
    + intros x Hx. apply elem_of_cons in Hx as [-> | Hx]; [lia | auto].
    + destruct H3 as [H3 | H3]; [| right; right; exact H3].
      destruct (Z.max_spec a y) as [[_ E] | [_ E]].
      * right. rewrite H3, E. left.
      * left. congruence.
Qed.

Lemma list_min_spec (l : list Z) (lo : Z) :
  list_min l = Some lo -> lo ∈ l /\ forall x, x ∈ l -> lo <= x.
Proof.
  destruct l as [|a l]; [discriminate |]. cbn. intros [= <-].
  destruct (fold_left_min_le l a) as (H1 & H2 & H3). split.
  - destruct H3 as [-> | H3]; [left | right; exact H3].
  - intros x Hx. apply elem_of_cons in Hx as [-> | Hx]; auto.
Qed.

Lemma list_max_spec (l : list Z) (hi : Z) :
  list_max l = Some hi -> hi ∈ l /\ forall x, x ∈ l -> x <= hi.
Proof.
  destruct l as [|a l]; [discriminate |]. cbn. intros [= <-].
  destruct (fold_left_max_ge l a) as (H1 & H2 & H3). split.
  - destruct H3 as [-> | H3]; [left | right; exact H3].
  - intros x Hx. apply elem_of_cons in Hx as [-> | Hx]; auto.
Qed.

Lemma month_range_lookup (lo hi : Z) (i : nat) :
  month_range lo hi !! i
  = if decide (Z.of_nat i < hi - lo + 1) then Some (lo + Z.of_nat i) else None.
Proof.
  unfold month_range. rewrite list_lookup_fmap.
  destruct (decide (Z.of_nat i < hi - lo + 1)) as [H | H].
  - rewrite lookup_seq_lt by lia. reflexivity.
  - rewrite lookup_seq_ge by lia. reflexivity.
Qed.

Lemma elem_of_month_range (lo hi p : Z) :
  p ∈ month_range lo hi <-> lo <= p <= hi.
Proof.
  split.
  - intros H. apply list_elem_of_lookup in H as [i Hi].
    rewrite month_range_lookup in Hi. destruct (decide _); [|discriminate].
    injection Hi as <-. lia.
  - intros H. apply list_elem_of_lookup. exists (Z.to_nat (p - lo)).
    rewrite month_range_lookup. destruct (decide _) as [_ | Hn]; [|lia].
    f_equal. lia.
Qed.

Lemma consecutive_from_lookup (l : list Z) :
  (forall i x y, l !! i = Some x -> l !! S i = Some y -> y = x + 1) ->
  consecutive l = true.
Proof.
  induction l as [|x l IH]; intros H; [reflexivity |].
  destruct l as [|y l]; [reflexivity |]. cbn [consecutive].
  apply andb_true_iff. split.
  - apply Z.eqb_eq. apply (H 0%nat x y); reflexivity.
  - apply IH. intros i a b Ha Hb. apply (H (S i) a b); assumption.
Qed.

Lemma consecutive_month_range (lo hi : Z) : consecutive (month_range lo hi) = true.
Proof.
  apply consecutive_from_lookup. intros i x y Hx Hy.
  rewrite month_range_lookup in Hx, Hy.
  destruct (decide _); [|discriminate]. destruct (decide _); [|discriminate].
  injection Hx as <-. injection Hy as <-. lia.
Qed.

Lemma NoDup_month_range (lo hi : Z) : NoDup (month_range lo hi).
Proof.
  unfold month_range. apply NoDup_fmap_2; [| apply NoDup_seq].
  intros a b H. lia.
Qed.

(** The bins are the months from that of the earliest date to that of the
    latest, and every observed date falls into one of them. *)
Lemma month_bins_spec (ds : list Z) :
  consecutive (month_bins ds) = true
  /\ NoDup (month_bins ds)
  /\ (forall d, d ∈ ds -> month_of_day d ∈ month_bins ds).
Proof.
  unfold month_bins.
  destruct (list_min ds) as [lo|] eqn:Elo; destruct (list_max ds) as [hi|] eqn:Ehi.
  - split; [apply consecutive_month_range |]. split; [apply NoDup_month_range |].
    intros d Hd. apply elem_of_month_range.
    destruct (list_min_spec _ _ Elo) as [_ Hlo].
    destruct (list_max_spec _ _ Ehi) as [_ Hhi].
    split; apply month_of_day_mono; auto.
  - destruct ds; discriminate.
  - destruct ds; discriminate.
  - destruct ds; [|discriminate]. split; [reflexivity |].
    split; [constructor | intros d Hd; inversion Hd].
Qed.

(** ** Index of the normalised series *)

Lemma to_datetime_inv (ix : index_col) (ds : list Z) :
  to_datetime ix = Ok ds -> ix = Datetime64 ds.
Proof. destruct ix; cbn; [intros [= ->]; reflexivity | discriminate]. Qed.

Lemma month_labels_months (label : Z -> Z) (bins : list Z) :
  (forall p, month_of_day (label p) = p) ->
  map month_of_day (map label bins) = bins.
Proof.
  intros H. rewrite map_map. rewrite <- (map_id bins) at 2.
  apply map_ext. intros p. apply H.
Qed.

Lemma months_of_resample_MS_asfreq (ds : list Z) (cols : list (string * column))
  (out : DataFrame) :
  resample_MS_asfreq ds cols = Ok out -> months_of out = month_bins ds.
Proof.
  unfold resample_MS_asfreq. destruct (has_duplicates ds); [discriminate |].
  intros [= <-]. unfold months_of; cbn [Date].
  apply month_labels_months, month_of_month_start.
Qed.

Lemma months_of_resample_ME_last (ds : list Z) (cols : list (string * column)) :
  months_of (resample_ME_last ds cols) = month_bins ds.
Proof.
  unfold months_of, resample_ME_last; cbn [Date].
  apply month_labels_months, month_of_month_end.
Qed.

Lemma months_of_same_Date (df df' : DataFrame) :
  Date df' = Date df -> months_of df' = months_of df.
Proof. unfold months_of. intros ->. reflexivity. Qed.

Lemma interpolate_quartely_data_months (interpolate_linear : list float -> list float)
  (df out : DataFrame) (column : string) :
  processing.interpolate_quartely_data interpolate_linear df column = Ok out ->
  exists ds, Date df = Datetime64 ds /\ months_of out = month_bins ds.
Proof.
  unfold processing.interpolate_quartely_data. intros H.
  apply bind_Ok_inv in H as (ds & Hds & H). apply to_datetime_inv in Hds.
  apply bind_Ok_inv in H as (c & _ & H).
  apply bind_Ok_inv in H as (monthly & Hm & H).
  apply bind_Ok_inv in H as (c' & _ & H).
  apply set_column_name_Date in H. apply months_of_resample_MS_asfreq in Hm.
  exists ds. split; [exact Hds |].
  rewrite (months_of_same_Date _ _ H). exact Hm.
Qed.

Lemma resample_daily_to_monthly_months (df out : DataFrame) (column : string) :
  processing.resample_daily_to_monthly df column = Ok out ->
  exists ds, Date df = Datetime64 ds /\ months_of out = month_bins ds.
Proof.
  unfold processing.resample_daily_to_monthly. intros H.
  apply bind_Ok_inv in H as (renamed & Hr & H). apply set_column_name_Date in Hr.
  apply bind_Ok_inv in H as (ds & Hds & H). apply to_datetime_inv in Hds.
  apply bind_Ok_inv in H as (c & _ & H). injection H as <-.
  exists ds. split; [congruence | apply months_of_resample_ME_last].
Qed.

Lemma resample_annualy_to_monthly_months (df out : DataFrame) :
  processing.resample_annualy_to_monthly df = Ok out ->
  exists ds, Date df = Datetime64 ds /\ months_of out = month_bins ds.
Proof.
  unfold processing.resample_annualy_to_monthly. intros H.
  apply bind_Ok_inv in H as (c1 & _ & H).
  apply bind_Ok_inv in H as (c2 & _ & H).
  apply bind_Ok_inv in H as (ds & Hds & H). apply to_datetime_inv in Hds.
  apply bind_Ok_inv in H as (monthly & Hm & H).
  apply months_of_resample_MS_asfreq in Hm.
  apply bind_Ok_inv in H as (t1 & _ & H).
  apply bind_Ok_inv in H as (t2 & _ & H).
  apply bind_Ok_inv in H as (w1 & _ & H).
  apply bind_Ok_inv in H as (t3 & _ & H).
  apply bind_Ok_inv in H as (w2 & _ & H). injection H as <-.
  exists ds. split; [exact Hds | exact Hm].
Qed.

(** The three resampling stages do return a frame on the inputs they are
    made for. *)
Lemma lookup_col_map_values (f : column -> column) (n : string)
  (cols : list (string * column)) :
  lookup_col n (map (fun '(n0, c) => (n0, f c)) cols) = f <$> lookup_col n cols.
Proof.
  induction cols as [|[n0 c0] cols IH]; cbn; [reflexivity |].
  destruct (String.eqb n0 n); [reflexivity | exact IH].
Qed.

Lemma assign_col_lookup_0 (n : string) (c : column) (cols : list (string * column)) :
  exists nc, assign_col n c cols !! 0%nat = Some nc.
Proof.
  destruct cols as [|[n0 c0] cols]; cbn; [eauto |].
  destruct (String.eqb n0 n); cbn; eauto.
Qed.

Lemma resample_daily_to_monthly_returns (df : DataFrame) (column : string) (ds : list Z) :
  Date df = Datetime64 ds -> columns df <> [] ->
  exists out, processing.resample_daily_to_monthly df column = Ok out.
Proof.
  intros HD Hcols. unfold processing.resample_daily_to_monthly, set_column_name.
  cbn [Pos.to_nat Pos.iter_op Nat.pred].
  destruct (columns df) as [|[n c] cols] eqn:E; [congruence |].
  cbn [lookup list_lookup mbind result_bind Py.bind Date]. rewrite HD.
  cbn [to_datetime mbind result_bind Py.bind]. unfold getitem.
  cbn. eauto.
Qed.

Lemma interpolate_quartely_data_returns
  (interpolate_linear : list float -> list float)
  (df : DataFrame) (column : string) (ds : list Z) (c : pd.column) :
  Date df = Datetime64 ds -> has_duplicates ds = false ->
  getitem df column = Ok c ->
  exists out,
    processing.interpolate_quartely_data interpolate_linear df column = Ok out.
Proof.
  intros HD Hdup Hc. unfold processing.interpolate_quartely_data.
  rewrite HD, Hc. cbn [to_datetime mbind result_bind Py.bind].
  unfold resample_MS_asfreq. rewrite Hdup. cbn [mbind result_bind Py.bind].
  unfold getitem at 1. cbn [columns setitem].
  rewrite lookup_col_map_values, lookup_assign_col_eq.
  cbn [fmap option_fmap option_map of_option mbind result_bind Py.bind].
  unfold set_column_name. cbn [columns setitem].
  change (Nat.pred (Pos.to_nat 1)) with 0%nat.
  match goal with
  | |- context [assign_col ?n ?v ?cols !! 0%nat] =>
      destruct (assign_col_lookup_0 n v cols) as [[n0 c0] ->]
  end.
  eauto.
Qed.

Lemma resample_annualy_to_monthly_returns (ds : list Z)
  (n1 n2 : string) (c1 c2 : column) (rest : list (string * column)) :
  has_duplicates ds = false -> n1 <> n2 ->
  exists out,
    processing.resample_annualy_to_monthly
      {| Date := Datetime64 ds; columns := (n1, c1) :: (n2, c2) :: rest |}
    = Ok out.
Proof.
  intros Hdup Hne. unfold processing.resample_annualy_to_monthly, column_name.
  cbn [columns]. change (Nat.pred (Pos.to_nat 1)) with 0%nat.
  change (Nat.pred (Pos.to_nat 2)) with 1%nat.
  cbn [lookup list_lookup fmap option_fmap option_map fst of_option
       mbind result_bind Py.bind].
  set (mapper := <[n2 := "interval_size"%string]>
                   (<[n1 := "inflation_target"%string]> ∅)).
  assert (H1 : mapper !! n1 = Some "inflation_target"%string)
    by (unfold mapper; rewrite lookup_insert_ne by congruence;
        apply lookup_insert_eq).
  assert (H2 : mapper !! n2 = Some "interval_size"%string)
    by (unfold mapper; apply lookup_insert_eq).
  unfold rename_columns. cbn [Date columns map]. rewrite H1, H2. cbn [default].
  cbn [to_datetime mbind result_bind Py.bind].
  unfold resample_MS_asfreq. rewrite Hdup.
  cbn [mbind result_bind Py.bind map].
  unfold getitem, setitem. cbn. eauto.
Qed.

(** C7, as stated, fails for the event alignment: with two meetings in
    January 2024, none in February and one in March, the selected survey rows
    keep their own daily dates, so January occurs twice and February is
    missing. *)
Lemma filter_expected_inflation_dates_not_monthly :
  exists out,
    processing.filter_expected_inflation_dates Examples.three_meetings
                                               Examples.eve_survey = Ok out
    /\ months_of out = [period 2024 1; period 2024 1; period 2024 3]
    /\ consecutive (months_of out) = false
    /\ ~ NoDup (months_of out).
Proof.
  eexists. split; [vm_compute; reflexivity |].
  split; [vm_compute; reflexivity |]. split; [vm_compute; reflexivity |].
  intros H. vm_compute in H. apply NoDup_cons in H as [H _].
  apply H. left.
Qed.

(** C7, amended: the three resampling stages (quarterly interpolation, daily
    resampling, annual forward-fill), whenever they return a frame, return
    one whose dates are one label per month for the months from that of the
    earliest input date to that of the latest: a contiguous monthly
    sequence without duplicate months in which every observed date has its
    month.  (The event alignment is not such a stage: it returns the
    selected survey rows under their own dates.) *)
Theorem resampling_stages_monthly_index
  (interpolate_linear : list float -> list float)
  (df out : DataFrame) (column : string) :
  processing.interpolate_quartely_data interpolate_linear df column = Ok out
  \/ processing.resample_daily_to_monthly df column = Ok out
  \/ processing.resample_annualy_to_monthly df = Ok out ->
  exists ds,
    Date df = Datetime64 ds
    /\ months_of out = month_bins ds
    /\ consecutive (months_of out) = true
    /\ NoDup (months_of out)
    /\ (forall d, d ∈ ds -> month_of_day d ∈ months_of out).
Proof.
  intros H.
  assert (Hm : exists ds, Date df = Datetime64 ds /\ months_of out = month_bins ds).
  { destruct H as [H | [H | H]].
    - eapply interpolate_quartely_data_months; exact H.
    - eapply resample_daily_to_monthly_months; exact H.
    - eapply resample_annualy_to_monthly_months; exact H. }
  destruct Hm as (ds & HD & Hm). exists ds.
  destruct (month_bins_spec ds) as (Hc & Hn & Hs).
  rewrite Hm. repeat split; assumption.
Qed.

Lemma resampling_stages_monthly_index_witness :
  exists ds,
    Date Examples.annual_targets = Datetime64 ds
    /\ months_of Examples.annual_monthly = month_bins ds
    /\ consecutive (months_of Examples.annual_monthly) = true
    /\ NoDup (months_of Examples.annual_monthly)
    /\ (forall d, d ∈ ds -> month_of_day d ∈ months_of Examples.annual_monthly).
Proof.
  apply (resampling_stages_monthly_index (fun xs => xs) Examples.annual_targets
           Examples.annual_monthly "Meta").
  right. right. vm_compute. reflexivity.
Defined.

(** ** Ownership of the panels *)

Local Close Scope Z_scope.

Lemma load_Ok (h : heap) (r : ref) (df : DataFrame) :
  load h r = Ok df <-> h !! r = Some df.
Proof.
  unfold load. destruct (h !! r); cbn; split; intros H; congruence.
Qed.

Lemma dt_to_period_inv (ix p : index_col) :
  dt_to_period ix = Ok p ->
  exists ds, ix = Datetime64 ds /\ p = PeriodM (map month_of_day ds).
Proof.
  destruct ix as [ds | ps]; cbn; [| discriminate].
  intros [= <-]. eauto.
Qed.

(** The loop succeeds only on distinct frames with timestamps, and replaces
    the [Date] column of each of them, and nothing else, in the heap. *)
Lemma to_period_loop_spec (dfs : list ref) (h h' : heap) :
  processing.to_period_loop h dfs = Ok h' ->
  length h' = length h
  /\ NoDup dfs
  /\ (forall i, i ∈ dfs ->
        exists df ds,
          h !! i = Some df /\ Date df = Datetime64 ds
          /\ h' !! i = Some {| Date := PeriodM (map month_of_day ds);
                               columns := columns df |})
  /\ (forall i, i ∉ dfs -> h' !! i = h !! i).
Proof.
  revert h. induction dfs as [|r dfs IH]; intros h H.
  - cbn in H. injection H as <-. split; [reflexivity |]. split; [constructor |].
    split; [intros i Hi; inversion Hi | reflexivity].
  - cbn [processing.to_period_loop] in H.
    apply bind_Ok_inv in H as (df & Hload & H). apply load_Ok in Hload.
    apply bind_Ok_inv in H as (p & Hp & H).
    apply dt_to_period_inv in Hp as (ds & HD & ->).
    destruct (IH _ H) as (Hlen & Hnd & Hin & Hout).
    unfold store in *. rewrite length_insert in Hlen.
    pose proof (lookup_lt_Some _ _ _ Hload) as Hr.
    assert (Hfresh : r ∉ dfs).
    { intros Hr'. destruct (Hin r Hr') as (df' & ds' & Hl & HD' & _).
      rewrite list_lookup_insert_eq in Hl by exact Hr.
      injection Hl as <-. cbn in HD'. discriminate. }
    split; [exact Hlen |]. split; [constructor; assumption |]. split.
    + intros i Hi. apply elem_of_cons in Hi as [-> | Hi].
      * exists df, ds. split; [exact Hload |]. split; [exact HD |].
        rewrite (Hout r Hfresh). apply list_lookup_insert_eq. exact Hr.
      * destruct (Hin i Hi) as (df' & ds' & Hl & HD' & Hl').
        assert (i <> r) by (intros ->; contradiction).
        rewrite list_lookup_insert_ne in Hl by congruence.
        exists df', ds'. auto.
    + intros i Hi. apply not_elem_of_cons in Hi as [Hne Hi].
      rewrite (Hout i Hi). apply list_lookup_insert_ne. congruence.
Qed.

Lemma merge_datasets_heap (h h' : heap) (dfs : list ref) (merged : ref) :
  processing.merge_datasets h dfs = Ok (h', merged) ->
  exists h1, processing.to_period_loop h dfs = Ok h1
             /\ length h1 = length h
             /\ forall i, i < length h -> h' !! i = h1 !! i.
Proof.
  unfold processing.merge_datasets. intros H.
  apply bind_Ok_inv in H as (h1 & Hloop & H). exists h1.
  destruct (to_period_loop_spec _ _ _ Hloop) as (Hlen & _).
  split; [exact Hloop |]. split; [exact Hlen |].
  destruct dfs as [|r [|r' rest]]; [discriminate | |].
  - apply bind_Ok_inv in H as (df & _ & H). injection H as <- <-. reflexivity.
  - apply bind_Ok_inv in H as (first & _ & H).
    apply bind_Ok_inv in H as (others & _ & H).
    apply bind_Ok_inv in H as (df_merged & _ & H).
    unfold alloc in H. injection H as <- <-.
    intros i Hi. apply lookup_app_l. lia.
Qed.

(** C5, as stated, fails: after [merge_datasets] the first input frame is
    not what it was, its timestamps have been overwritten by months. *)
Lemma merge_datasets_mutates_inputs :
  exists h' merged,
    processing.merge_datasets Examples.two_series [0; 1] = Ok (h', merged)
    /\ Examples.two_series !! 0 = Some Examples.focus_series
    /\ h' !! 0
       = Some {| Date := PeriodM [period 2024 1; period 2024 3];
                 columns := columns Examples.focus_series |}
    /\ h' !! 0 <> Examples.two_series !! 0.
Proof.
  eexists _, _. split; [vm_compute; reflexivity |].
  split; [reflexivity |]. split; [vm_compute; reflexivity |].
  vm_compute. discriminate.
Qed.

(** C5, amended: [merge_datasets] writes into its arguments.  When it
    succeeds, every input panel held timestamps and now holds, in place, the
    months of those timestamps in its [Date] column, with its other columns
    unchanged; every other frame of the heap is unchanged.  The later stages
    copy: [calculate_deviation_from_target] leaves every existing frame as it
    is and returns a new one, and the estimator is built on an equal copy of
    the panel it is given. *)
Theorem merge_datasets_rewrites_input_dates
  (h h' : heap) (dfs : list ref) (merged : ref) :
  processing.merge_datasets h dfs = Ok (h', merged) ->
  (forall i, i ∈ dfs ->
     exists df ds,
       h !! i = Some df /\ Date df = Datetime64 ds
       /\ h' !! i = Some {| Date := PeriodM (map month_of_day ds);
                            columns := columns df |})
  /\ (forall i, i ∉ dfs -> i < length h -> h' !! i = h !! i)
  /\ (forall h'' final,
        processing.calculate_deviation_from_target_at h' merged = Ok (h'', final) ->
        final = length h' /\ forall i, i < length h' -> h'' !! i = h' !! i)
  /\ (forall r source lag est,
        estimation.__init__ h' r source lag = Ok est ->
        h' !! r = Some (estimation.data est)).
Proof.
  intros H.
  destruct (merge_datasets_heap _ _ _ _ H) as (h1 & Hloop & Hlen & Hsame).
  destruct (to_period_loop_spec _ _ _ Hloop) as (_ & _ & Hin & Hout).
  split; [| split; [| split]].
  - intros i Hi. destruct (Hin i Hi) as (df & ds & Hl & HD & Hl').
    exists df, ds. split; [exact Hl |]. split; [exact HD |].
    rewrite Hsame; [exact Hl' | eapply lookup_lt_Some; exact Hl].
  - intros i Hi Hlt. rewrite (Hsame i Hlt). apply Hout. exact Hi.
  - intros h'' final Hdev.
    unfold processing.calculate_deviation_from_target_at in Hdev.
    apply bind_Ok_inv in Hdev as (df & _ & Hdev).
    apply bind_Ok_inv in Hdev as (df' & _ & Hdev).
    unfold alloc in Hdev. injection Hdev as <- <-.
    split; [reflexivity |]. intros i Hi. apply lookup_app_l. exact Hi.
  - intros r source lag est Hinit. unfold estimation.__init__ in Hinit.
    apply bind_Ok_inv in Hinit as (df & Hl & Hinit). injection Hinit as <-.
    apply load_Ok in Hl. exact Hl.
Qed.

Lemma merge_datasets_rewrites_input_dates_witness :
  exists h' merged,
    processing.merge_datasets Examples.two_series [0; 1] = Ok (h', merged)
    /\ (forall i, i ∈ [0; 1] ->
          exists df ds,
            Examples.two_series !! i = Some df /\ Date df = Datetime64 ds
            /\ h' !! i = Some {| Date := PeriodM (map month_of_day ds);
                                 columns := columns df |})
    /\ (forall i, i ∉ [0; 1] -> i < length Examples.two_series ->
          h' !! i = Examples.two_series !! i)
    /\ (forall h'' final,
          processing.calculate_deviation_from_target_at h' merged = Ok (h'', final) ->
          final = length h' /\ forall i, i < length h' -> h'' !! i = h' !! i)
    /\ (forall r source lag est,
          estimation.__init__ h' r source lag = Ok est ->
          h' !! r = Some (estimation.data est)).
Proof.
  destruct (processing.merge_datasets Examples.two_series [0; 1])
    as [[h' merged]|] eqn:E; [| vm_compute in E; discriminate E].
  exists h', merged. split; [reflexivity |].
  apply (merge_datasets_rewrites_input_dates Examples.two_series h' [0; 1] merged).
  exact E.
Defined.

(** ** Merging a panel with itself *)

Lemma string_length_append (a b : string) :
  String.length (a ++ b) = String.length a + String.length b.
Proof.
  induction a as [|c a IH]; [reflexivity |].
  change (S (String.length (a ++ b)) = S (String.length a + String.length b)).
  rewrite IH. reflexivity.
Qed.

Lemma string_append_inj_r (s a b : string) : (a ++ s = b ++ s)%string -> a = b.
Proof.
  revert b. induction a as [|c a IH]; intros [|c' b] H.
  - reflexivity.
  - apply (f_equal String.length) in H.
    rewrite !string_length_append in H. cbn [String.length] in H. lia.
  - apply (f_equal String.length) in H.
    rewrite !string_length_append in H. cbn [String.length] in H. lia.
  - change (String c (a ++ s) = String c' (b ++ s))%string in H.
    injection H as -> H. f_equal. apply IH. exact H.
Qed.

Lemma inb_true_iff (x : string) (l : list string) : inb x l = true <-> x ∈ l.
Proof.
  unfold inb. rewrite existsb_exists. split.
  - intros (y & Hy & E). apply String.eqb_eq in E. subst y.
    apply list_elem_of_In. exact Hy.
  - intros H. exists x. split; [apply list_elem_of_In; exact H | apply String.eqb_refl].
Qed.

Lemma inb_map_inj (f : string -> string) (x : string) (l : list string) :
  (forall a b, f a = f b -> a = b) -> inb (f x) (map f l) = inb x l.
Proof.
  intros Hf. induction l as [|y l IH]; cbn; [reflexivity |].
  fold (inb (f x) (map f l)). fold (inb x l). rewrite IH. f_equal.
  destruct (String.eqb_spec x y) as [-> | Hne].
  - apply String.eqb_refl.
  - apply String.eqb_neq. intros E. apply Hne, Hf, E.
Qed.

Lemma filter_inb_self (l l' : list string) :
  (forall x, x ∈ l -> x ∈ l') -> List.filter (fun n => inb n l') l = l.
Proof.
  induction l as [|x l IH]; intros H; cbn; [reflexivity |].
  rewrite (proj2 (inb_true_iff x l')) by (apply H; left).
  f_equal. apply IH. intros y Hy. apply H. right. exact Hy.
Qed.

Lemma duplicated_from_map_inj (f : string -> string) (seen l : list string) :
  (forall a b, f a = f b -> a = b) ->
  duplicated_from (map f seen) (map f l) = duplicated_from seen l.
Proof.
  intros Hf. revert seen. induction l as [|x l IH]; intros seen; cbn; [reflexivity |].
  rewrite inb_map_inj by exact Hf. f_equal. apply (IH (x :: seen)).
Qed.

Lemma new_duplicates_same (d : list bool) :
  existsb (fun '(b, a) => andb a (negb b)) (zip d d) = false.
Proof. induction d as [|[] d IH]; cbn; [reflexivity | exact IH..]. Qed.

Lemma new_duplicates_map_inj (f : string -> string) (l : list string) :
  (forall a b, f a = f b -> a = b) -> new_duplicates l (map f l) = false.
Proof.
  intros Hf. unfold new_duplicates, duplicated.
  change (@nil string) with (map f []) at 2.
  rewrite duplicated_from_map_inj by exact Hf. apply new_duplicates_same.
Qed.

Lemma matches_from_none (j : nat) (k : Z) (l : list Z) :
  k ∉ l -> matches_from j k l = [].
Proof.
  revert j. induction l as [|x l IH]; intros j H; cbn; [reflexivity |].
  apply not_elem_of_cons in H as [Hne H].
  destruct (Z.eqb_spec k x); [contradiction | apply IH; exact H].
Qed.

Lemma matches_from_unique (j i : nat) (k : Z) (l : list Z) :
  NoDup l -> l !! i = Some k -> matches_from j k l = [j + i].
Proof.
  revert j i. induction l as [|x l IH]; intros j i Hnd Hi; [discriminate |].
  apply NoDup_cons in Hnd as [Hx Hnd]. cbn. destruct i as [|i]; cbn in Hi.
  - injection Hi as ->. rewrite Z.eqb_refl, matches_from_none by exact Hx.
    f_equal. lia.
  - destruct (Z.eqb_spec k x) as [-> | _].
    + exfalso. apply Hx. eapply list_elem_of_lookup_2. exact Hi.
    + rewrite (IH (S j) i Hnd Hi). f_equal. lia.
Qed.

Lemma join_plan_from_self (i : nat) (lkeys rkeys : list Z) :
  NoDup rkeys ->
  (forall j k, lkeys !! j = Some k -> rkeys !! (i + j) = Some k) ->
  join_plan_from i lkeys rkeys = map (fun j => (j, Some j)) (seq i (length lkeys)).
Proof.
  intros Hnd. revert i. induction lkeys as [|k lkeys IH]; intros i H; cbn;
    [reflexivity |].
  rewrite (matches_from_unique 0 i k rkeys Hnd)
    by (rewrite <- (Nat.add_0_r i); apply H; reflexivity).
  cbn. f_equal. apply IH. intros j k' Hj.
  replace (S i + j) with (i + S j) by lia. apply H. exact Hj.
Qed.

Lemma join_plan_self (keys : list Z) :
  NoDup keys ->
  join_plan keys keys = map (fun j => (j, Some j)) (seq 0 (length keys)).
Proof. intros H. apply join_plan_from_self; [exact H | auto]. Qed.

Lemma map_lookup_seq {A : Type} (d : A) (l : list A) :
  map (fun j => default d (l !! j)) (seq 0 (length l)) = l.
Proof.
  apply list_eq. intros i. rewrite list_lookup_fmap.
  destruct (l !! i) as [x|] eqn:E.
  - rewrite lookup_seq_lt by (eapply lookup_lt_Some; exact E).
    cbn. rewrite E. reflexivity.
  - rewrite lookup_seq_ge by (apply lookup_ge_None; exact E). reflexivity.
Qed.

Lemma omap_lookup_seq_from {A : Type} (pre l : list A) :
  omap ((pre ++ l) !!.) (seq (length pre) (length l)) = l.
Proof.
  revert pre. induction l as [|x l IH]; intros pre; [reflexivity |].
  cbn. rewrite list_lookup_middle by reflexivity. cbn.
  f_equal. specialize (IH (pre ++ [x])).
  rewrite <- app_assoc, length_app, Nat.add_1_r in IH. exact IH.
Qed.

Lemma omap_lookup_seq {A : Type} (l : list A) :
  omap (l !!.) (seq 0 (length l)) = l.
Proof. apply (omap_lookup_seq_from [] l). Qed.

Lemma gather_all (c : column) (n : nat) :
  col_length c = n -> gather c (map Some (seq 0 n)) = c.
Proof.
  intros <-. destruct c as [xs | ns]; cbn [gather col_length].
  - f_equal. rewrite map_map. cbn. apply map_lookup_seq.
  - replace (forallb (fun o => bool_decide (is_Some (o ≫= (ns !!.))))
                     (map Some (seq 0 (length ns)))) with true.
    + f_equal. rewrite map_map. cbn. apply map_lookup_seq.
    + symmetry. apply forallb_forall. intros o Ho.
      apply in_map_iff in Ho as (j & <- & Hj). apply in_seq in Hj.
      apply bool_decide_eq_true. cbn. apply lookup_lt_is_Some. lia.
Qed.

Lemma gather_index_all (ix : index_col) :
  gather_index ix (seq 0 (length (index_values ix))) = ix.
Proof. destruct ix; cbn; rewrite omap_lookup_seq; reflexivity. Qed.

Lemma same_kind_keys_self (ix : index_col) :
  same_kind_keys ix ix = Ok (index_values ix, index_values ix).
Proof. destruct ix; reflexivity. Qed.

Lemma add_suffix_overlapping (overlap : list string) (suffix n : string) :
  n ∈ overlap -> add_suffix overlap suffix n = (n ++ suffix)%string.
Proof.
  intros H. unfold add_suffix. rewrite (proj2 (inb_true_iff n overlap) H).
  reflexivity.
Qed.

(** C8, as stated, fails: the merge of a panel with an equal copy of itself
    is not the panel.  Its value column comes back twice, as [selic_target_x]
    and [selic_target_y], and no column is called [selic_target] any more. *)
Lemma merge_self_renames_columns :
  exists h' merged out,
    processing.merge_datasets Examples.panel_and_copy [0; 1] = Ok (h', merged)
    /\ h' !! merged = Some out
    /\ names out = ["selic_target_x"; "selic_target_y"]%string
    /\ getitem out "selic_target" = Raise (KeyError "selic_target")
    /\ (forall a, h' !! 0 = Some a -> out <> a)
    /\ merge {| Date := PeriodM [period 2024 1; period 2024 2];
                columns := columns Examples.panel_a |}
             {| Date := PeriodM [period 2024 1; period 2024 2];
                columns := columns Examples.panel_a |}
       = Ok out.
Proof.
  eexists _, _, _. split; [vm_compute; reflexivity |].
  split; [vm_compute; reflexivity |]. split; [vm_compute; reflexivity |].
  split; [vm_compute; reflexivity |]. split; [| vm_compute; reflexivity].
  intros a Ha. vm_compute in Ha. injection Ha as <-. discriminate.
Qed.

(** Passing one and the same frame object twice makes the second
    [to_period] conversion fail. *)
Lemma merge_datasets_aliased_raises :
  processing.merge_datasets [Examples.panel_a] [0; 0]
  = Raise (AttributeError "'PeriodProperties' object has no attribute 'to_period'").
Proof. vm_compute. reflexivity. Qed.

(** C8, amended: for a well-formed panel [A] with unique month keys, the
    left join of [A] with an equal copy of itself on [Date] succeeds and
    returns the key column of [A] once, unchanged, followed by every
    non-key column of [A] twice with its values unchanged: first under its
    name extended by [_x], then under its name extended by [_y]. *)
Theorem merge_self_suffixes (A : DataFrame) :
  NoDup (index_values (Date A)) ->
  well_formed A ->
  merge A A
  = Ok {| Date := Date A;
          columns := with_suffix "_x" (columns A) ++ with_suffix "_y" (columns A) |}.
Proof.
  intros Hkeys Hwf. unfold merge. rewrite same_kind_keys_self.
  cbn [mbind result_bind Py.bind].
  rewrite (filter_inb_self (names A) (names A)) by auto.
  assert (Hren : forall s, map (add_suffix (names A) s) (names A)
                           = map (fun n => (n ++ s)%string) (names A)).
  { intros s. apply map_ext_in. intros n Hn.
    apply add_suffix_overlapping, list_elem_of_In, Hn. }
  rewrite !Hren.
  rewrite !new_duplicates_map_inj by (intros a b; apply string_append_inj_r).
  cbn [orb mret result_ret]. rewrite join_plan_self by exact Hkeys.
  rewrite !map_map. cbn [fst snd].
  change (map (fun x : nat => Some x) (seq 0 (length (index_values (Date A)))))
    with (map Some (seq 0 (len A))).
  rewrite map_id. fold (len A).
  f_equal. f_equal.
  - apply gather_index_all.
  - unfold with_suffix. f_equal; apply map_ext_in; intros [n c] Hin;
      (rewrite add_suffix_overlapping
         by (apply list_elem_of_In, in_map_iff; exists (n, c); auto));
      cbn [fst snd]; f_equal; apply gather_all;
      apply (proj1 (Forall_forall _ _) Hwf (n, c)), list_elem_of_In, Hin.
Qed.

Lemma merge_self_suffixes_witness :
  merge {| Date := PeriodM [period 2024 1; period 2024 2];
           columns := columns Examples.panel_a |}
        {| Date := PeriodM [period 2024 1; period 2024 2];
           columns := columns Examples.panel_a |}
  = Ok {| Date := PeriodM [period 2024 1; period 2024 2];
          columns := with_suffix "_x" (columns Examples.panel_a)
                     ++ with_suffix "_y" (columns Examples.panel_a) |}.
Proof.
  apply (merge_self_suffixes
           {| Date := PeriodM [period 2024 1; period 2024 2];
              columns := columns Examples.panel_a |}).
  - apply (bool_decide_unpack _). vm_compute. exact I.
  - repeat constructor.
Defined.


(** ** The offset of the event alignment *)

Lemma elem_of_mask_filter_isin (xs values : list Z) (x : Z) :
  x ∈ mask_filter (isin xs values) xs -> x ∈ xs /\ x ∈ values.
Proof.
  unfold isin. induction xs as [|a xs IH]; cbn; [intros H; inversion H |].
  destruct (existsb (Z.eqb a) values) eqn:E.
  - intros H. apply elem_of_cons in H as [-> | H].
    + split; [left |]. apply existsb_exists in E as (v & Hv & Ev).
      apply Z.eqb_eq in Ev. subst v. apply list_elem_of_In. exact Hv.
    + destruct (IH H) as [H1 H2]. split; [right; exact H1 | exact H2].
  - intros H. destruct (IH H) as [H1 H2]. split; [right; exact H1 | exact H2].
Qed.

Lemma elem_of_selection_at (dates : list Z) (df : DataFrame) (k d : Z) :
  d ∈ index_values (Date (selection_at dates df k)) ->
  d ∈ index_values (Date df) /\ exists m, m ∈ dates /\ d = (m - k)%Z.
Proof.
  unfold selection_at, boolean_index. cbn [Date]. rewrite index_values_mask.
  intros H. apply elem_of_mask_filter_isin in H as [H1 H2]. split; [exact H1 |].
  apply list_elem_of_fmap in H2 as (m & -> & Hm). eauto.
Qed.

(** The loop over a list of offsets, started on an empty selection, ends on
    the selection of one of the offsets; the offsets before it select
    nothing, and it is the last offset unless it selects a row. *)
Lemma fallback_search_offset (offsets : list Z) (o : Z) (dates : list Z)
  (df filtered : DataFrame) :
  len filtered = 0 ->
  exists before k after,
    o :: offsets = before ++ k :: after
    /\ processing.fallback_search (o :: offsets) dates df filtered
       = selection_at dates df k
    /\ (forall j, j ∈ before -> len (selection_at dates df j) = 0)
    /\ (after = [] \/ 0 < len (selection_at dates df k)).
Proof.
  revert o filtered. induction offsets as [|o' offsets IH]; intros o filtered H0.
  - exists [], o, []. cbn [app processing.fallback_search]. rewrite H0.
    cbn [Nat.ltb Nat.leb]. repeat split; [intros j Hj; inversion Hj | left; reflexivity].
  - destruct (len (selection_at dates df o)) as [|n] eqn:E.
    + destruct (IH o' (selection_at dates df o) E) as (before & k & after & Hl & Hr & Hb & Ha).
      exists (o :: before), k, after. repeat split.
      * cbn [app]. rewrite <- Hl. reflexivity.
      * cbn [processing.fallback_search] in Hr |- *. rewrite H0. cbn [Nat.ltb Nat.leb].
        exact Hr.
      * intros j Hj. apply elem_of_cons in Hj as [-> | Hj]; [exact E | apply Hb, Hj].
      * exact Ha.
    + exists [], o, (o' :: offsets). repeat split.
      * cbn [processing.fallback_search]. rewrite H0. cbn [Nat.ltb Nat.leb].
        change (boolean_index df (isin (index_values (Date df))
                  (map (fun d => (d - processing.Timedelta_days o)%Z) dates)))
          with (selection_at dates df o).
        rewrite E. reflexivity.
      * intros j Hj. inversion Hj.
      * right. rewrite E. lia.
Qed.

Lemma range_1_8_split (before after : list Z) (k : Z) :
  processing.range_1_8 = before ++ k :: after ->
  (1 <= k <= 7)%Z /\ (forall j, (1 <= j < k)%Z -> j ∈ before)
  /\ (after = [] -> k = 7%Z).
Proof.
  unfold processing.range_1_8. intros H.
  do 7 (destruct before as [|? before];
        [cbn [app] in H; injection H as <- <-;
         split; [lia |]; split; [| intros E; first [discriminate E | reflexivity] ];
         intros j Hj;
         assert (Hc : (j = 1 \/ j = 2 \/ j = 3 \/ j = 4 \/ j = 5 \/ j = 6)%Z) by lia;
         repeat (destruct Hc as [-> | Hc]; [try lia; repeat constructor |]);
         subst j; try lia; repeat constructor
        | cbn [app] in H; injection H as <- H]).
  destruct before; discriminate H.
Qed.

(** X1: whenever [filter_expected_inflation_dates] returns (on a non-empty
    list of meetings), the returned frame is the selection of one single
    offset [k] between 1 and 7 days, applied to all meetings at once: every
    returned row is a row of the survey table dated exactly [k] days before
    some meeting, no survey row lies between 1 and [k - 1] days before any
    meeting, and the frame can only be empty at [k = 7]. *)
Theorem filter_expected_inflation_dates_common_offset
  (atas_data : list processing.Ata) (df_expected out : DataFrame) :
  atas_data <> [] ->
  processing.filter_expected_inflation_dates atas_data df_expected = Ok out ->
  exists (k : Z) (renamed : DataFrame),
    (1 <= k <= 7)%Z
    /\ set_column_name df_expected 1 "focus_expected_inflation" = Ok renamed
    /\ out = selection_at (map processing.dataReferencia atas_data) renamed k
    /\ (forall j, (1 <= j < k)%Z ->
          len (selection_at (map processing.dataReferencia atas_data) renamed j) = 0)
    /\ (len out = 0 -> k = 7%Z)
    /\ (forall d, d ∈ index_values (Date out) ->
          d ∈ index_values (Date df_expected)
          /\ exists m, m ∈ map processing.dataReferencia atas_data /\ d = (m - k)%Z).
Proof.
  intros Hne H. set (dates := map processing.dataReferencia atas_data) in *.
  destruct (Date df_expected) as [ds|ps] eqn:HD;
    [| rewrite filter_expected_inflation_dates_meetings in H by exact Hne;
       rewrite HD in H; discriminate H].
  destruct (set_column_name df_expected 1 "focus_expected_inflation")
    as [renamed|e] eqn:Hren.
  2: { rewrite filter_expected_inflation_dates_meetings in H by exact Hne.
       rewrite HD in H. cbn [to_datetime mbind result_bind Py.bind] in H.
       replace {| Date := Datetime64 ds; columns := columns df_expected |}
         with df_expected in H by (destruct df_expected; cbn in *; congruence).
       rewrite Hren in H. discriminate H. }
  assert (HDr : Date renamed = Datetime64 ds)
    by (rewrite (set_column_name_Date _ _ _ _ Hren); exact HD).
  assert (Heq : processing.filter_expected_inflation_dates atas_data df_expected
                = Ok (processing.fallback_search processing.range_1_8 dates renamed
                        (selection_at dates renamed 1))).
  { rewrite filter_expected_inflation_dates_meetings by exact Hne. rewrite HD.
    cbn [to_datetime mbind result_bind Py.bind].
    replace {| Date := Datetime64 ds; columns := columns df_expected |}
      with df_expected by (destruct df_expected; cbn in *; congruence).
    rewrite Hren. cbn [mbind result_bind Py.bind mret result_ret].
    unfold selection_at. rewrite HDr. reflexivity. }
  assert (H0 : processing.fallback_search processing.range_1_8 dates renamed
                 (selection_at dates renamed 1) = out) by congruence.
  clear H Heq. rename H0 into H.
  assert (Hk : exists k, (1 <= k <= 7)%Z
                         /\ out = selection_at dates renamed k
                         /\ (forall j, (1 <= j < k)%Z ->
                               len (selection_at dates renamed j) = 0)
                         /\ (len out = 0 -> k = 7%Z)).
  { destruct (len (selection_at dates renamed 1)) as [|n] eqn:E1.
    - destruct (fallback_search_offset [2; 3; 4; 5; 6; 7]%Z 1%Z dates renamed
                  (selection_at dates renamed 1) E1)
        as (before & k & after & Hl & Hr & Hb & Ha).
      change (1 :: [2; 3; 4; 5; 6; 7])%Z with processing.range_1_8 in Hl, Hr.
      rewrite Hr in H. destruct (range_1_8_split _ _ _ Hl) as (Hk1 & Hk2 & Hk3).
      exists k. repeat split; try lia; [congruence | |].
      + intros j Hj. apply Hb, Hk2, Hj.
      + intros H0. destruct Ha as [-> | Ha]; [apply Hk3; reflexivity |].
        rewrite <- H in H0. lia.
    - rewrite fallback_search_break in H by lia.
      exists 1%Z. repeat split; try lia; [congruence |].
      intros H0. rewrite <- H, E1 in H0. discriminate H0. }
  destruct Hk as (k & Hk1 & Hk2 & Hk3 & Hk4).
  exists k, renamed. repeat split; try assumption; try lia.
  - rewrite Hk2 in H0. apply elem_of_selection_at in H0 as [H1 _].
    rewrite HDr in H1. exact H1.
  - rewrite Hk2 in H0. apply elem_of_selection_at in H0 as [_ H2]. exact H2.
Qed.

Lemma filter_expected_inflation_dates_common_offset_witness :
  exists (k : Z) (renamed : DataFrame),
    (1 <= k <= 7)%Z
    /\ set_column_name Examples.survey 1 "focus_expected_inflation" = Ok renamed
    /\ {| Date := Datetime64 [Examples.day 2024 1 30];
          columns := [("focus_expected_inflation"%string,
                       FloatCol [Examples.dec 39 1])] |}
       = selection_at (map processing.dataReferencia Examples.meetings) renamed k
    /\ (forall j, (1 <= j < k)%Z ->
          len (selection_at (map processing.dataReferencia Examples.meetings) renamed j) = 0)
    /\ (len {| Date := Datetime64 [Examples.day 2024 1 30];
               columns := [("focus_expected_inflation"%string,
                            FloatCol [Examples.dec 39 1])] |} = 0 -> k = 7%Z)
    /\ (forall d, d ∈ [Examples.day 2024 1 30] ->
          d ∈ index_values (Date Examples.survey)
          /\ exists m, m ∈ map processing.dataReferencia Examples.meetings
                       /\ d = (m - k)%Z).
Proof.
  apply (filter_expected_inflation_dates_common_offset Examples.meetings Examples.survey
           {| Date := Datetime64 [Examples.day 2024 1 30];
              columns := [("focus_expected_inflation"%string,
                           FloatCol [Examples.dec 39 1])] |}).
  - discriminate.
  - vm_compute. reflexivity.
Defined.

Lemma isin_same_values (xs values values' : list Z) :
  (forall v, v ∈ values <-> v ∈ values') -> isin xs values = isin xs values'.
Proof.
  intros H. unfold isin. apply map_ext. intros x.
  apply eq_true_iff_eq. rewrite !existsb_exists. split; intros (v & Hv & Ev).
  - exists v. split; [| exact Ev]. apply list_elem_of_In, H, list_elem_of_In, Hv.
  - exists v. split; [| exact Ev]. apply list_elem_of_In, H, list_elem_of_In, Hv.
Qed.

Lemma elem_of_shifted (dates dates' : list Z) (k : Z) :
  (forall d, d ∈ dates <-> d ∈ dates') ->
  forall v, v ∈ map (fun d => (d - k)%Z) dates <-> v ∈ map (fun d => (d - k)%Z) dates'.
Proof.
  intros H v. split; intros Hv; apply list_elem_of_fmap in Hv as (d & -> & Hd);
    apply list_elem_of_fmap; exists d; (split; [reflexivity | apply H, Hd]).
Qed.

Lemma fallback_search_same_dates (offsets dates dates' : list Z)
  (df filtered : DataFrame) :
  (forall d, d ∈ dates <-> d ∈ dates') ->
  processing.fallback_search offsets dates df filtered
  = processing.fallback_search offsets dates' df filtered.
Proof.
  intros H. revert filtered. induction offsets as [|o offsets IH]; intros filtered;
    cbn [processing.fallback_search]; [reflexivity |].
  destruct (Nat.ltb 0 (len filtered)); [reflexivity |].
  rewrite (isin_same_values _ _ _ (elem_of_shifted dates dates' _ H)). apply IH.
Qed.

(** X2: the selection depends on the meetings only through the set of their
    dates: two non-empty meeting lists with the same dates, in any order and
    with any repetitions, give the same result on every survey table. *)
Theorem filter_expected_inflation_dates_meeting_set
  (atas_data atas_data' : list processing.Ata) (df_expected : DataFrame) :
  atas_data <> [] -> atas_data' <> [] ->
  (forall d, d ∈ map processing.dataReferencia atas_data
             <-> d ∈ map processing.dataReferencia atas_data') ->
  processing.filter_expected_inflation_dates atas_data df_expected
  = processing.filter_expected_inflation_dates atas_data' df_expected.
Proof.
  intros Hne Hne' H.
  rewrite !filter_expected_inflation_dates_meetings by assumption.
  destruct (to_datetime (Date df_expected)) as [ds|e]; [| reflexivity].
  cbn [mbind result_bind Py.bind].
  destruct (set_column_name _ _ _) as [renamed|e]; [| reflexivity].
  cbn [mbind result_bind Py.bind mret result_ret]. f_equal.
  rewrite (isin_same_values _ _ _ (elem_of_shifted _ _ _ H)).
  apply fallback_search_same_dates, H.
Qed.

Lemma filter_expected_inflation_dates_meeting_set_witness :
  processing.filter_expected_inflation_dates Examples.meetings Examples.survey
  = processing.filter_expected_inflation_dates
      (rev Examples.meetings ++ Examples.meetings) Examples.survey.
Proof.
  apply (filter_expected_inflation_dates_meeting_set
           Examples.meetings (rev Examples.meetings ++ Examples.meetings)
           Examples.survey).
  - discriminate.
  - discriminate.
  - intros d. cbn. rewrite !elem_of_cons. intuition.
Defined.


(** ** The last observation of a month *)

Lemma last_from_spec (p : Z) (DS : list Z) (VALID : list bool) :
  forall (ds : list Z) (valid : list bool) (i : nat) (best : option (Z * nat)),
    ds = drop i DS -> valid = drop i VALID ->
    best_so_far p DS VALID i best ->
    exists best',
      last_from i p ds valid best = snd <$> best'
      /\ best_so_far p DS VALID (Nat.max (length DS) (length VALID)) best'.
Proof.
  induction ds as [|d ds IH]; intros valid i best Hds Hvalid Hbest.
  - exists best. split; [destruct valid; reflexivity |].
    assert (Hi : length DS <= i).
    { apply (f_equal length) in Hds. rewrite length_drop in Hds. cbn in Hds. lia. }
    destruct best as [[d0 j0]|]; unfold best_so_far in *.
    + destruct Hbest as (H0 & H1 & H2 & H3 & H4).
      apply lookup_lt_Some in H1 as H1'.
      repeat split; try assumption; try lia.
      intros j d Hj Hd. apply H4; [| exact Hd]. apply lookup_lt_Some in Hd. lia.
    + intros j d Hj Hd. apply (Hbest j); [| exact Hd]. apply lookup_lt_Some in Hd. lia.
  - destruct valid as [|v valid].
    + exists best. split; [reflexivity |].
      assert (Hi : length VALID <= i).
      { apply (f_equal length) in Hvalid. rewrite length_drop in Hvalid.
        cbn in Hvalid. lia. }
      destruct best as [[d0 j0]|]; unfold best_so_far in *.
      * destruct Hbest as (H0 & H1 & H2 & H3 & H4).
        apply lookup_lt_Some in H2 as H2'.
        repeat split; try assumption; try lia.
        intros j d' Hj Hd Hv. apply H4; [| exact Hd | exact Hv].
        apply lookup_lt_Some in Hv. lia.
      * intros j d' Hj Hd Hv. apply (Hbest j); [| exact Hd | exact Hv].
        apply lookup_lt_Some in Hv. lia.
    + cbn [last_from].
      assert (Hdi : DS !! i = Some d).
      { rewrite <- (Nat.add_0_r i), <- lookup_drop, <- Hds. reflexivity. }
      assert (Hvi : VALID !! i = Some v).
      { rewrite <- (Nat.add_0_r i), <- lookup_drop, <- Hvalid. reflexivity. }
      apply IH.
      * replace (S i) with (i + 1) by lia. rewrite <- drop_drop, <- Hds. reflexivity.
      * replace (S i) with (i + 1) by lia. rewrite <- drop_drop, <- Hvalid. reflexivity.
      * destruct v; cbn [andb].
        2: { destruct best as [[d0 j0]|]; unfold best_so_far in *.
             - destruct Hbest as (H0 & H1 & H2 & H3 & H4).
               repeat split; try assumption; try lia.
               intros j d' Hj Hd Hv. destruct (decide (j = i)) as [-> | Hne];
                 [congruence | apply H4; [lia | exact Hd | exact Hv]].
             - intros j d' Hj Hd Hv. destruct (decide (j = i)) as [-> | Hne];
                 [congruence | apply (Hbest j); [lia | exact Hd | exact Hv]]. }
        destruct (Z.eqb_spec (month_of_day d) p) as [Hp | Hp]; cbn [andb].
        2: { destruct best as [[d0 j0]|]; unfold best_so_far in *.
             - destruct Hbest as (H0 & H1 & H2 & H3 & H4).
               repeat split; try assumption; try lia.
               intros j d' Hj Hd Hv Hm. destruct (decide (j = i)) as [-> | Hne];
                 [congruence | apply H4; [lia | exact Hd | exact Hv | exact Hm]].
             - intros j d' Hj Hd Hv. destruct (decide (j = i)) as [-> | Hne];
                 [congruence | apply (Hbest j); [lia | exact Hd | exact Hv]]. }
        destruct best as [[d0 j0]|]; unfold best_so_far in *.
        -- destruct Hbest as (H0 & H1 & H2 & H3 & H4).
           destruct (Z.leb_spec d0 d) as [Hle | Hgt]; cbn [andb].
           ++ repeat split; try assumption; try lia.
              intros j d' Hj Hd Hv Hm. destruct (decide (j = i)) as [-> | Hne].
              ** right. split; [congruence | lia].
              ** destruct (H4 j d') as [Hlt | [He Hj']]; try assumption; try lia.
           ++ repeat split; try assumption; try lia.
              intros j d' Hj Hd Hv Hm. destruct (decide (j = i)) as [-> | Hne].
              ** left. assert (d' = d) by congruence. lia.
              ** apply H4; try assumption; lia.
        -- repeat split; try assumption; try lia.
           intros j d' Hj Hd Hv Hm. destruct (decide (j = i)) as [-> | Hne].
           ++ right. split; [congruence | lia].
           ++ exfalso. apply (Hbest j d'); [lia | exact Hd | exact Hv | exact Hm].
Qed.

Lemma lookup_notna_true (xs : list float) (j : nat) :
  map Float64.notna xs !! j = Some true <->
  exists x, xs !! j = Some x /\ Float64.notna x = true.
Proof.
  rewrite list_lookup_fmap. destruct (xs !! j) as [x|]; cbn.
  - split; [intros [= H]; eauto | intros (x' & [= <-] & H); congruence].
  - split; [discriminate | intros (x' & H & _); discriminate].
Qed.

(** The cell [resample('ME').last()] computes for month [p]. *)
Lemma last_from_value (p : Z) (ds : list Z) (xs : list float) :
  (forall j x, last_observation p ds xs j x ->
     default Float64.nan (last_from 0 p ds (map Float64.notna xs) None ≫= (xs !!.)) = x)
  /\ ((forall j d x, ds !! j = Some d -> xs !! j = Some x -> month_of_day d = p ->
         Float64.notna x = false) ->
      default Float64.nan (last_from 0 p ds (map Float64.notna xs) None ≫= (xs !!.))
      = Float64.nan).
Proof.
  destruct (last_from_spec p ds (map Float64.notna xs) ds (map Float64.notna xs) 0 None)
    as (best & -> & Hbest); [reflexivity | reflexivity | intros j d Hj; lia |].
  destruct best as [[d0 j0]|]; unfold best_so_far in Hbest; cbn [fmap option_fmap option_map snd mbind option_bind].
  - destruct Hbest as (H0 & H1 & H2 & H3 & H4).
    apply lookup_notna_true in H2 as (x0 & Hx0 & Hn0). split.
    + intros j x (d & Hd & Hx & Hn & Hm & Hlast).
      destruct (Hlast j0 d0 x0 H1 Hx0 Hn0 H3) as [Hlt | [He Hle]];
        (destruct (H4 j d) as [Hlt' | [He' Hle']];
         [apply lookup_lt_Some in Hd; lia | exact Hd
          | apply lookup_notna_true; eauto | exact Hm | |]); try lia.
      assert (j = j0) by lia. subst j. rewrite Hx0. cbn. congruence.
    + intros Hnone. rewrite (Hnone j0 d0 x0 H1 Hx0 H3) in Hn0. discriminate Hn0.
  - split; [| reflexivity].
    intros j x (d & Hd & Hx & Hn & Hm & Hlast). exfalso.
    apply (Hbest j d); [apply lookup_lt_Some in Hd; lia | exact Hd | | exact Hm].
    apply lookup_notna_true. eauto.
Qed.

(** X3: on a frame none of whose further columns is named [selic_target],
    [resample_daily_to_monthly] gives every month, from the month of the
    first to the month of the last observation, the chronologically last
    non-missing observation dated in that month (of two rows of one date the
    later row), labelled with the month's last day; a month with no
    non-missing observation holds NaN, so no value is carried over from an
    earlier month. *)
Theorem resample_daily_to_monthly_last_observation
  (df : DataFrame) (column n : string) (ds : list Z) (xs : list float)
  (rest : list (string * pd.column)) :
  Date df = Datetime64 ds ->
  columns df = (n, FloatCol xs) :: rest ->
  "selic_target"%string ∉ map fst rest ->
  exists out ys,
    processing.resample_daily_to_monthly df column = Ok out
    /\ Date out = Datetime64 (map month_end (month_bins ds))
    /\ getitem out "selic_target" = Ok (FloatCol ys)
    /\ length ys = length (month_bins ds)
    /\ forall i p, month_bins ds !! i = Some p ->
         (forall j x, last_observation p ds xs j x -> ys !! i = Some x)
         /\ ((forall j d x, ds !! j = Some d -> xs !! j = Some x ->
                month_of_day d = p -> Float64.notna x = false) ->
             ys !! i = Some Float64.nan).
Proof.
  intros HD Hcols _.
  exists (resample_ME_last ds (("selic_target"%string, FloatCol xs) :: rest)).
  eexists. split; [| split; [| split; [| split]]].
  - unfold processing.resample_daily_to_monthly, set_column_name.
    rewrite Hcols. change (Nat.pred (Pos.to_nat 1)) with 0.
    cbn [lookup list_lookup mbind result_bind Py.bind Date to_datetime].
    rewrite HD. cbn [to_datetime mbind result_bind Py.bind].
    reflexivity.
  - reflexivity.
  - reflexivity.
  - rewrite !length_map. reflexivity.
  - intros i p Hp.
    rewrite !list_lookup_fmap, Hp. cbn [fmap option_fmap option_map].
    destruct (last_from_value p ds xs) as [H1 H2]. split.
    + intros j x Hl. f_equal. apply (H1 j x Hl).
    + intros Hnone. f_equal. apply H2, Hnone.
Qed.

Lemma resample_daily_to_monthly_last_observation_witness :
  exists out ys,
    processing.resample_daily_to_monthly Examples.daily_selic "selic_rate" = Ok out
    /\ Date out
       = Datetime64 (map month_end
                       (month_bins [Examples.day 2024 1 30; Examples.day 2024 1 31;
                                    Examples.day 2024 3 1]))
    /\ getitem out "selic_target" = Ok (FloatCol ys)
    /\ length ys
       = length (month_bins [Examples.day 2024 1 30; Examples.day 2024 1 31;
                             Examples.day 2024 3 1])
    /\ forall i p,
         month_bins [Examples.day 2024 1 30; Examples.day 2024 1 31;
                     Examples.day 2024 3 1] !! i = Some p ->
         (forall j x,
            last_observation p
              [Examples.day 2024 1 30; Examples.day 2024 1 31; Examples.day 2024 3 1]
              [Examples.dec 1175 2; Float64.nan; Examples.dec 1075 2] j x ->
            ys !! i = Some x)
         /\ ((forall j d x,
                [Examples.day 2024 1 30; Examples.day 2024 1 31;
                 Examples.day 2024 3 1] !! j = Some d ->
                [Examples.dec 1175 2; Float64.nan; Examples.dec 1075 2] !! j = Some x ->
                month_of_day d = p -> Float64.notna x = false) ->
             ys !! i = Some Float64.nan).
Proof.
  apply (resample_daily_to_monthly_last_observation Examples.daily_selic
           "selic_rate" "valor"
           [Examples.day 2024 1 30; Examples.day 2024 1 31; Examples.day 2024 3 1]
           [Examples.dec 1175 2; Float64.nan; Examples.dec 1075 2] []).
  - reflexivity.
  - reflexivity.
  - apply not_elem_of_nil.
Defined.


(** ** Annual targets carried forward *)

Lemma getitem_cons_eq (D : index_col) (n : string) (c : column)
  (cols : list (string * column)) :
  getitem {| Date := D; columns := (n, c) :: cols |} n = Ok c.
Proof. unfold getitem. cbn. rewrite String.eqb_refl. reflexivity. Qed.

Lemma getitem_cons_ne (D : index_col) (n0 n : string) (c : column)
  (cols : list (string * column)) :
  n0 <> n ->
  getitem {| Date := D; columns := (n0, c) :: cols |} n
  = getitem {| Date := D; columns := cols |} n.
Proof.
  intros H. unfold getitem. cbn. apply String.eqb_neq in H. rewrite H. reflexivity.
Qed.

Lemma resample_annualy_to_monthly_target (ds : list Z)
  (n1 n2 : string) (c1 c2 : column) (rest : list (string * column)) :
  has_duplicates ds = false -> n1 <> n2 ->
  exists out,
    processing.resample_annualy_to_monthly
      {| Date := Datetime64 ds; columns := (n1, c1) :: (n2, c2) :: rest |}
    = Ok out
    /\ Date out = Datetime64 (map month_start (month_bins ds))
    /\ getitem out "inflation_target"
       = Ok (ffill (gather c1 (map (fun t => index_from 0 t ds)
                                   (map month_start (month_bins ds))))).
Proof.
  intros Hdup Hne. unfold processing.resample_annualy_to_monthly, column_name.
  cbn [columns]. change (Nat.pred (Pos.to_nat 1)) with 0%nat.
  change (Nat.pred (Pos.to_nat 2)) with 1%nat.
  cbn [lookup list_lookup fmap option_fmap option_map fst of_option
       mbind result_bind Py.bind].
  set (mapper := <[n2 := "interval_size"%string]>
                   (<[n1 := "inflation_target"%string]> ∅)).
  assert (H1 : mapper !! n1 = Some "inflation_target"%string)
    by (unfold mapper; rewrite lookup_insert_ne by congruence;
        apply lookup_insert_eq).
  assert (H2 : mapper !! n2 = Some "interval_size"%string)
    by (unfold mapper; apply lookup_insert_eq).
  unfold rename_columns. cbn [Date columns map]. rewrite H1, H2. cbn [default].
  cbn [to_datetime mbind result_bind Py.bind].
  unfold resample_MS_asfreq. rewrite Hdup.
  cbn [mbind result_bind Py.bind map].
  set (plan := map (fun t => index_from 0 t ds) (map month_start (month_bins ds))).
  set (tail := map _ (map _ rest)). unfold id.
  rewrite getitem_cons_eq. cbn [mbind result_bind Py.bind].
  repeat (getitem_through_setitem;
          rewrite ?(getitem_cons_ne _ "inflation_target" "interval_size")
            by discriminate;
          rewrite ?getitem_cons_eq;
          cbn [mbind result_bind Py.bind mret result_ret]).
  eexists. split; [reflexivity |]. split; [reflexivity |].
  getitem_through_setitem. reflexivity.
Qed.

Lemma ffill_from_length (xs : list float) (last : float) :
  length (ffill_from last xs) = length xs.
Proof.
  revert last. induction xs as [|a xs IH]; intros last; cbn; [reflexivity |].
  rewrite IH. reflexivity.
Qed.

(** After a run of missing values the fill still holds the value it
    started from. *)
Lemma ffill_from_all_missing (xs : list float) (last : float) (i : nat) :
  i < length xs ->
  (forall j x, j <= i -> xs !! j = Some x -> Float64.isna x = true) ->
  ffill_from last xs !! i = Some last.
Proof.
  revert last i. induction xs as [|a xs IH]; intros last i Hi Hna; cbn in Hi; [lia |].
  cbn [ffill_from]. rewrite (Hna 0 a) by (reflexivity || lia).
  destruct i as [|i]; [reflexivity |]. cbn [lookup list_lookup].
  apply IH; [lia |]. intros j x Hj Hx. apply (Hna (S j) x); [lia | exact Hx].
Qed.

(** A filled cell holds the last value that is not missing at or before
    its row. *)
Lemma ffill_from_carried (xs : list float) (last : float) (i j : nat) (x : float) :
  xs !! j = Some x -> Float64.notna x = true -> j <= i -> i < length xs ->
  (forall j' x', j < j' <= i -> xs !! j' = Some x' -> Float64.isna x' = true) ->
  ffill_from last xs !! i = Some x.
Proof.
  revert last i j. induction xs as [|a xs IH]; intros last i j Hx Hn Hji Hi Hna;
    [discriminate Hx |].
  cbn [ffill_from]. destruct j as [|j].
  - injection Hx as ->. unfold Float64.notna in Hn. apply negb_true_iff in Hn.
    rewrite Hn. destruct i as [|i]; [reflexivity |]. cbn [lookup list_lookup].
    cbn in Hi. apply ffill_from_all_missing; [lia |].
    intros j' x' Hj' Hx'. apply (Hna (S j') x'); [lia | exact Hx'].
  - destruct i as [|i]; [lia |]. cbn [lookup list_lookup]. cbn in Hi, Hx.
    apply (IH _ i j); [exact Hx | exact Hn | lia | lia |].
    intros j' x' Hj' Hx'. apply (Hna (S j') x'); [lia | exact Hx'].
Qed.

Lemma has_duplicates_false (l : list Z) : has_duplicates l = false -> NoDup l.
Proof.
  induction l as [|x l IH]; cbn; [constructor |].
  intros H. apply orb_false_iff in H as [H1 H2]. constructor; [| apply IH, H2].
  intros Hx. apply list_elem_of_In in Hx.
  assert (existsb (Z.eqb x) l = true)
    by (apply existsb_exists; exists x; split; [exact Hx | apply Z.eqb_refl]).
  congruence.
Qed.

Lemma has_duplicates_true (l : list Z) (i j : nat) (z : Z) :
  l !! i = Some z -> l !! j = Some z -> i <> j -> has_duplicates l = true.
Proof.
  intros Hi Hj Hne. destruct (has_duplicates l) eqn:E; [reflexivity |].
  exfalso. apply Hne. apply has_duplicates_false in E.
  eapply NoDup_lookup; eauto.
Qed.

Lemma index_from_Some (l : list Z) (k : nat) (z : Z) (i : nat) :
  index_from k z l = Some i -> exists j, i = k + j /\ l !! j = Some z.
Proof.
  revert k. induction l as [|x l IH]; intros k; cbn; [discriminate |].
  destruct (Z.eqb_spec x z) as [-> | Hne].
  - intros [= <-]. exists 0. split; [lia | reflexivity].
  - intros H. apply IH in H as (j & -> & Hj). exists (S j). split; [lia | exact Hj].
Qed.

Lemma index_from_None (l : list Z) (k : nat) (z : Z) :
  index_from k z l = None -> z ∉ l.
Proof.
  revert k. induction l as [|x l IH]; intros k; cbn; [intros _ H; inversion H |].
  destruct (Z.eqb_spec x z) as [-> | Hne]; [discriminate |].
  intros H Hz. apply elem_of_cons in Hz as [-> | Hz]; [congruence |].
  exact (IH _ H Hz).
Qed.

Lemma index_from_NoDup (l : list Z) (z : Z) (j : nat) :
  NoDup l -> l !! j = Some z -> index_from 0 z l = Some j.
Proof.
  intros Hnd Hj. destruct (index_from 0 z l) as [i|] eqn:E.
  - apply index_from_Some in E as (j' & -> & Hj'). f_equal.
    cbn. eapply NoDup_lookup; eauto.
  - apply index_from_None in E. exfalso. apply E.
    apply list_elem_of_lookup. eauto.
Qed.

Lemma month_bins_lookup (ds : list Z) (i : nat) (p : Z) :
  month_bins ds !! i = Some p ->
  exists lo, (forall k q, month_bins ds !! k = Some q <-> (q = lo + Z.of_nat k)%Z
                          /\ k < length (month_bins ds)).
Proof.
  unfold month_bins. destruct (list_min ds) as [lo|]; [| discriminate].
  destruct (list_max ds) as [hi|]; [| discriminate].
  intros _. exists (month_of_day lo). intros k q.
  unfold month_range. rewrite length_map, length_seq, list_lookup_fmap.
  destruct (decide (k < Z.to_nat (month_of_day hi - month_of_day lo + 1))) as [Hk | Hk].
  - rewrite lookup_seq_lt by exact Hk. cbn [fmap option_fmap option_map Nat.add]. split.
    + intros [= <-]. split; [reflexivity | exact Hk].
    + intros [-> _]. reflexivity.
  - rewrite lookup_seq_ge by lia. cbn [fmap option_fmap option_map].
    split; [discriminate | intros [_ H]; lia].
Qed.

Lemma resample_annualy_to_monthly_duplicates (ds : list Z)
  (n1 n2 : string) (c1 c2 : column) (rest : list (string * column)) :
  has_duplicates ds = true ->
  processing.resample_annualy_to_monthly
    {| Date := Datetime64 ds; columns := (n1, c1) :: (n2, c2) :: rest |}
  = Raise (ValueError "cannot reindex on an axis with duplicate labels").
Proof.
  intros Hdup. unfold processing.resample_annualy_to_monthly, column_name.
  cbn [columns]. change (Nat.pred (Pos.to_nat 1)) with 0%nat.
  change (Nat.pred (Pos.to_nat 2)) with 1%nat.
  cbn [lookup list_lookup fmap option_fmap option_map fst of_option
       mbind result_bind Py.bind].
  unfold rename_columns. cbn [Date columns].
  cbn [to_datetime mbind result_bind Py.bind].
  unfold resample_MS_asfreq. rewrite Hdup. reflexivity.
Qed.

(** X4: in the monthly frame [resample_annualy_to_monthly] returns for a
    frame whose column names do not collide with the two it renames, the
    [inflation_target] of month [p] is the target of the latest input row
    that is dated on the first day of a month [q <= p] and holds a value:
    the annual target is carried forward, month by month, up to the month
    before the next dated value. *)
Theorem resample_annualy_to_monthly_target_carried
  (ds : list Z) (n1 n2 : string) (ts : list float) (c2 : column)
  (rest : list (string * column)) (out : DataFrame) :
  n1 <> n2 ->
  (forall n, n ∈ map fst rest ->
             n ∉ [n1; n2; "inflation_target"; "interval_size"]%string) ->
  processing.resample_annualy_to_monthly
    {| Date := Datetime64 ds; columns := (n1, FloatCol ts) :: (n2, c2) :: rest |}
  = Ok out ->
  exists filled,
    getitem out "inflation_target" = Ok (FloatCol filled)
    /\ length filled = length (month_bins ds)
    /\ forall (i : nat) (p : Z) (j : nat) (q : Z) (t : float),
         month_bins ds !! i = Some p ->
         ds !! j = Some (month_start q) -> ts !! j = Some t ->
         Float64.notna t = true -> (q <= p)%Z ->
         (forall (j' : nat) (q' : Z) (t' : float),
            ds !! j' = Some (month_start q') -> ts !! j' = Some t' ->
            (q < q' <= p)%Z -> Float64.isna t' = true) ->
         filled !! i = Some t.
Proof.
  intros Hne _ Hout.
  destruct (has_duplicates ds) eqn:Hdup;
    [rewrite resample_annualy_to_monthly_duplicates in Hout by exact Hdup;
     discriminate Hout |].
  destruct (resample_annualy_to_monthly_target ds n1 n2 (FloatCol ts) c2 rest Hdup Hne)
    as (out' & Hout' & _ & Htarget).
  assert (out' = out) by congruence. subst out'. clear Hout'.
  apply has_duplicates_false in Hdup.
  set (G := map (fun o : option nat => default Float64.nan (o ≫= (ts !!.)))
              (map (fun t => index_from 0 t ds) (map month_start (month_bins ds)))).
  exists (ffill_from Float64.nan G). split; [exact Htarget |].
  assert (HG : length G = length (month_bins ds))
    by (unfold G; rewrite !length_map; reflexivity).
  split; [rewrite ffill_from_length; exact HG |].
  assert (Gi : forall i q, month_bins ds !! i = Some q ->
                 G !! i = Some (default Float64.nan
                                  (index_from 0 (month_start q) ds ≫= (ts !!.)))).
  { intros i q Hq. unfold G. rewrite !list_lookup_fmap, Hq. reflexivity. }
  intros i p j q t Hp Hj Ht Hn Hqp Hgap.
  destruct (month_bins_lookup ds i p Hp) as [lo Hlo].
  assert (Hq : q ∈ month_bins ds).
  { rewrite <- (month_of_month_start q).
    apply (proj2 (proj2 (month_bins_spec ds))), list_elem_of_lookup. eauto. }
  apply list_elem_of_lookup in Hq as [iq Hiq].
  pose proof (proj1 (Hlo _ _) Hp) as [Hp1 Hp2].
  pose proof (proj1 (Hlo _ _) Hiq) as [Hq1 Hq2].
  apply (ffill_from_carried G Float64.nan i iq t); try lia.
  - rewrite (Gi _ _ Hiq), (index_from_NoDup ds _ j Hdup Hj). cbn. rewrite Ht. reflexivity.
  - exact Hn.
  - intros i' x' Hi' Hx'.
    assert (Hq' : month_bins ds !! i' = Some (lo + Z.of_nat i')%Z)
      by (apply Hlo; split; [reflexivity | lia]).
    rewrite (Gi _ _ Hq') in Hx'. injection Hx' as <-.
    destruct (index_from 0 (month_start (lo + Z.of_nat i')) ds) as [j'|] eqn:E;
      [| reflexivity].
    apply index_from_Some in E as (j0 & -> & Hj0). cbn.
    destruct (ts !! j0) as [t'|] eqn:Et; [| reflexivity]. cbn.
    apply (Hgap j0 (lo + Z.of_nat i')%Z t' Hj0 Et). lia.
Qed.

Lemma resample_annualy_to_monthly_target_carried_witness :
  exists filled,
    getitem Examples.annual_monthly "inflation_target" = Ok (FloatCol filled)
    /\ length filled
       = length (month_bins [Examples.day 2020 1 1; Examples.day 2021 1 1])
    /\ forall (i : nat) (p : Z) (j : nat) (q : Z) (t : float),
         month_bins [Examples.day 2020 1 1; Examples.day 2021 1 1] !! i = Some p ->
         [Examples.day 2020 1 1; Examples.day 2021 1 1] !! j = Some (month_start q) ->
         [Examples.dec 400 2; Examples.dec 375 2] !! j = Some t ->
         Float64.notna t = true -> (q <= p)%Z ->
         (forall (j' : nat) (q' : Z) (t' : float),
            [Examples.day 2020 1 1; Examples.day 2021 1 1] !! j'
            = Some (month_start q') ->
            [Examples.dec 400 2; Examples.dec 375 2] !! j' = Some t' ->
            (q < q' <= p)%Z -> Float64.isna t' = true) ->
         filled !! i = Some t.
Proof.
  apply (resample_annualy_to_monthly_target_carried
           [Examples.day 2020 1 1; Examples.day 2021 1 1] "Meta" "Intervalo"
           [Examples.dec 400 2; Examples.dec 375 2]
           (FloatCol [Examples.dec 150 2; Examples.dec 150 2]) []
           Examples.annual_monthly).
  - discriminate.
  - intros n Hn. inversion Hn.
  - vm_compute. reflexivity.
Defined.

(** X5: on a frame with distinct column names, two rows of one date make
    the two stages that reindex on month starts,
    [interpolate_quartely_data] and [resample_annualy_to_monthly], raise
    [ValueError]; [resample_daily_to_monthly], which aggregates by month,
    returns a frame on the same input. *)
Theorem resampling_duplicate_dates
  (interpolate_linear : list float -> list float)
  (df : DataFrame) (column : string) (c : pd.column) (ds : list Z)
  (i j : nat) (d : Z) (n1 n2 : string) (c1 c2 : pd.column)
  (rest : list (string * pd.column)) :
  Date df = Datetime64 ds ->
  ds !! i = Some d -> ds !! j = Some d -> i <> j ->
  columns df = (n1, c1) :: (n2, c2) :: rest ->
  NoDup (names df) ->
  "selic_target"%string ∉ n2 :: map fst rest ->
  getitem df column = Ok c ->
  processing.interpolate_quartely_data interpolate_linear df column
  = Raise (ValueError "cannot reindex on an axis with duplicate labels")
  /\ processing.resample_annualy_to_monthly df
     = Raise (ValueError "cannot reindex on an axis with duplicate labels")
  /\ exists out, processing.resample_daily_to_monthly df column = Ok out.
Proof.
  intros HD Hi Hj Hne Hcols _ _ Hc.
  pose proof (has_duplicates_true ds i j d Hi Hj Hne) as Hdup.
  split; [| split].
  - unfold processing.interpolate_quartely_data.
    rewrite HD, Hc. cbn [to_datetime mbind result_bind Py.bind].
    unfold resample_MS_asfreq. rewrite Hdup. reflexivity.
  - destruct df as [D cols]. cbn in HD, Hcols. subst D cols.
    apply resample_annualy_to_monthly_duplicates, Hdup.
  - apply (resample_daily_to_monthly_returns df column ds HD).
    rewrite Hcols. discriminate.
Qed.

Lemma resampling_duplicate_dates_witness :
  processing.interpolate_quartely_data (fun xs => xs) Examples.repeated_targets "Meta"
  = Raise (ValueError "cannot reindex on an axis with duplicate labels")
  /\ processing.resample_annualy_to_monthly Examples.repeated_targets
     = Raise (ValueError "cannot reindex on an axis with duplicate labels")
  /\ exists out,
       processing.resample_daily_to_monthly Examples.repeated_targets "Meta" = Ok out.
Proof.
  apply (resampling_duplicate_dates (fun xs => xs) Examples.repeated_targets "Meta"
           (FloatCol [Examples.dec 400 2; Examples.dec 375 2])
           [Examples.day 2020 1 1; Examples.day 2020 1 1] 0 1 (Examples.day 2020 1 1)
           "Meta" "Intervalo"
           (FloatCol [Examples.dec 400 2; Examples.dec 375 2])
           (FloatCol [Examples.dec 150 2; Examples.dec 150 2]) []).
  - reflexivity.
  - reflexivity.
  - reflexivity.
  - discriminate.
  - reflexivity.
  - apply (bool_decide_unpack _). vm_compute. exact I.
  - intros H. apply elem_of_cons in H as [H | H]; [discriminate H | inversion H].
  - reflexivity.
Defined.


(** ** The left join by month *)

(** With unique keys on the right, every row of the left frame is paired
    with at most one row of the right frame. *)
Lemma join_plan_from_NoDup (i : nat) (lkeys rkeys : list Z) :
  NoDup rkeys ->
  join_plan_from i lkeys rkeys
  = zip (seq i (length lkeys)) (map (fun k => index_from 0 k rkeys) lkeys).
Proof.
  intros Hnd. revert i. induction lkeys as [|k lkeys IH]; intros i; cbn;
    [reflexivity |].
  rewrite IH. f_equal.
  destruct (index_from 0 k rkeys) as [j|] eqn:E.
  - apply index_from_Some in E as (j' & -> & Hj').
    rewrite (matches_from_unique 0 j' k rkeys Hnd Hj'). reflexivity.
  - apply index_from_None in E. rewrite matches_from_none by exact E. reflexivity.
Qed.

Lemma join_plan_NoDup (lkeys rkeys : list Z) :
  NoDup rkeys ->
  map fst (join_plan lkeys rkeys) = seq 0 (length lkeys)
  /\ map snd (join_plan lkeys rkeys) = map (fun k => index_from 0 k rkeys) lkeys.
Proof.
  intros Hnd. unfold join_plan. rewrite join_plan_from_NoDup by exact Hnd.
  split.
  - apply fst_zip. rewrite length_map, length_seq. reflexivity.
  - apply snd_zip. rewrite length_map, length_seq. reflexivity.
Qed.

Lemma same_kind_keys_inv (l r : index_col) (lkeys rkeys : list Z) :
  same_kind_keys l r = Ok (lkeys, rkeys) ->
  lkeys = index_values l /\ rkeys = index_values r
  /\ ((exists a b, l = Datetime64 a /\ r = Datetime64 b)
      \/ (exists a b, l = PeriodM a /\ r = PeriodM b)).
Proof.
  destruct l as [a|a], r as [b|b]; cbn; try discriminate;
    intros [= <- <-]; repeat split; eauto.
Qed.

Lemma lookup_col_app (n : string) (a b : list (string * column)) :
  lookup_col n (a ++ b)
  = match lookup_col n a with Some c => Some c | None => lookup_col n b end.
Proof.
  induction a as [|[n0 c0] a IH]; cbn; [reflexivity |].
  destruct (String.eqb n0 n); [reflexivity | exact IH].
Qed.

Lemma lookup_col_Some (n : string) (c : column) (cols : list (string * column)) :
  lookup_col n cols = Some c -> (n, c) ∈ cols.
Proof.
  induction cols as [|[n0 c0] cols IH]; cbn; [discriminate |].
  destruct (String.eqb_spec n0 n) as [-> | Hne].
  - intros [= ->]. left.
  - intros H. right. apply IH, H.
Qed.

Lemma lookup_col_None (n : string) (cols : list (string * column)) :
  lookup_col n cols = None <-> n ∉ map fst cols.
Proof.
  induction cols as [|[n0 c0] cols IH]; cbn.
  - split; [intros _ H; inversion H | reflexivity].
  - destruct (String.eqb_spec n0 n) as [-> | Hne].
    + split; [discriminate | intros H; exfalso; apply H; left].
    + rewrite IH, not_elem_of_cons. split; [intros H; split; congruence | tauto].
Qed.

Lemma add_suffix_nil (suffix n : string) : add_suffix [] suffix n = n.
Proof. reflexivity. Qed.

Lemma new_duplicates_refl (l : list string) : new_duplicates l l = false.
Proof. unfold new_duplicates. apply new_duplicates_same. Qed.

Lemma filter_inb_disjoint (l l' : list string) :
  (forall n, n ∈ l -> n ∉ l') -> List.filter (fun n => inb n l') l = [].
Proof.
  intros H. induction l as [|x l IH]; cbn; [reflexivity |].
  destruct (inb x l') eqn:E.
  - apply inb_true_iff in E. exfalso. apply (H x); [left | exact E].
  - apply IH. intros n Hn. apply H. right. exact Hn.
Qed.

(** The left join on frames with no column name in common and unique keys
    on the right, written out. *)
Lemma merge_disjoint (left_df right_df : DataFrame) (lkeys rkeys : list Z) :
  same_kind_keys (Date left_df) (Date right_df) = Ok (lkeys, rkeys) ->
  NoDup rkeys ->
  (forall n, n ∈ names left_df -> n ∉ names right_df) ->
  merge left_df right_df
  = Ok {| Date := Date left_df;
          columns :=
            map (fun '(n, c) => (n, gather c (map Some (seq 0 (length lkeys)))))
                (columns left_df)
            ++ map (fun '(n, c) =>
                      (n, gather c (map (fun k => index_from 0 k rkeys) lkeys)))
                   (columns right_df) |}.
Proof.
  intros Hk Hnd Hdis. unfold merge. rewrite Hk. cbn [mbind result_bind Py.bind].
  rewrite filter_inb_disjoint by exact Hdis.
  assert (Hid : forall s l, map (add_suffix [] s) l = l)
    by (intros s l; rewrite <- (map_id l) at 2; apply map_ext; reflexivity).
  rewrite !Hid, !new_duplicates_refl. cbn [orb mret result_ret].
  destruct (join_plan_NoDup lkeys rkeys Hnd) as [H1 H2].
  rewrite H2, H1. rewrite <- (map_map fst Some), H1.
  apply same_kind_keys_inv in Hk as (-> & -> & _).
  rewrite gather_index_all. reflexivity.
Qed.

Lemma merge_Date (left_df right_df out : DataFrame) :
  merge left_df right_df = Ok out ->
  NoDup (index_values (Date right_df)) ->
  Date out = Date left_df.
Proof.
  unfold merge. intros H Hnd.
  apply bind_Ok_inv in H as ([lkeys rkeys] & Hk & H).
  apply same_kind_keys_inv in Hk as (-> & -> & _).
  destruct (orb _ _); [discriminate H |].
  injection H as <-. cbn [Date].
  rewrite (proj1 (join_plan_NoDup _ _ Hnd)). apply gather_index_all.
Qed.

Lemma reduce_merge_Date (others : list DataFrame) (first out : DataFrame) :
  processing.reduce_merge first others = Ok out ->
  Forall (fun d => NoDup (index_values (Date d))) others ->
  Date out = Date first.
Proof.
  revert first. induction others as [|d others IH]; intros first H Hnd; cbn in H.
  - injection H as <-. reflexivity.
  - apply bind_Ok_inv in H as (m & Hm & H).
    apply Forall_cons in Hnd as [Hd Hnd].
    rewrite (IH _ H Hnd). apply (merge_Date _ _ _ Hm Hd).
Qed.

Lemma traverse_Ok {A B : Type} (f : A -> result B) (l : list A) (bs : list B) :
  traverse f l = Ok bs -> Forall2 (fun a b => f a = Ok b) l bs.
Proof.
  revert bs. induction l as [|a l IH]; intros bs; cbn.
  - intros [= <-]. constructor.
  - destruct (f a) as [b|e] eqn:E; [| discriminate].
    destruct (traverse f l) as [bs'|e]; [| discriminate].
    intros [= <-]. constructor; [exact E | apply IH; reflexivity].
Qed.

Lemma merge_datasets_first_rows
  (h h' : heap) (r : ref) (rest : list ref) (merged : ref) :
  processing.merge_datasets h (r :: rest) = Ok (h', merged) ->
  (forall i df, i ∈ rest -> h !! i = Some df -> NoDup (months_of df)) ->
  exists first ds out,
    h !! r = Some first /\ Date first = Datetime64 ds
    /\ h' !! merged = Some out
    /\ Date out = PeriodM (map month_of_day ds)
    /\ len out = len first.
Proof.
  intros H Hnd. unfold processing.merge_datasets in H.
  apply bind_Ok_inv in H as (h1 & Hloop & H).
  destruct (to_period_loop_spec _ _ _ Hloop) as (Hlen & _ & Hin & _).
  destruct (Hin r) as (first & ds & Hr & HD & Hr1); [left |].
  exists first, ds.
  assert (Hlenout : forall out, Date out = PeriodM (map month_of_day ds) ->
                                len out = len first).
  { intros out Ho. unfold len. rewrite Ho, HD. cbn. apply length_map. }
  destruct rest as [|r' rest].
  - apply bind_Ok_inv in H as (df & Hl & H). injection H as <- <-.
    eexists. split; [exact Hr |]. split; [exact HD |]. split; [exact Hr1 |].
    split; [reflexivity | apply Hlenout; reflexivity].
  - apply bind_Ok_inv in H as (first' & Hl & H). apply load_Ok in Hl.
    assert (first' = {| Date := PeriodM (map month_of_day ds);
                        columns := columns first |}) by congruence.
    subst first'.
    apply bind_Ok_inv in H as (others & Hothers & H).
    apply bind_Ok_inv in H as (df_merged & Hm & H).
    unfold alloc in H. injection H as <- <-.
    exists df_merged. split; [exact Hr |]. split; [exact HD |].
    split; [apply list_lookup_middle; reflexivity |].
    assert (HDm : Date df_merged = PeriodM (map month_of_day ds)).
    { rewrite (reduce_merge_Date _ _ _ Hm); [reflexivity |].
      apply traverse_Ok in Hothers.
      apply Forall_forall. intros d Hd.
      apply list_elem_of_lookup in Hd as [k Hk].
      destruct (Forall2_lookup_r _ _ _ _ _ Hothers Hk) as (i & Hi & Hload).
      apply load_Ok in Hload.
      assert (Hi' : i ∈ r' :: rest) by (apply list_elem_of_lookup; eauto).
      destruct (Hin i) as (df & ds' & Hdf & HD' & Hdf1); [right; exact Hi' |].
      assert (d = {| Date := PeriodM (map month_of_day ds'); columns := columns df |})
        by congruence.
      subst d. cbn. specialize (Hnd i df Hi' Hdf).
      unfold months_of in Hnd. rewrite HD' in Hnd. exact Hnd. }
    split; [exact HDm | apply Hlenout, HDm].
Qed.

(** X6: the merged panel has the rows of the first dataset.  When every
    other dataset holds each month at most once, the frame
    [merge_datasets] returns is keyed, row by row, by the months of the
    dates of the first dataset: no row is added, dropped or reordered
    whatever the other datasets contain. *)
Theorem merge_datasets_rows_of_first
  (h h' : heap) (r : ref) (rest : list ref) (merged : ref) :
  processing.merge_datasets h (r :: rest) = Ok (h', merged) ->
  (forall i df, i ∈ rest -> h !! i = Some df -> NoDup (months_of df)) ->
  exists first ds out,
    h !! r = Some first /\ Date first = Datetime64 ds
    /\ h' !! merged = Some out
    /\ Date out = PeriodM (map month_of_day ds)
    /\ len out = len first.
Proof.
  intros H Hnd. exact (merge_datasets_first_rows h h' r rest merged H Hnd).
Qed.

Lemma merge_datasets_rows_of_first_witness :
  exists h' merged first ds out,
    processing.merge_datasets Examples.two_series [0; 1] = Ok (h', merged)
    /\ Examples.two_series !! 0 = Some first /\ Date first = Datetime64 ds
    /\ h' !! merged = Some out
    /\ Date out = PeriodM (map month_of_day ds)
    /\ len out = len first.
Proof.
  destruct (processing.merge_datasets Examples.two_series [0; 1])
    as [[h' merged]|] eqn:E; [| vm_compute in E; discriminate E].
  destruct (merge_datasets_rows_of_first Examples.two_series h' 0 [1] merged E)
    as (first & ds & out & H).
  - intros i df Hi Hdf. apply list_elem_of_singleton in Hi. subst i.
    injection Hdf as <-. apply (bool_decide_unpack _). vm_compute. exact I.
  - exists h', merged, first, ds, out. split; [reflexivity | exact H].
Defined.

Lemma getitem_Ok (df : DataFrame) (n : string) (c : column) :
  getitem df n = Ok c <-> lookup_col n (columns df) = Some c.
Proof.
  unfold getitem. destruct (lookup_col n (columns df)); cbn;
    split; congruence.
Qed.

(** X7: [merge_datasets] on two datasets is a left join by calendar month.
    When the second dataset holds each month at most once and shares no
    column name with the first (whose columns have one entry per row), the
    merged frame keeps every column of the first dataset as it is, and a
    float column of the second dataset receives, in the row of a date [d] of
    the first dataset, the value the second dataset holds for the month of
    [d], or NaN when it has no row in that month. *)
Theorem merge_datasets_left_join
  (h h' : heap) (r1 r2 merged : ref) (a b : DataFrame) (da db : list Z) :
  processing.merge_datasets h [r1; r2] = Ok (h', merged) ->
  h !! r1 = Some a -> h !! r2 = Some b ->
  Date a = Datetime64 da -> Date b = Datetime64 db ->
  NoDup (map month_of_day db) ->
  well_formed a ->
  (forall n, n ∈ names a -> n ∉ names b) ->
  exists out,
    h' !! merged = Some out
    /\ Date out = PeriodM (map month_of_day da)
    /\ (forall n, n ∈ names a -> getitem out n = getitem a n)
    /\ (forall n xs, getitem b n = Ok (FloatCol xs) ->
          exists ys,
            getitem out n = Ok (FloatCol ys)
            /\ length ys = length da
            /\ forall i d, da !! i = Some d ->
                 (forall j d' x, db !! j = Some d' ->
                                 month_of_day d' = month_of_day d ->
                                 xs !! j = Some x -> ys !! i = Some x)
                 /\ ((forall d', d' ∈ db -> month_of_day d' <> month_of_day d) ->
                     ys !! i = Some Float64.nan)).
Proof.
  intros H Ha Hb HDa HDb Hnd Hwf Hdis. unfold processing.merge_datasets in H.
  apply bind_Ok_inv in H as (h1 & Hloop & H).
  destruct (to_period_loop_spec _ _ _ Hloop) as (_ & _ & Hin & _).
  destruct (Hin r1) as (a0 & da0 & Ha0 & HDa0 & Ha1); [left |].
  destruct (Hin r2) as (b0 & db0 & Hb0 & HDb0 & Hb1); [right; left |].
  assert (a0 = a) by congruence. assert (b0 = b) by congruence. subst a0 b0.
  assert (da0 = da) by congruence. assert (db0 = db) by congruence. subst da0 db0.
  apply bind_Ok_inv in H as (a' & Hl & H). apply load_Ok in Hl.
  assert (a' = {| Date := PeriodM (map month_of_day da); columns := columns a |})
    by congruence.
  subst a'. cbn [traverse] in H. unfold load in H at 1. rewrite Hb1 in H.
  cbn [of_option mbind result_bind Py.bind processing.reduce_merge] in H.
  set (lkeys := map month_of_day da) in *. set (rkeys := map month_of_day db) in *.
  rewrite (merge_disjoint _ _ lkeys rkeys) in H; [| reflexivity | exact Hnd | exact Hdis].
  cbn [mbind result_bind Py.bind mret result_ret Date columns] in H.
  unfold alloc in H. injection H as <- <-.
  eexists. split; [apply list_lookup_middle; reflexivity |].
  split; [reflexivity |]. split.
  - intros n Hn. unfold getitem. cbn [columns]. f_equal.
    rewrite lookup_col_app, lookup_col_map_values.
    destruct (lookup_col n (columns a)) as [c|] eqn:E.
    + cbn. f_equal. apply gather_all.
      apply lookup_col_Some in E.
      pose proof (proj1 (Forall_forall _ _) Hwf (n, c) E) as Hc. cbn in Hc.
      rewrite Hc. unfold len, lkeys. rewrite HDa. cbn. rewrite length_map. reflexivity.
    + apply lookup_col_None in E. contradiction.
  - intros n xs Hn. apply getitem_Ok in Hn.
    assert (Hna : lookup_col n (columns a) = None).
    { apply lookup_col_None. intros Hin'. apply (Hdis n Hin').
      apply lookup_col_Some in Hn. apply list_elem_of_fmap. exists (n, FloatCol xs).
      split; [reflexivity | exact Hn]. }
    eexists. split; [| split].
    + unfold getitem. cbn [columns].
      rewrite lookup_col_app, !lookup_col_map_values, Hna, Hn. reflexivity.
    + unfold lkeys. rewrite !length_map. reflexivity.
    + intros i d Hd.
      assert (Hi : lkeys !! i = Some (month_of_day d))
        by (unfold lkeys; rewrite list_lookup_fmap, Hd; reflexivity).
      rewrite !list_lookup_fmap, Hi. cbn [fmap option_fmap option_map]. split.
      * intros j d' x Hd' Hm Hx.
        assert (Hj : rkeys !! j = Some (month_of_day d))
          by (unfold rkeys; rewrite list_lookup_fmap, Hd';
              cbn [fmap option_fmap option_map]; rewrite Hm; reflexivity).
        rewrite (index_from_NoDup rkeys _ j Hnd Hj). cbn. rewrite Hx. reflexivity.
      * intros Hnone.
        destruct (index_from 0 (month_of_day d) rkeys) as [j|] eqn:E; [| reflexivity].
        exfalso. apply index_from_Some in E as (j' & _ & Hj').
        unfold rkeys in Hj'. rewrite list_lookup_fmap in Hj'.
        destruct (db !! j') as [d'|] eqn:Ed; [| discriminate Hj'].
        cbn [fmap option_fmap option_map] in Hj'. injection Hj' as Hj'.
        apply (Hnone d'); [apply list_elem_of_lookup; eauto | exact Hj'].
Qed.

Lemma merge_datasets_left_join_witness :
  exists h' merged out,
    processing.merge_datasets Examples.two_series [0; 1] = Ok (h', merged)
    /\ h' !! merged = Some out
    /\ Date out = PeriodM (map month_of_day (index_values (Date Examples.focus_series)))
    /\ (forall n, n ∈ names Examples.focus_series ->
          getitem out n = getitem Examples.focus_series n)
    /\ (forall n xs, getitem Examples.selic_series n = Ok (FloatCol xs) ->
          exists ys,
            getitem out n = Ok (FloatCol ys)
            /\ length ys = length (index_values (Date Examples.focus_series))
            /\ forall i d,
                 index_values (Date Examples.focus_series) !! i = Some d ->
                 (forall j d' x,
                    index_values (Date Examples.selic_series) !! j = Some d' ->
                    month_of_day d' = month_of_day d ->
                    xs !! j = Some x -> ys !! i = Some x)
                 /\ ((forall d', d' ∈ index_values (Date Examples.selic_series) ->
                                 month_of_day d' <> month_of_day d) ->
                     ys !! i = Some Float64.nan)).
Proof.
  destruct (processing.merge_datasets Examples.two_series [0; 1])
    as [[h' merged]|] eqn:E; [| vm_compute in E; discriminate E].
  destruct (merge_datasets_left_join Examples.two_series h' 0 1 merged
              Examples.focus_series Examples.selic_series
              (index_values (Date Examples.focus_series))
              (index_values (Date Examples.selic_series)) E)
    as (out & H); try reflexivity.
  - apply (bool_decide_unpack _). vm_compute. exact I.
  - repeat constructor.
  - intros n Hn. apply list_elem_of_singleton in Hn. subst n.
    intros Hn. apply list_elem_of_singleton in Hn. discriminate Hn.
  - exists h', merged, out. split; [reflexivity | exact H].
Defined.

(** X8: [merge_datasets] cannot be run twice on the same frames.  After a
    call that succeeded, the inputs hold months instead of timestamps, and a
    second call on the same list raises [AttributeError] at the first
    frame. *)
Theorem merge_datasets_second_call_raises
  (h h' : heap) (dfs : list ref) (merged : ref) :
  processing.merge_datasets h dfs = Ok (h', merged) ->
  processing.merge_datasets h' dfs
  = Raise (AttributeError "'PeriodProperties' object has no attribute 'to_period'").
Proof.
  intros H.
  destruct (merge_datasets_heap _ _ _ _ H) as (h1 & Hloop & Hlen & Hsame).
  destruct (to_period_loop_spec _ _ _ Hloop) as (_ & _ & Hin & _).
  destruct dfs as [|r dfs]; [discriminate H |].
  destruct (Hin r) as (df & ds & Hr & HD & Hr1); [left |].
  unfold processing.merge_datasets. cbn [processing.to_period_loop].
  unfold load. rewrite Hsame by (eapply lookup_lt_Some; exact Hr).
  rewrite Hr1. reflexivity.
Qed.

Lemma merge_datasets_second_call_raises_witness :
  exists h' merged,
    processing.merge_datasets Examples.two_series [0; 1] = Ok (h', merged)
    /\ processing.merge_datasets h' [0; 1]
       = Raise (AttributeError "'PeriodProperties' object has no attribute 'to_period'").
Proof.
  destruct (processing.merge_datasets Examples.two_series [0; 1])
    as [[h' merged]|] eqn:E; [| vm_compute in E; discriminate E].
  exists h', merged. split; [reflexivity |].
  apply (merge_datasets_second_call_raises Examples.two_series h' [0; 1] merged E).
Defined.

(** X9: the frames handed to [merge_datasets] must be distinct objects: a
    list that names one frame at two positions makes the call raise, since
    the second conversion of its [Date] column finds months. *)
Theorem merge_datasets_repeated_frame_raises
  (h : heap) (dfs : list ref) (i j : nat) (r : ref) :
  dfs !! i = Some r -> dfs !! j = Some r -> i <> j ->
  raises (processing.merge_datasets h dfs).
Proof.
  intros Hi Hj Hne.
  destruct (processing.merge_datasets h dfs) as [[h' merged]|e] eqn:E;
    [| exists e; reflexivity].
  exfalso. destruct (merge_datasets_heap _ _ _ _ E) as (h1 & Hloop & _).
  destruct (to_period_loop_spec _ _ _ Hloop) as (_ & Hnd & _).
  apply Hne. eapply NoDup_lookup; eauto.
Qed.

Lemma merge_datasets_repeated_frame_raises_witness :
  raises (processing.merge_datasets [Examples.panel_a] [0; 0]).
Proof.
  apply (merge_datasets_repeated_frame_raises [Examples.panel_a] [0; 0] 0 1 0).
  - reflexivity.
  - reflexivity.
  - discriminate.
Defined.


(** ** Inputs and outputs of the deviation stage *)

Lemma getitem_Raise (df : DataFrame) (n : string) (e : exn) :
  getitem df n = Raise e -> e = KeyError n.
Proof.
  unfold getitem. destruct (lookup_col n (columns df)); cbn; congruence.
Qed.

(** X10: [calculate_deviation_from_target] needs the columns
    [inflation_target], [bcb_expected_inflation] and
    [focus_expected_inflation]: when one of them is absent from a frame
    with distinct column names it raises [KeyError] naming the first absent
    one in that order, whatever else the frame holds. *)
Theorem calculate_deviation_from_target_missing_column
  (df_final : DataFrame) (name : string) :
  NoDup (names df_final) ->
  name ∈ ["inflation_target"; "bcb_expected_inflation";
          "focus_expected_inflation"]%string ->
  getitem df_final name = Raise (KeyError name) ->
  exists missing before after,
    ["inflation_target"; "bcb_expected_inflation";
     "focus_expected_inflation"]%string = before ++ missing :: after
    /\ processing.calculate_deviation_from_target df_final = Raise (KeyError missing)
    /\ getitem df_final missing = Raise (KeyError missing)
    /\ forall n, n ∈ before -> exists c, getitem df_final n = Ok c.
Proof.
  intros _ Hname Hmiss. unfold processing.calculate_deviation_from_target.
  getitem_through_setitem.
  destruct (getitem df_final "inflation_target") as [target|e] eqn:E1.
  2: { pose proof (getitem_Raise _ _ _ E1) as ->. exists "inflation_target"%string, [],
         ["bcb_expected_inflation"; "focus_expected_inflation"]%string.
       repeat split; [exact E1 | intros n Hn; inversion Hn]. }
  cbn [mbind result_bind Py.bind]. getitem_through_setitem.
  destruct (getitem df_final "bcb_expected_inflation") as [bcb|e] eqn:E2.
  2: { pose proof (getitem_Raise _ _ _ E2) as ->.
       exists "bcb_expected_inflation"%string, ["inflation_target"%string],
         ["focus_expected_inflation"%string].
       repeat split; [exact E2 |].
       intros n Hn. apply list_elem_of_singleton in Hn. subst n. eauto. }
  cbn [mbind result_bind Py.bind]. getitem_through_setitem. rewrite E1.
  cbn [mbind result_bind Py.bind]. getitem_through_setitem.
  cbn [mbind result_bind Py.bind]. getitem_through_setitem.
  destruct (getitem df_final "focus_expected_inflation") as [focus|e] eqn:E3.
  2: { pose proof (getitem_Raise _ _ _ E3) as ->.
       exists "focus_expected_inflation"%string,
         ["inflation_target"; "bcb_expected_inflation"]%string, [].
       repeat split; [exact E3 |].
       intros n Hn. apply elem_of_cons in Hn as [-> | Hn]; [eauto |].
       apply list_elem_of_singleton in Hn. subst n. eauto. }
  exfalso. repeat (apply elem_of_cons in Hname as [-> | Hname]; [congruence |]).
  inversion Hname.
Qed.

Lemma calculate_deviation_from_target_missing_column_witness :
  exists missing before after,
    ["inflation_target"; "bcb_expected_inflation";
     "focus_expected_inflation"]%string = before ++ missing :: after
    /\ processing.calculate_deviation_from_target Examples.small_panel
       = Raise (KeyError missing)
    /\ getitem Examples.small_panel missing = Raise (KeyError missing)
    /\ forall n, n ∈ before -> exists c, getitem Examples.small_panel n = Ok c.
Proof.
  apply (calculate_deviation_from_target_missing_column Examples.small_panel
           "focus_expected_inflation").
  - apply (bool_decide_unpack _). vm_compute. exact I.
  - repeat constructor.
  - reflexivity.
Defined.

(** X11: [calculate_deviation_from_target] only adds columns.  The frame it
    returns has the [Date] column and the row count of its argument, and
    every column other than the five it computes ([ano], [mes],
    [inflation_target_next] and the two deviations) is the argument's. *)
Theorem calculate_deviation_from_target_keeps_columns
  (df_final out : DataFrame) (n : string) :
  processing.calculate_deviation_from_target df_final = Ok out ->
  n ∉ ["ano"; "mes"; "inflation_target_next"; "bcb_inflation_deviation";
       "focus_inflation_deviation"]%string ->
  Date out = Date df_final
  /\ len out = len df_final
  /\ getitem out n = getitem df_final n.
Proof.
  intros H Hn. unfold processing.calculate_deviation_from_target in H.
  apply bind_Ok_inv in H as (t1 & _ & H).
  apply bind_Ok_inv in H as (b & _ & H).
  apply bind_Ok_inv in H as (t2 & _ & H).
  apply bind_Ok_inv in H as (tn & _ & H).
  apply bind_Ok_inv in H as (f & _ & H).
  apply bind_Ok_inv in H as (t3 & _ & H).
  apply bind_Ok_inv in H as (tn' & _ & H).
  injection H as <-.
  split; [reflexivity |]. split; [reflexivity |].
  repeat (apply not_elem_of_cons in Hn as [? Hn]).
  rewrite !getitem_setitem_ne by assumption. reflexivity.
Qed.

Lemma calculate_deviation_from_target_keeps_columns_witness :
  exists out,
    processing.calculate_deviation_from_target Examples.june_panel = Ok out
    /\ Date out = Date Examples.june_panel
    /\ len out = len Examples.june_panel
    /\ getitem out "inflation_target" = getitem Examples.june_panel "inflation_target".
Proof.
  destruct (processing.calculate_deviation_from_target Examples.june_panel)
    as [out|] eqn:E; [| vm_compute in E; discriminate E].
  exists out. split; [reflexivity |].
  apply (calculate_deviation_from_target_keeps_columns Examples.june_panel out
           "inflation_target" E).
  intros Hn. repeat (apply elem_of_cons in Hn as [Hn | Hn]; [discriminate Hn |]).
  inversion Hn.
Defined.


(** ** The lagged sample *)

(** [_apply_lag], step by step: the three shifted columns, the mask of the
    complete rows and the frame that is kept. *)
Lemma apply_lag_inv (self s' : estimation.TaylorRuleEstimator) :
  estimation._apply_lag self = Ok s' ->
  exists c1 c2 c3 c4,
    getitem (estimation.data self) "output_gap" = Ok c1
    /\ getitem (estimation.data self) "exchange_rate_var" = Ok c2
    /\ getitem (estimation.data self) "selic_target" = Ok c3
    /\ getitem (estimation.data self) "inf_dev" = Ok c4
    /\ let l := estimation.lag self in
       let d := setitem (setitem (setitem (estimation.data self)
                                    "output_gap_lag" (shift l c1))
                           "exchange_rate_var_lag" (shift l c2))
                  "selic_target_lag" (shift l c3) in
       let m := all_true [notna (shift l c1); notna (shift l c2);
                          notna (shift l c3); notna c4]
                         (len (estimation.data self)) in
       s' = estimation.with_data self (boolean_index d m).
Proof.
  unfold estimation._apply_lag. intros H.
  apply bind_Ok_inv in H as (c1 & H1 & H).
  apply bind_Ok_inv in H as (c2 & H2 & H).
  apply bind_Ok_inv in H as (c3 & H3 & H).
  apply bind_Ok_inv in H as (d & Hd & H). injection H as <-.
  revert H2 H3 Hd. getitem_through_setitem. intros H2 H3 Hd.
  unfold dropna in Hd. apply bind_Ok_inv in Hd as (m & Hm & Hd).
  injection Hd as <-.
  unfold complete_rows in Hm. apply bind_Ok_inv in Hm as (cols & Hcols & Hm).
  injection Hm as <-.
  cbn [traverse] in Hcols. revert Hcols. getitem_through_setitem.
  destruct (getitem (estimation.data self) "inf_dev") as [c4|] eqn:H4;
    [| discriminate].
  intros [= <-]. exists c1, c2, c3, c4.
  repeat split; assumption.
Qed.

Lemma all_true_lookup (ms : list (list bool)) (n i : nat) :
  all_true ms n !! i = Some true -> forall m, m ∈ ms -> m !! i = Some true.
Proof.
  induction ms as [|a ms IH]; cbn; intros H m Hm; [inversion Hm |].
  apply lookup_zip_with_Some in H as (x & y & Hxy & Hx & Hy).
  symmetry in Hxy. apply andb_true_iff in Hxy as [-> ->].
  apply elem_of_cons in Hm as [-> | Hm]; [exact Hx | apply IH; assumption].
Qed.

Lemma mask_filter_Forall_true (m l : list bool) :
  (forall i, m !! i = Some true -> l !! i = Some true) ->
  Forall (fun b => b = true) (mask_filter m l).
Proof.
  revert l. induction m as [|b m IH]; intros [|x l] H; cbn; try constructor.
  destruct b.
  - constructor; [specialize (H 0 eq_refl); cbn in H; congruence |].
    apply IH. intros i Hi. apply (H (S i)). exact Hi.
  - apply IH. intros i Hi. apply (H (S i)). exact Hi.
Qed.

Lemma mask_filter_length_le {A : Type} (m : list bool) (l : list A) :
  length (mask_filter m l) <= length l.
Proof.
  revert l. induction m as [|b m IH]; intros [|x l]; cbn; try lia.
  specialize (IH l). destruct b; cbn; lia.
Qed.

(** Rows the mask rejects at the head of the frame are lost. *)
Lemma mask_filter_skip {A : Type} (m : list bool) (l : list A) (n : nat) :
  (forall i, i < n -> m !! i <> Some true) ->
  length (mask_filter m l) <= length l - n.
Proof.
  revert l n. induction m as [|b m IH]; intros [|x l] n H; cbn; try lia.
  destruct n as [|n].
  - pose proof (mask_filter_length_le (b :: m) (x :: l)) as Hle. cbn in Hle. lia.
  - destruct b; [exfalso; apply (H 0); [lia | reflexivity] |].
    cbn. apply IH. intros i Hi. apply (H (S i)). lia.
Qed.

Lemma shift_floats_head (n : Z) (xs : list float) (i : nat) (x : float) :
  (0 <= n)%Z -> i < Z.to_nat n -> shift_floats n xs !! i = Some x -> x = Float64.nan.
Proof.
  intros Hn Hi. unfold shift_floats.
  destruct (Z.leb_spec 0 n) as [_ | Hlt]; [| lia].
  intros H. apply lookup_take_Some in H as [H _].
  rewrite lookup_app_l in H by (rewrite length_replicate; exact Hi).
  apply lookup_replicate in H as [-> _]. reflexivity.
Qed.

(** The first [lag] cells of a shifted column are missing. *)
Lemma notna_shift_head (n : Z) (c : column) (i : nat) :
  (0 <= n)%Z -> i < Z.to_nat n -> notna (shift n c) !! i <> Some true.
Proof.
  intros Hn Hi. destruct c as [xs | ns]; cbn [shift notna].
  - rewrite list_lookup_fmap.
    destruct (shift_floats n xs !! i) as [x|] eqn:E; cbn; [| discriminate].
    rewrite (shift_floats_head n xs i x Hn Hi E). discriminate.
  - destruct (Z.eqb_spec n 0) as [-> | Hn0]; [cbn in Hi; lia |]. cbn [orb].
    destruct (Nat.eqb_spec (length ns) 0) as [H0 | H0].
    + destruct ns; [| discriminate H0]. cbn. discriminate.
    + cbn [notna]. rewrite list_lookup_fmap.
      destruct (shift_floats n _ !! i) as [x|] eqn:E; cbn; [| discriminate].
      rewrite (shift_floats_head n _ i x Hn Hi E). discriminate.
Qed.

(** X12: after [_apply_lag] the frame of the estimator has no missing
    value left in the three lagged columns and in [inf_dev]. *)
Theorem apply_lag_no_missing_values
  (self s' : estimation.TaylorRuleEstimator) (n : string) :
  estimation._apply_lag self = Ok s' ->
  n ∈ ["output_gap_lag"; "exchange_rate_var_lag"; "selic_target_lag";
       "inf_dev"]%string ->
  exists c, getitem (estimation.data s') n = Ok c
            /\ Forall (fun b => b = true) (notna c).
Proof.
  intros H Hn.
  destruct (apply_lag_inv _ _ H) as (c1 & c2 & c3 & c4 & H1 & H2 & H3 & H4 & Hs).
  cbv zeta in Hs. subst s'. cbn [estimation.with_data estimation.data].
  set (l := estimation.lag self) in *.
  set (ms := [notna (shift l c1); notna (shift l c2); notna (shift l c3); notna c4]).
  assert (Hkeep : forall c, notna c ∈ ms ->
            Forall (fun b => b = true)
                   (notna (mask_col (all_true ms (len (estimation.data self))) c))).
  { intros c Hc. rewrite notna_mask_col. apply mask_filter_Forall_true.
    intros i Hi. apply (all_true_lookup _ _ _ Hi), Hc. }
  rewrite getitem_boolean_index.
  repeat (apply elem_of_cons in Hn as [-> | Hn]);
    [| | | | inversion Hn]; getitem_through_setitem; rewrite ?H4;
    eexists; (split; [reflexivity | apply Hkeep; unfold ms]).
  - left.
  - right; left.
  - right; right; left.
  - right; right; right; left.
Qed.

Lemma apply_lag_no_missing_values_witness :
  exists s' c,
    (estimation._source_column Examples.market_estimator ≫= estimation._apply_lag)
    = Ok s'
    /\ getitem (estimation.data s') "exchange_rate_var_lag" = Ok c
    /\ Forall (fun b => b = true) (notna c).
Proof.
  destruct (estimation._source_column Examples.market_estimator) as [s1|] eqn:E1;
    [| vm_compute in E1; discriminate E1].
  destruct (estimation._apply_lag s1) as [s'|] eqn:E2;
    [| vm_compute in E1; injection E1 as <-; vm_compute in E2; discriminate E2].
  destruct (apply_lag_no_missing_values s1 s' "exchange_rate_var_lag" E2)
    as (c & Hc & Hna); [right; left |].
  exists s', c. split; [exact E2 |]. split; [exact Hc | exact Hna].
Defined.

(** X13: the first [lag] rows of the panel never enter the sample.  For a
    lag of [k >= 0] months the frame [_apply_lag] keeps has at most
    [len - k] rows (none when the panel has no more than [k] rows): the
    shifted columns are missing in the first [k] rows, and those rows are
    dropped. *)
Theorem apply_lag_drops_first_rows (self s' : estimation.TaylorRuleEstimator) :
  estimation._apply_lag self = Ok s' ->
  (0 <= estimation.lag self)%Z ->
  len (estimation.data s')
  <= len (estimation.data self) - Z.to_nat (estimation.lag self).
Proof.
  intros H Hlag.
  destruct (apply_lag_inv _ _ H) as (c1 & c2 & c3 & c4 & H1 & H2 & H3 & H4 & Hs).
  cbv zeta in Hs. subst s'. cbn [estimation.with_data estimation.data].
  rewrite len_boolean_index. cbn [setitem Date]. unfold len.
  apply mask_filter_skip. intros i Hi Htrue.
  apply (notna_shift_head (estimation.lag self) c1 i Hlag Hi).
  apply (all_true_lookup _ _ _ Htrue). left.
Qed.

Lemma apply_lag_drops_first_rows_witness :
  exists s',
    (estimation._source_column Examples.market_estimator ≫= estimation._apply_lag)
    = Ok s'
    /\ len (estimation.data s') <= 8 - 1.
Proof.
  destruct (estimation._source_column Examples.market_estimator) as [s1|] eqn:E1;
    [| vm_compute in E1; discriminate E1].
  destruct (estimation._apply_lag s1) as [s'|] eqn:E2;
    [| vm_compute in E1; injection E1 as <-; vm_compute in E2; discriminate E2].
  exists s'. split; [exact E2 |].
  pose proof (apply_lag_drops_first_rows s1 s' E2) as Hle.
  vm_compute in E1. injection E1 as <-.
  apply Hle. discriminate.
Defined.


(** ** The year window *)

Lemma estimate_naive_inv (self s2 : estimation.TaylorRuleEstimator)
  (ms : estimation.OLS * estimation.OLS * estimation.OLS) :
  estimation.estimate_naive self = Ok (s2, ms) ->
  exists s1, estimation._source_column self = Ok s1
             /\ estimation._apply_lag s1 = Ok s2
             /\ estimation.three_models (estimation.data s2) = Ok ms.
Proof.
  unfold estimation.estimate_naive. intros H.
  apply bind_Ok_inv in H as (s1 & H1 & H).
  apply bind_Ok_inv in H as (s2' & H2 & H).
  apply bind_Ok_inv in H as (ms' & H3 & H).
  injection H as <- <-. eauto.
Qed.

Lemma apply_lag_ano_mask (s1 s2 : estimation.TaylorRuleEstimator) (c : column) :
  estimation._apply_lag s1 = Ok s2 ->
  getitem (estimation.data s1) "ano" = Ok c ->
  exists m, getitem (estimation.data s2) "ano" = Ok (mask_col m c).
Proof.
  intros H Hano.
  destruct (apply_lag_inv _ _ H) as (c1 & c2 & c3 & c4 & _ & _ & _ & _ & Hs).
  cbv zeta in Hs. subst s2. cbn [estimation.with_data estimation.data].
  eexists. rewrite getitem_boolean_index. getitem_through_setitem.
  rewrite Hano. reflexivity.
Qed.

Lemma elem_of_mask_filter {A : Type} (m : list bool) (l : list A) (x : A) :
  x ∈ mask_filter m l -> x ∈ l.
Proof.
  revert l. induction m as [|b m IH]; intros [|a l]; cbn; try (intros H; inversion H; fail).
  destruct b.
  - intros H. apply elem_of_cons in H as [-> | H]; [left | right; apply IH, H].
  - intros H. right. apply IH, H.
Qed.

(** X15: [estimate_range] refuses a window that holds no year of the
    panel.  Whenever the unrestricted estimation works on an estimator whose
    [ano] column holds integer years, none of them inside [lo..hi] (in
    particular whenever [hi < lo]), the call raises [ValueError]. *)
Theorem estimate_range_empty_window
  (self s2 : estimation.TaylorRuleEstimator)
  (ms : estimation.OLS * estimation.OLS * estimation.OLS)
  (years : list Z) (lo hi : Z) :
  estimation.estimate_naive self = Ok (s2, ms) ->
  getitem (estimation.data self) "ano" = Ok (IntCol years) ->
  (forall y, y ∈ years -> (y < lo \/ hi < y)%Z) ->
  estimation.estimate_range self (lo, hi)
  = Raise (ValueError "No data available for the specified year range").
Proof.
  intros Hnaive Hano Hout.
  destruct (estimate_naive_inv _ _ _ Hnaive) as (s1 & H1 & H2 & _).
  rewrite <- (source_column_ano _ _ H1) in Hano.
  destruct (apply_lag_ano_mask _ _ _ H2 Hano) as [m Hm].
  unfold estimation.estimate_range. rewrite H1. cbn [mbind result_bind Py.bind].
  rewrite H2. cbn [mbind result_bind Py.bind]. rewrite Hm.
  cbn [mbind result_bind Py.bind mask_col estimation.between fst snd].
  replace (empty _) with true; [reflexivity |].
  symmetry. unfold empty. apply Nat.eqb_eq, len_boolean_index_all_false.
  apply Forall_map, Forall_forall. intros y Hy. apply elem_of_mask_filter in Hy.
  cbn. destruct (Hout y Hy); lia.
Qed.

Lemma estimate_range_empty_window_witness :
  estimation.estimate_range Examples.market_estimator (10, 5)%Z
  = Raise (ValueError "No data available for the specified year range").
Proof.
  destruct (estimation.estimate_naive Examples.market_estimator)
    as [[s2 ms]|] eqn:E; [| vm_compute in E; discriminate E].
  apply (estimate_range_empty_window Examples.market_estimator s2 ms
           [4; 5; 5; 10; 11; 11; 13; 13]%Z 10 5 E).
  - reflexivity.
  - intros y _. lia.
Defined.

Lemma col_length_shift (n : Z) (c : column) : col_length (shift n c) = col_length c.
Proof.
  assert (Hf : forall xs, length (shift_floats n xs) = length xs).
  { intros xs. unfold shift_floats. destruct (0 <=? n)%Z.
    - rewrite length_take, length_app, length_replicate. lia.
    - rewrite length_app, length_drop, length_replicate. lia. }
  destruct c as [xs | ns]; cbn [shift col_length]; [apply Hf |].
  destruct (orb _ _); cbn [col_length]; [reflexivity |].
  rewrite Hf. apply length_map.
Qed.

Lemma well_formed_getitem (d : DataFrame) (n : string) (c : column) :
  well_formed d -> getitem d n = Ok c -> col_length c = len d.
Proof.
  intros Hwf Hc. apply getitem_Ok, lookup_col_Some in Hc.
  exact (proj1 (Forall_forall _ _) Hwf (n, c) Hc).
Qed.

Lemma well_formed_setitem (d : DataFrame) (n : string) (c : column) :
  well_formed d -> col_length c = len d -> well_formed (setitem d n c).
Proof.
  unfold well_formed, setitem, len. cbn [Date columns]. intros Hwf Hc.
  induction Hwf as [|[n0 c0] cols H0 Hwf IH]; cbn.
  - constructor; [exact Hc | constructor].
  - destruct (String.eqb n0 n); constructor; try assumption.
Qed.

Lemma mask_filter_length_eq {A B : Type} (m : list bool) (l : list A) (k : list B) :
  length l = length k -> length (mask_filter m l) = length (mask_filter m k).
Proof.
  revert l k. induction m as [|b m IH]; intros [|x l] [|y k] H; cbn in *;
    try reflexivity; try discriminate.
  injection H as H. destruct b; cbn; rewrite (IH l k H); reflexivity.
Qed.

Lemma well_formed_boolean_index (d : DataFrame) (m : list bool) :
  well_formed d -> well_formed (boolean_index d m).
Proof.
  unfold well_formed. intros Hwf. rewrite len_boolean_index.
  unfold boolean_index. cbn [columns]. apply Forall_map.
  eapply Forall_impl; [exact Hwf |]. intros [n c] Hc. cbn in *.
  unfold len in Hc. destruct c as [xs | ns]; cbn in *;
    apply mask_filter_length_eq; exact Hc.
Qed.

Lemma mask_filter_all_true {A : Type} (m : list bool) (l : list A) :
  Forall (fun b => b = true) m -> length l <= length m -> mask_filter m l = l.
Proof.
  intros H. revert l. induction H as [|b m -> _ IH]; intros [|x l] Hl; cbn in *;
    try reflexivity; try lia.
  f_equal. apply IH. lia.
Qed.

(** A mask that is true on every row selects the whole frame. *)
Lemma boolean_index_all (d : DataFrame) (m : list bool) :
  well_formed d -> Forall (fun b => b = true) m -> length m = len d ->
  boolean_index d m = d.
Proof.
  intros Hwf Hm Hlen. destruct d as [D cols]. unfold boolean_index. cbn [Date columns].
  unfold well_formed, len in *. cbn [Date columns] in *. f_equal.
  - destruct D; cbn in *; f_equal; apply mask_filter_all_true; (assumption || lia).
  - rewrite <- (map_id cols) at 2. apply map_ext_in. intros [n c] Hin.
    apply list_elem_of_In in Hin.
    pose proof (proj1 (Forall_forall _ _) Hwf (n, c) Hin) as Hc. cbn in Hc.
    f_equal. destruct c; cbn in *; f_equal; apply mask_filter_all_true;
      (assumption || lia).
Qed.

Lemma len_setitem (d : DataFrame) (n : string) (c : column) :
  len (setitem d n c) = len d.
Proof. reflexivity. Qed.

Lemma source_column_well_formed (self s1 : estimation.TaylorRuleEstimator) :
  estimation._source_column self = Ok s1 ->
  well_formed (estimation.data self) -> well_formed (estimation.data s1).
Proof.
  unfold estimation._source_column. intros H Hwf.
  destruct (String.eqb (estimation.source self) "market");
    [| destruct (String.eqb (estimation.source self) "bc"); [| discriminate]];
    apply bind_Ok_inv in H as (c & Hc & H); injection H as <-;
    cbn [estimation.with_data estimation.data];
    apply well_formed_setitem; try assumption;
    apply (well_formed_getitem _ _ _ Hwf Hc).
Qed.

Lemma apply_lag_well_formed (s1 s2 : estimation.TaylorRuleEstimator) :
  estimation._apply_lag s1 = Ok s2 ->
  well_formed (estimation.data s1) -> well_formed (estimation.data s2).
Proof.
  intros H Hwf.
  destruct (apply_lag_inv _ _ H) as (c1 & c2 & c3 & c4 & H1 & H2 & H3 & _ & Hs).
  cbv zeta in Hs. subst s2. cbn [estimation.with_data estimation.data].
  apply well_formed_boolean_index.
  repeat (apply well_formed_setitem;
          [| rewrite col_length_shift, ?len_setitem;
             eapply well_formed_getitem; eassumption]).
  exact Hwf.
Qed.

(** X16: a window that contains every year of the panel changes nothing:
    on a panel whose columns have one entry per row, [estimate_range]
    returns the same estimator state and the same three models as
    [estimate_naive], provided the lagged sample is not empty. *)
Theorem estimate_range_full_window
  (self s2 : estimation.TaylorRuleEstimator)
  (ms : estimation.OLS * estimation.OLS * estimation.OLS)
  (years : list Z) (lo hi : Z) :
  estimation.estimate_naive self = Ok (s2, ms) ->
  well_formed (estimation.data self) ->
  getitem (estimation.data self) "ano" = Ok (IntCol years) ->
  (forall y, y ∈ years -> (lo <= y <= hi)%Z) ->
  0 < len (estimation.data s2) ->
  estimation.estimate_range self (lo, hi) = Ok (s2, ms).
Proof.
  intros Hnaive Hwf Hano Hin Hpos.
  destruct (estimate_naive_inv _ _ _ Hnaive) as (s1 & H1 & H2 & H3).
  rewrite <- (source_column_ano _ _ H1) in Hano.
  destruct (apply_lag_ano_mask _ _ _ H2 Hano) as [m Hm].
  pose proof (apply_lag_well_formed _ _ H2 (source_column_well_formed _ _ H1 Hwf))
    as Hwf2.
  pose proof (well_formed_getitem _ _ _ Hwf2 Hm) as Hlen. cbn in Hlen.
  unfold estimation.estimate_range. rewrite H1. cbn [mbind result_bind Py.bind].
  rewrite H2. cbn [mbind result_bind Py.bind]. rewrite Hm.
  cbn [mbind result_bind Py.bind mask_col estimation.between fst snd].
  rewrite boolean_index_all.
  - unfold empty. destruct (Nat.eqb_spec (len (estimation.data s2)) 0); [lia |].
    rewrite H3. reflexivity.
  - exact Hwf2.
  - apply Forall_map, Forall_forall. intros y Hy. apply elem_of_mask_filter in Hy.
    cbn. specialize (Hin y Hy). lia.
  - rewrite length_map. exact Hlen.
Qed.

Lemma estimate_range_full_window_witness :
  exists s2 ms,
    estimation.estimate_naive Examples.market_estimator = Ok (s2, ms)
    /\ estimation.estimate_range Examples.market_estimator (4, 13)%Z = Ok (s2, ms).
Proof.
  destruct (estimation.estimate_naive Examples.market_estimator)
    as [[s2 ms]|] eqn:E; [| vm_compute in E; discriminate E].
  exists s2, ms. split; [reflexivity |].
  apply (estimate_range_full_window Examples.market_estimator s2 ms
           [4; 5; 5; 10; 11; 11; 13; 13]%Z 4 13 E).
  - repeat constructor.
  - reflexivity.
  - intros y Hy.
    repeat (apply elem_of_cons in Hy as [-> | Hy]; [lia |]). inversion Hy.
  - vm_compute in E. injection E as <- _. vm_compute. lia.
Defined.


(** ** Analysis of the results dictionary *)

Lemma traverse_raises {A B : Type} (f : A -> result B) (l : list A) (a : A) :
  a ∈ l -> raises (f a) -> raises (traverse f l).
Proof.
  intros Ha [e He]. induction l as [|x l IH]; [inversion Ha |].
  cbn. destruct (f x) as [b|e'] eqn:E; [| exists e'; reflexivity].
  apply elem_of_cons in Ha as [-> | Ha]; [congruence |].
  destruct (IH Ha) as [e' ->]. exists e'. reflexivity.
Qed.

(** X18: [run_analysis] fails as a whole.  If for one key of the results
    dictionary the list of results is empty, or its last result has no
    coefficient called [selic_target_lag] or none called [inf_dev], the call
    raises and no summary is returned for any key. *)
Theorem run_analysis_fails_as_a_whole
  (results : list (pipeline.key * list analytics.RegressionResults))
  (k : pipeline.key) (res_list : list analytics.RegressionResults) :
  (k, res_list) ∈ results ->
  (res_list = []
   \/ exists r, last res_list = Some r
                /\ (analytics.params r !! "selic_target_lag"%string = None
                    \/ analytics.params r !! "inf_dev"%string = None)) ->
  raises (pipeline.run_analysis results).
Proof.
  intros Hin Hbad. unfold pipeline.run_analysis.
  apply (traverse_raises _ _ _ Hin). cbn beta iota.
  destruct Hbad as [-> | (r & Hr & Hp)].
  - exists IndexError. reflexivity.
  - unfold pipeline.last_item. rewrite Hr. cbn [of_option mbind result_bind Py.bind].
    unfold analytics.summarize_results, analytics.estructural_params,
      analytics.getitem.
    destruct (analytics.params r !! "selic_target_lag"%string) as [a1|];
      [| eexists; reflexivity].
    destruct Hp as [Hp | Hp]; [discriminate Hp |]. rewrite Hp.
    eexists. reflexivity.
Qed.

Lemma run_analysis_fails_as_a_whole_witness :
  raises (pipeline.run_analysis
            (map pipeline.entry Examples.run_a ++ [(("bc"%string, None), [])])).
Proof.
  apply (run_analysis_fails_as_a_whole _ ("bc"%string, None) []).
  - apply elem_of_app. right. left.
  - left. reflexivity.
Defined.

(** X19: regressors the model does not have count as zero.  When the
    denominator [1 - alpha1] is a finite number other than zero,
    [estructural_params] returns a zero for [alpha3] if the result has no
    coefficient [output_gap_lag], and a zero for [alpha4] if it has no
    coefficient [exchange_rate_var_lag]. *)
Theorem estructural_params_absent_regressors
  (results : analytics.RegressionResults) (alpha1 inf_dev : float) :
  analytics.params results !! "selic_target_lag"%string = Some alpha1 ->
  analytics.params results !! "inf_dev"%string = Some inf_dev ->
  Float64.is_finite (Float64.sub (Float64.of_Z 1) alpha1) = true ->
  is_zero (Float64.sub (Float64.of_Z 1) alpha1) = false ->
  exists alpha2 alpha3 alpha4,
    analytics.estructural_params results = Ok (alpha1, alpha2, alpha3, alpha4)
    /\ (analytics.params results !! "output_gap_lag"%string = None ->
        is_zero alpha3 = true)
    /\ (analytics.params results !! "exchange_rate_var_lag"%string = None ->
        is_zero alpha4 = true).
Proof.
  intros H1 H2 Hfin Hnz. unfold analytics.estructural_params, analytics.getitem.
  rewrite H1, H2. cbn [of_option mbind result_bind Py.bind mret result_ret].
  eexists _, _, _. split; [reflexivity |].
  unfold analytics.get.
  destruct (Float64.sub (Float64.of_Z 1) alpha1) as [s|s| |s m e];
    try discriminate.
  split; intros ->; reflexivity.
Qed.

Lemma estructural_params_absent_regressors_witness :
  exists alpha2 alpha3 alpha4,
    analytics.estructural_params (Examples.fit_with Examples.half "I")
    = Ok (Examples.half, alpha2, alpha3, alpha4)
    /\ (analytics.params (Examples.fit_with Examples.half "I")
          !! "output_gap_lag"%string = None ->
        is_zero alpha3 = true)
    /\ (analytics.params (Examples.fit_with Examples.half "I")
          !! "exchange_rate_var_lag"%string = None ->
        is_zero alpha4 = true).
Proof.
  apply (estructural_params_absent_regressors
           (Examples.fit_with Examples.half "I") Examples.half
           (Float64.of_decimal 3 1)).
  - reflexivity.
  - reflexivity.
  - reflexivity.
  - reflexivity.
Defined.

(** X20: [run_analysis] returns one summary per key of the results
    dictionary, under the same keys in the same order. *)
Theorem run_analysis_keys
  (results : list (pipeline.key * list analytics.RegressionResults))
  (summaries : list (pipeline.key * analytics.Report)) :
  pipeline.run_analysis results = Ok summaries ->
  map fst summaries = map fst results.
Proof.
  unfold pipeline.run_analysis. intros H. apply traverse_Ok in H.
  induction H as [|[k rs] [k' rep] results summaries Hx _ IH]; [reflexivity |].
  cbn [map fst]. f_equal; [| exact IH].
  apply bind_Ok_inv in Hx as (r & _ & Hx).
  apply bind_Ok_inv in Hx as (t & _ & Hx).
  injection Hx as <- _. reflexivity.
Qed.

Lemma run_analysis_keys_witness :
  exists summaries,
    pipeline.run_analysis (map pipeline.entry Examples.run_a) = Ok summaries
    /\ map fst summaries = map fst (map pipeline.entry Examples.run_a).
Proof.
  destruct (pipeline.run_analysis (map pipeline.entry Examples.run_a))
    as [summaries|] eqn:E; [| vm_compute in E; discriminate E].
  exists summaries. split; [reflexivity |].
  apply (run_analysis_keys (map pipeline.entry Examples.run_a) summaries E).
Defined.


(** ** The dummy-variable specification *)

Lemma source_column_Date (self s1 : estimation.TaylorRuleEstimator) :
  estimation._source_column self = Ok s1 ->
  Date (estimation.data s1) = Date (estimation.data self).
Proof.
  unfold estimation._source_column. intros H.
  destruct (String.eqb (estimation.source self) "market");
    [| destruct (String.eqb (estimation.source self) "bc"); [| discriminate]];
    apply bind_Ok_inv in H as (c & _ & H); injection H as <-; reflexivity.
Qed.

Lemma apply_lag_Date (s1 s2 : estimation.TaylorRuleEstimator) :
  estimation._apply_lag s1 = Ok s2 ->
  exists m, Date (estimation.data s2) = mask_index m (Date (estimation.data s1)).
Proof.
  intros H.
  destruct (apply_lag_inv _ _ H) as (c1 & c2 & c3 & c4 & _ & _ & _ & _ & Hs).
  cbv zeta in Hs. subst s2. eexists. reflexivity.
Qed.

(** What [estimate_range] and [estimate_finer] do before they build their
    models. *)
Lemma estimate_range_inv (self s2 : estimation.TaylorRuleEstimator)
  (ms : estimation.OLS * estimation.OLS * estimation.OLS) (year_range : Z * Z) :
  estimation.estimate_range self year_range = Ok (s2, ms) ->
  exists s1 ano,
    estimation._source_column self = Ok s1
    /\ estimation._apply_lag s1 = Ok s2
    /\ getitem (estimation.data s2) "ano" = Ok ano
    /\ let df_range := boolean_index (estimation.data s2)
                         (estimation.between ano year_range.1 year_range.2) in
       empty df_range = false
       /\ estimation.three_models df_range = Ok ms.
Proof.
  unfold estimation.estimate_range. intros H.
  apply bind_Ok_inv in H as (s1 & H1 & H).
  apply bind_Ok_inv in H as (s2' & H2 & H).
  apply bind_Ok_inv in H as (ano & H3 & H).
  destruct (empty _) eqn:E; [discriminate H |].
  apply bind_Ok_inv in H as (ms' & H4 & H). injection H as <- <-.
  exists s1, ano. repeat split; assumption.
Qed.

(** X14: a source other than ['market'] and ['bc'] is refused by all three
    estimation methods with [ValueError], whatever the data and the
    ranges. *)
Theorem estimate_unknown_source
  (self : estimation.TaylorRuleEstimator) (year_range dummy_range : Z * Z) :
  estimation.source self <> "market"%string ->
  estimation.source self <> "bc"%string ->
  estimation.estimate_naive self
  = Raise (ValueError "Source must be either 'market' or 'bc'.")
  /\ estimation.estimate_range self year_range
     = Raise (ValueError "Source must be either 'market' or 'bc'.")
  /\ estimation.estimate_finer self year_range dummy_range
     = Raise (ValueError "Source must be either 'market' or 'bc'.").
Proof.
  intros H1 H2. apply String.eqb_neq in H1, H2.
  unfold estimation.estimate_naive, estimation.estimate_range,
    estimation.estimate_finer, estimation._source_column.
  rewrite H1, H2. repeat split; reflexivity.
Qed.

Lemma estimate_unknown_source_witness :
  estimation.estimate_naive Examples.bcb_estimator
  = Raise (ValueError "Source must be either 'market' or 'bc'.")
  /\ estimation.estimate_range Examples.bcb_estimator (5, 10)%Z
     = Raise (ValueError "Source must be either 'market' or 'bc'.")
  /\ estimation.estimate_finer Examples.bcb_estimator (5, 10)%Z (3, 4)%Z
     = Raise (ValueError "Source must be either 'market' or 'bc'.").
Proof.
  apply (estimate_unknown_source Examples.bcb_estimator (5, 10)%Z (3, 4)%Z).
  - discriminate.
  - discriminate.
Defined.

(** X17: [estimate_finer] needs a panel keyed by months.  On a panel whose
    [Date] column holds timestamps, whenever [estimate_range] returns its
    models for a year range, [estimate_finer] raises [ValueError] for the
    same range and any dummy range: the comparison of the dates with the
    bounds of the dummy range fails. *)
Theorem estimate_finer_needs_periods
  (self s2 : estimation.TaylorRuleEstimator)
  (ms : estimation.OLS * estimation.OLS * estimation.OLS)
  (ds : list Z) (year_range dummy_range : Z * Z) :
  Date (estimation.data self) = Datetime64 ds ->
  estimation.estimate_range self year_range = Ok (s2, ms) ->
  estimation.estimate_finer self year_range dummy_range
  = Raise (ValueError "Error creating dummy variable").
Proof.
  intros HD H.
  destruct (estimate_range_inv _ _ _ _ H) as (s1 & ano & H1 & H2 & H3 & H4 & _).
  unfold estimation.estimate_finer. rewrite H1. cbn [mbind result_bind Py.bind].
  rewrite H2. cbn [mbind result_bind Py.bind]. rewrite H3.
  cbn [mbind result_bind Py.bind]. rewrite H4.
  destruct (apply_lag_Date _ _ H2) as [m Hm].
  rewrite (source_column_Date _ _ H1), HD in Hm.
  unfold estimation.dummy_var, boolean_index. cbn [Date]. rewrite Hm.
  reflexivity.
Qed.

Lemma estimate_finer_needs_periods_witness :
  estimation.estimate_finer Examples.dated_estimator (5, 10)%Z (3, 4)%Z
  = Raise (ValueError "Error creating dummy variable").
Proof.
  destruct (estimation.estimate_range Examples.dated_estimator (5, 10)%Z)
    as [[s2 ms]|] eqn:E; [| vm_compute in E; discriminate E].
  apply (estimate_finer_needs_periods Examples.dated_estimator s2 ms
           (map month_start [0; 1; 2; 3; 4; 5; 6; 7]%Z) (5, 10)%Z (3, 4)%Z).
  - reflexivity.
  - exact E.
Defined.

Lemma zip_with_andb_true_l (t x : list bool) :
  Forall (fun b => b = true) t -> length x <= length t -> zip_with andb t x = x.
Proof.
  intros H. revert x. induction H as [|b t -> _ IH]; intros [|a x] Hl; cbn in *;
    try reflexivity; try lia.
  f_equal. apply IH. lia.
Qed.

Lemma zip_with_andb_idemp (m x : list bool) :
  zip_with andb m (zip_with andb m x) = zip_with andb m x.
Proof.
  revert x. induction m as [|b m IH]; intros [|a x]; cbn; try reflexivity.
  rewrite IH. f_equal. destruct b, a; reflexivity.
Qed.

Lemma zip_with_andb_swap (a b x : list bool) :
  zip_with andb a (zip_with andb b x) = zip_with andb b (zip_with andb a x).
Proof.
  revert b x. induction a as [|u a IH]; intros [|v b] [|w x]; cbn; try reflexivity.
  rewrite IH. f_equal. destruct u, v, w; reflexivity.
Qed.

Lemma all_true_length (ms : list (list bool)) (n : nat) : length (all_true ms n) <= n.
Proof.
  induction ms as [|m ms IH]; cbn; [rewrite length_replicate; lia |].
  rewrite length_zip_with. lia.
Qed.

Lemma ols_Ok_inv (y : string) (xs : list string) (d : DataFrame) (model : estimation.OLS) :
  estimation.ols y xs d = Ok model ->
  exists cols,
    traverse (getitem d) (y :: xs) = Ok cols
    /\ model = {| estimation.endog := y; estimation.exog := xs;
                  estimation.design :=
                    boolean_index d (all_true (map notna cols) (len d)) |}.
Proof.
  unfold estimation.ols, complete_rows. intros H.
  destruct (traverse (getitem d) (y :: xs)) as [cols|e] eqn:E.
  - cbn [mbind result_bind Py.bind mret result_ret] in H. injection H as <-.
    exists cols. split; reflexivity.
  - cbn [mbind result_bind Py.bind] in H. destruct e; discriminate H.
Qed.

Lemma ols_terms_Ok (y : string) (terms : list (list string)) (d : DataFrame)
  (cols : list column) :
  traverse (getitem d) (y :: concat terms) = Ok cols ->
  estimation.ols_terms y terms d
  = Ok {| estimation.endog := y; estimation.exog := map (String.concat ":") terms;
          estimation.design := boolean_index d (all_true (map notna cols) (len d)) |}.
Proof.
  intros H. unfold estimation.ols_terms, complete_rows. rewrite H. reflexivity.
Qed.

Lemma traverse_cons_Ok {A B : Type} (f : A -> result B) (a : A) (l : list A)
  (bs : list B) :
  traverse f (a :: l) = Ok bs ->
  exists b bs', bs = b :: bs' /\ f a = Ok b /\ traverse f l = Ok bs'.
Proof.
  cbn. destruct (f a) as [b|e]; [| discriminate].
  destruct (traverse f l) as [bs'|e]; [| discriminate].
  intros [= <-]. eauto.
Qed.

Lemma mask_index_PeriodM (m : list bool) (ix : index_col) (ps : list Z) :
  ix = PeriodM ps -> mask_index m ix = PeriodM (mask_filter m ps).
Proof. intros ->. reflexivity. Qed.

Lemma zip_with_andb_map {A : Type} (f g : A -> bool) (l : list A) :
  zip_with andb (map f l) (map g l) = map (fun a => f a && g a) l.
Proof. induction l as [|a l IH]; cbn; [reflexivity | rewrite IH; reflexivity]. Qed.

(** X21: the dummy variable does not change the sample.  On a panel keyed
    by months, whenever [estimate_range] returns its three models for a year
    range, [estimate_finer] returns three models for the same range and any
    dummy range, each fitted on as many rows as its counterpart; its frame
    holds a column [dummy_var] that is 1 in the months from the first to the
    last month of the dummy range and 0 elsewhere. *)
Theorem estimate_finer_same_sample
  (self s2 : estimation.TaylorRuleEstimator)
  (ms : estimation.OLS * estimation.OLS * estimation.OLS)
  (ps : list Z) (year_range : Z * Z) (start_period end_period : Z) :
  Date (estimation.data self) = PeriodM ps ->
  estimation.estimate_range self year_range = Ok (s2, ms) ->
  exists ms',
    estimation.estimate_finer self year_range (start_period, end_period)
    = Ok (s2, ms')
    /\ estimation.nobs ms'.1.1 = estimation.nobs ms.1.1
    /\ estimation.nobs ms'.1.2 = estimation.nobs ms.1.2
    /\ estimation.nobs ms'.2 = estimation.nobs ms.2
    /\ forall model, model ∈ [ms'.1.1; ms'.1.2; ms'.2] ->
         exists qs,
           Date (estimation.design model) = PeriodM qs
           /\ getitem (estimation.design model) "dummy_var"
              = Ok (IntCol (map (fun q => Z.b2z ((start_period <=? q)%Z
                                                 && (q <=? end_period)%Z)) qs)).
Proof.
  intros HD H.
  destruct (estimate_range_inv _ _ _ _ H) as (s1 & ano & H1 & H2 & H3 & H4 & H5).
  set (df := boolean_index (estimation.data s2)
               (estimation.between ano year_range.1 year_range.2)) in *.
  assert (Hqs : exists qs, Date df = PeriodM qs).
  { destruct (apply_lag_Date _ _ H2) as [m Hm].
    rewrite (source_column_Date _ _ H1), HD in Hm.
    eexists. unfold df, boolean_index. cbn [Date]. rewrite Hm. reflexivity. }
  destruct Hqs as [qs Hqs].
  set (ind := fun q => (start_period <=? q)%Z && (q <=? end_period)%Z).
  set (d' := setitem df "dummy_var" (IntCol (map Z.b2z (map ind qs)))).
  assert (Hdummy : estimation.dummy_var df (start_period, end_period) = Ok d').
  { unfold estimation.dummy_var. rewrite Hqs.
    cbn [dtype_name period_ge period_le mbind result_bind Py.bind mret result_ret].
    change (str_contains "Period" "period[M]") with false.
    cbn [negb mbind result_bind Py.bind mret result_ret].
    rewrite Hqs. cbn [period_ge period_le mbind result_bind Py.bind mret result_ret].
    unfold astype_int. rewrite zip_with_andb_map. reflexivity. }
  unfold estimation.three_models in H5.
  apply bind_Ok_inv in H5 as (m1 & G1 & H5).
  apply bind_Ok_inv in H5 as (m2 & G2 & H5).
  apply bind_Ok_inv in H5 as (m3 & G3 & H5). injection H5 as <-.
  apply ols_Ok_inv in G1 as (cols1 & T1 & ->).
  apply ols_Ok_inv in G2 as (cols2 & T2 & ->).
  apply ols_Ok_inv in G3 as (cols3 & T3 & ->).
  apply traverse_cons_Ok in T3 as (cy & r3 & -> & Ey & T3).
  apply traverse_cons_Ok in T3 as (cl & r3' & -> & El & T3).
  apply traverse_cons_Ok in T3 as (ci & r3'' & -> & Ei & T3).
  apply traverse_cons_Ok in T3 as (co & r3''' & -> & Eo & T3).
  apply traverse_cons_Ok in T3 as (ce & r3'''' & -> & Ee & T3).
  injection T3 as <-.
  cbn [traverse] in T1, T2. rewrite Ey, El, Ei in T1. rewrite Ey, El, Ei, Eo in T2.
  injection T1 as <-. injection T2 as <-.
  set (D := IntCol (map Z.b2z (map ind qs))).
  assert (Hlen : len d' = len df) by reflexivity.
  assert (HlenD : length (notna D) = len df).
  { unfold D, len. rewrite Hqs. cbn. rewrite !length_map. reflexivity. }
  assert (HtrueD : Forall (fun b => b = true) (notna D)).
  { unfold D. cbn. apply Forall_map, Forall_forall. reflexivity. }
  assert (HDrop : forall x, zip_with andb (notna D) (zip_with andb x (replicate (len df) true))
                            = zip_with andb x (replicate (len df) true)).
  { intros x. apply zip_with_andb_true_l; [exact HtrueD |].
    rewrite length_zip_with, length_replicate, HlenD. lia. }
  assert (F1 : traverse (getitem d')
                 ("selic_target" :: concat [["selic_target_lag"]; ["inf_dev"];
                                            ["dummy_var"; "inf_dev"]])%string
               = Ok [cy; cl; ci; D; ci]).
  { cbn [concat app traverse]. unfold d'. getitem_through_setitem.
    rewrite Ey, El, Ei. reflexivity. }
  assert (F2 : traverse (getitem d')
                 ("selic_target" :: concat [["selic_target_lag"]; ["inf_dev"];
                                            ["output_gap_lag"];
                                            ["dummy_var"; "inf_dev"]])%string
               = Ok [cy; cl; ci; co; D; ci]).
  { cbn [concat app traverse]. unfold d'. getitem_through_setitem.
    rewrite Ey, El, Ei, Eo. reflexivity. }
  assert (F3 : traverse (getitem d')
                 ("selic_target" :: concat [["selic_target_lag"]; ["inf_dev"];
                                            ["output_gap_lag"];
                                            ["exchange_rate_var_lag"];
                                            ["dummy_var"; "inf_dev"]])%string
               = Ok [cy; cl; ci; co; ce; D; ci]).
  { cbn [concat app traverse]. unfold d'. getitem_through_setitem.
    rewrite Ey, El, Ei, Eo, Ee. reflexivity. }
  eexists. split.
  { unfold estimation.estimate_finer. rewrite H1. cbn [mbind result_bind Py.bind].
    rewrite H2. cbn [mbind result_bind Py.bind]. rewrite H3.
    cbn [mbind result_bind Py.bind]. fold df. rewrite H4, Hdummy.
    cbn [estimation.except_as_ValueError mbind result_bind Py.bind].
    rewrite (ols_terms_Ok _ _ _ _ F1). cbn [mbind result_bind Py.bind].
    rewrite (ols_terms_Ok _ _ _ _ F2). cbn [mbind result_bind Py.bind].
    rewrite (ols_terms_Ok _ _ _ _ F3). cbn [mbind result_bind Py.bind mret result_ret].
    reflexivity. }
  assert (M1 : all_true (map notna [cy; cl; ci; D; ci]) (len d')
               = all_true (map notna [cy; cl; ci]) (len df)).
  { rewrite Hlen. cbn [map all_true]. rewrite HDrop, zip_with_andb_idemp. reflexivity. }
  assert (M2 : all_true (map notna [cy; cl; ci; co; D; ci]) (len d')
               = all_true (map notna [cy; cl; ci; co]) (len df)).
  { rewrite Hlen. cbn [map all_true]. rewrite HDrop.
    rewrite (zip_with_andb_swap (notna co) (notna ci)), zip_with_andb_idemp.
    reflexivity. }
  assert (M3 : all_true (map notna [cy; cl; ci; co; ce; D; ci]) (len d')
               = all_true (map notna [cy; cl; ci; co; ce]) (len df)).
  { rewrite Hlen. cbn [map all_true]. rewrite HDrop.
    rewrite (zip_with_andb_swap (notna ce) (notna ci)).
    rewrite (zip_with_andb_swap (notna co) (notna ci)), zip_with_andb_idemp.
    reflexivity. }
  cbn [fst snd]. unfold estimation.nobs. cbn [estimation.design].
  rewrite M1, M2, M3.
  split; [rewrite !len_boolean_index; reflexivity |].
  split; [rewrite !len_boolean_index; reflexivity |].
  split; [rewrite !len_boolean_index; reflexivity |].
  intros model Hmodel.
  assert (Hd : forall m, exists zs,
             Date (boolean_index d' m) = PeriodM zs
             /\ getitem (boolean_index d' m) "dummy_var"
                = Ok (IntCol (map (fun q => Z.b2z (ind q)) zs))).
  { intros m. exists (mask_filter m qs). split.
    - unfold boolean_index, d'. cbn [Date setitem]. rewrite Hqs. reflexivity.
    - rewrite getitem_boolean_index. unfold d'. rewrite getitem_setitem_eq.
      cbn [mask_col]. rewrite map_map, mask_filter_map. reflexivity. }
  repeat (apply elem_of_cons in Hmodel as [-> | Hmodel]; [apply Hd |]).
  inversion Hmodel.
Qed.

Lemma estimate_finer_same_sample_witness :
  exists ms ms' s2,
    estimation.estimate_range Examples.market_estimator (5, 10)%Z = Ok (s2, ms)
    /\ estimation.estimate_finer Examples.market_estimator (5, 10)%Z (2, 3)%Z
       = Ok (s2, ms')
    /\ estimation.nobs ms'.1.1 = estimation.nobs ms.1.1
    /\ estimation.nobs ms'.1.2 = estimation.nobs ms.1.2
    /\ estimation.nobs ms'.2 = estimation.nobs ms.2
    /\ forall model, model ∈ [ms'.1.1; ms'.1.2; ms'.2] ->
         exists qs,
           Date (estimation.design model) = PeriodM qs
           /\ getitem (estimation.design model) "dummy_var"
              = Ok (IntCol (map (fun q => Z.b2z ((2 <=? q)%Z && (q <=? 3)%Z)) qs)).
Proof.
  destruct (estimation.estimate_range Examples.market_estimator (5, 10)%Z)
    as [[s2 ms]|] eqn:E; [| vm_compute in E; discriminate E].
  destruct (estimate_finer_same_sample Examples.market_estimator s2 ms
              [0; 1; 2; 3; 4; 5; 6; 7]%Z (5, 10)%Z 2 3 eq_refl E)
    as (ms' & H).
  exists ms, ms', s2. split; [reflexivity | exact H].
Defined.


(** ** The inflation plot *)

Lemma dt_to_timestamp_inv (ix ts : index_col) :
  dt_to_timestamp ix = Ok ts ->
  exists ps, ix = PeriodM ps /\ ts = Datetime64 (map month_start ps).
Proof.
  destruct ix as [ds|ps]; cbn; [discriminate |]. intros [= <-]. eauto.
Qed.

Lemma mask_filter_all_true_mask {A : Type} (m : list bool) (l : list A) :
  mask_filter (all_true [m] (length l)) l = mask_filter m l.
Proof.
  cbn [all_true]. revert l. induction m as [|b m IH]; intros [|x l]; cbn;
    try reflexivity.
  rewrite andb_true_r, IH. reflexivity.
Qed.

(** [plot_inflation], step by step. *)
Lemma plot_inflation_inv (h h' : heap) (self : vizualization.Plotter)
  (lines : list vizualization.Line) :
  vizualization.plot_inflation h self = Ok (h', lines) ->
  exists df ps inflation upper_col target expected lower upper,
    h !! vizualization.data self = Some df
    /\ Date df = PeriodM ps
    /\ let ts := Datetime64 (map month_start ps) in
       let df' := {| Date := ts; columns := columns df |} in
       let kept := boolean_index df' (all_true [notna upper_col] (len df')) in
       h' = <[vizualization.data self := df']> h
       /\ getitem df' "upper_limit" = Ok upper_col
       /\ getitem df' "inflation_12m" = Ok inflation
       /\ getitem df' "focus_expected_inflation" = Ok expected
       /\ getitem kept "inflation_target" = Ok target
       /\ getitem kept "lower_limit" = Ok lower
       /\ getitem kept "upper_limit" = Ok upper
       /\ lines
          = [ {| vizualization.label := "12-Month Inflation Rate";
                 vizualization.xdata := ts; vizualization.ydata := inflation |};
              {| vizualization.label := "Inflation Target";
                 vizualization.xdata := Date kept; vizualization.ydata := target |};
              {| vizualization.label := "Expected Inflation";
                 vizualization.xdata := ts; vizualization.ydata := expected |};
              {| vizualization.label := "Lower Limit";
                 vizualization.xdata := Date kept; vizualization.ydata := lower |};
              {| vizualization.label := "Upper Limit";
                 vizualization.xdata := Date kept; vizualization.ydata := upper |} ].
Proof.
  unfold vizualization.plot_inflation. intros H.
  apply bind_Ok_inv in H as (df & Hdf & H). apply load_Ok in Hdf.
  apply bind_Ok_inv in H as (ts & Hts & H).
  apply dt_to_timestamp_inv in Hts as (ps & HD & ->).
  apply bind_Ok_inv in H as (inflation & Hi & H).
  unfold dropna, complete_rows in H. cbn [traverse] in H.
  destruct (getitem _ "upper_limit") as [upper_col|] eqn:Hu; [| discriminate H].
  cbn [mbind result_bind Py.bind mret result_ret map] in H.
  apply bind_Ok_inv in H as (target & Ht & H).
  apply bind_Ok_inv in H as (expected & He & H).
  apply bind_Ok_inv in H as (lower & Hl & H).
  apply bind_Ok_inv in H as (upper & Hup & H).
  injection H as <- <-.
  exists df, ps, inflation, upper_col, target, expected, lower, upper.
  split; [exact Hdf |]. split; [exact HD |]. cbv zeta.
  repeat split; assumption.
Qed.

(** X22: [plot_inflation] writes into the frame it plots.  After a call
    that returns, the caller's frame holds, in place of each month of its
    [Date] column, the timestamp of the first day of that month; its other
    columns and every other frame are unchanged.  Converting the new dates
    back with [dt.to_period('M')] gives the months the frame held. *)
Theorem plot_inflation_rewrites_dates
  (h h' : heap) (self : vizualization.Plotter) (lines : list vizualization.Line) :
  vizualization.plot_inflation h self = Ok (h', lines) ->
  exists df ps,
    h !! vizualization.data self = Some df
    /\ Date df = PeriodM ps
    /\ h' !! vizualization.data self
       = Some {| Date := Datetime64 (map month_start ps); columns := columns df |}
    /\ (forall r, r <> vizualization.data self -> h' !! r = h !! r)
    /\ dt_to_period (Datetime64 (map month_start ps)) = Ok (PeriodM ps).
Proof.
  intros H.
  destruct (plot_inflation_inv _ _ _ _ H)
    as (df & ps & i & u & t & e & l & up & Hdf & HD & Hh & _).
  exists df, ps. split; [exact Hdf |]. split; [exact HD |]. subst h'.
  split; [apply list_lookup_insert_eq; eapply lookup_lt_Some; exact Hdf |].
  split; [intros r Hr; apply list_lookup_insert_ne; congruence |].
  cbn [dt_to_period]. do 2 f_equal.
  apply month_labels_months, month_of_month_start.
Qed.

Lemma plot_inflation_rewrites_dates_witness :
  exists h' lines df ps,
    vizualization.plot_inflation [Examples.plot_panel] Examples.plotter
    = Ok (h', lines)
    /\ [Examples.plot_panel] !! vizualization.data Examples.plotter = Some df
    /\ Date df = PeriodM ps
    /\ h' !! vizualization.data Examples.plotter
       = Some {| Date := Datetime64 (map month_start ps); columns := columns df |}
    /\ (forall r, r <> vizualization.data Examples.plotter ->
                  h' !! r = [Examples.plot_panel] !! r)
    /\ dt_to_period (Datetime64 (map month_start ps)) = Ok (PeriodM ps).
Proof.
  destruct (vizualization.plot_inflation [Examples.plot_panel] Examples.plotter)
    as [[h' lines]|] eqn:E; [| vm_compute in E; discriminate E].
  destruct (plot_inflation_rewrites_dates [Examples.plot_panel] h'
              Examples.plotter lines E) as (df & ps & H).
  exists h', lines, df, ps. split; [reflexivity | exact H].
Defined.

(** X23: [plot_inflation] cannot be called twice on one frame: after a call
    that returned, the frame holds timestamps, and the next call raises
    [AttributeError] before anything is drawn. *)
Theorem plot_inflation_second_call_raises
  (h h' : heap) (self : vizualization.Plotter) (lines : list vizualization.Line) :
  vizualization.plot_inflation h self = Ok (h', lines) ->
  vizualization.plot_inflation h' self
  = Raise (AttributeError "'DatetimeProperties' object has no attribute 'to_timestamp'").
Proof.
  intros H.
  destruct (plot_inflation_inv _ _ _ _ H)
    as (df & ps & i & u & t & e & l & up & Hdf & HD & Hh & _).
  subst h'. unfold vizualization.plot_inflation, load.
  rewrite list_lookup_insert_eq by (eapply lookup_lt_Some; exact Hdf).
  reflexivity.
Qed.

Lemma plot_inflation_second_call_raises_witness :
  exists h' lines,
    vizualization.plot_inflation [Examples.plot_panel] Examples.plotter
    = Ok (h', lines)
    /\ vizualization.plot_inflation h' Examples.plotter
       = Raise (AttributeError
                  "'DatetimeProperties' object has no attribute 'to_timestamp'").
Proof.
  destruct (vizualization.plot_inflation [Examples.plot_panel] Examples.plotter)
    as [[h' lines]|] eqn:E; [| vm_compute in E; discriminate E].
  exists h', lines. split; [reflexivity |].
  apply (plot_inflation_second_call_raises [Examples.plot_panel] h'
           Examples.plotter lines E).
Defined.

(** X24: the target and the two limits are drawn only where the upper limit
    is known.  The lines labelled [Inflation Target], [Lower Limit] and
    [Upper Limit] share one x-axis, the dates of the rows whose
    [upper_limit] is not missing, and the upper-limit line has no missing
    value; the inflation and expectation lines run over all rows. *)
Theorem plot_inflation_limit_lines
  (h h' : heap) (self : vizualization.Plotter) (lines : list vizualization.Line) :
  vizualization.plot_inflation h self = Ok (h', lines) ->
  exists plotted upper_col,
    h' !! vizualization.data self = Some plotted
    /\ getitem plotted "upper_limit" = Ok upper_col
    /\ map vizualization.label lines
       = ["12-Month Inflation Rate"; "Inflation Target"; "Expected Inflation";
          "Lower Limit"; "Upper Limit"]%string
    /\ forall line, line ∈ lines ->
         (vizualization.label line
            ∈ ["Inflation Target"; "Lower Limit"; "Upper Limit"]%string ->
          vizualization.xdata line = mask_index (notna upper_col) (Date plotted))
         /\ (vizualization.label line
               ∈ ["12-Month Inflation Rate"; "Expected Inflation"]%string ->
             vizualization.xdata line = Date plotted)
         /\ (vizualization.label line = "Upper Limit"%string ->
             Forall (fun b => b = true) (notna (vizualization.ydata line))).
Proof.
  intros H.
  destruct (plot_inflation_inv _ _ _ _ H)
    as (df & ps & i & u & t & e & l & up & Hdf & HD & Hh & Hu & Hi & He & Ht & Hl
        & Hup & Hlines).
  cbv zeta in *.
  set (ts := Datetime64 (map month_start ps)) in *.
  set (df' := {| Date := ts; columns := columns df |}) in *.
  exists df', u. split.
  { subst h'. apply list_lookup_insert_eq. eapply lookup_lt_Some. exact Hdf. }
  split; [exact Hu |]. subst lines. split; [reflexivity |].
  assert (Hx : Date (boolean_index df' (all_true [notna u] (len df')))
               = mask_index (notna u) (Date df')).
  { unfold boolean_index, len, df', ts. cbn [Date mask_index index_values].
    apply (f_equal Datetime64), mask_filter_all_true_mask. }
  assert (Hna : Forall (fun b => b = true) (notna up)).
  { rewrite getitem_boolean_index, Hu in Hup. injection Hup as <-.
    rewrite notna_mask_col. apply mask_filter_Forall_true.
    intros k Hk. apply (all_true_lookup [notna u] (len df') k); [exact Hk | left]. }
  intros line Hline.
  repeat (apply elem_of_cons in Hline as [-> | Hline]);
    [| | | | | inversion Hline]; cbn [vizualization.label vizualization.xdata
                                      vizualization.ydata];
    (split; [intros Hlab | split; [intros Hlab | intros Hlab]]);
    try exact Hx; try reflexivity; try exact Hna; try discriminate Hlab;
    exfalso;
    repeat (apply elem_of_cons in Hlab as [Hlab | Hlab]; [discriminate Hlab |]);
    inversion Hlab.
Qed.

Lemma plot_inflation_limit_lines_witness :
  exists h' lines plotted upper_col,
    vizualization.plot_inflation [Examples.plot_panel] Examples.plotter
    = Ok (h', lines)
    /\ h' !! vizualization.data Examples.plotter = Some plotted
    /\ getitem plotted "upper_limit" = Ok upper_col
    /\ map vizualization.label lines
       = ["12-Month Inflation Rate"; "Inflation Target"; "Expected Inflation";
          "Lower Limit"; "Upper Limit"]%string
    /\ forall line, line ∈ lines ->
         (vizualization.label line
            ∈ ["Inflation Target"; "Lower Limit"; "Upper Limit"]%string ->
          vizualization.xdata line = mask_index (notna upper_col) (Date plotted))
         /\ (vizualization.label line
               ∈ ["12-Month Inflation Rate"; "Expected Inflation"]%string ->
             vizualization.xdata line = Date plotted)
         /\ (vizualization.label line = "Upper Limit"%string ->
             Forall (fun b => b = true) (notna (vizualization.ydata line))).
Proof.
  destruct (vizualization.plot_inflation [Examples.plot_panel] Examples.plotter)
    as [[h' lines]|] eqn:E; [| vm_compute in E; discriminate E].
  destruct (plot_inflation_limit_lines [Examples.plot_panel] h'
              Examples.plotter lines E) as (plotted & upper_col & H).
  exists h', lines, plotted, upper_col. split; [reflexivity | exact H].
Defined.


(** ** The remaining processing stages *)

(** X25: [process_inflation] renames and nothing more.  On a frame with
    timestamps whose other columns are not called [inflation_12m], it
    returns the frame with its second column called [inflation_12m]: same
    dates, same rows and same values, with no resampling to a monthly
    calendar; on a frame with no column besides [Date] it raises
    [IndexError]. *)
Theorem process_inflation_renames_only
  (df : DataFrame) (ds : list Z) :
  Date df = Datetime64 ds ->
  (forall n, n ∈ drop 1 (names df) -> n <> "inflation_12m"%string) ->
  processing.process_inflation df
  = match columns df with
    | [] => Raise IndexError
    | (_, c) :: rest =>
        Ok {| Date := Datetime64 ds;
              columns := ("inflation_12m"%string, c) :: rest |}
    end.
Proof.
  intros HD _. unfold processing.process_inflation, set_column_name.
  change (Nat.pred (Pos.to_nat 1)) with 0.
  destruct (columns df) as [|[n c] rest]; [reflexivity |].
  cbn [lookup list_lookup mbind result_bind Py.bind Date]. rewrite HD.
  cbn [to_datetime mbind result_bind Py.bind columns].
  cbn [insert list_insert]. rewrite getitem_cons_eq.
  cbn [mbind result_bind Py.bind mret result_ret].
  unfold setitem. cbn [Date columns assign_col]. rewrite String.eqb_refl.
  reflexivity.
Qed.

Lemma process_inflation_renames_only_witness :
  processing.process_inflation Examples.survey
  = match columns Examples.survey with
    | [] => Raise IndexError
    | (_, c) :: rest =>
        Ok {| Date := Datetime64 [Examples.day 2024 1 30; Examples.day 2024 2 10;
                                  Examples.day 2024 3 15];
              columns := ("inflation_12m"%string, c) :: rest |}
    end.
Proof.
  apply (process_inflation_renames_only Examples.survey
           [Examples.day 2024 1 30; Examples.day 2024 2 10; Examples.day 2024 3 15]).
  - reflexivity.
  - intros n Hn. inversion Hn.
Defined.

Lemma zip_with_andb_true_r (m : list bool) (n : nat) :
  length m <= n -> zip_with andb m (replicate n true) = m.
Proof.
  revert n. induction m as [|b m IH]; intros [|n] H; cbn in *; try reflexivity; try lia.
  rewrite andb_true_r, IH by lia. reflexivity.
Qed.

Lemma mask_filter_notna (xs : list float) :
  Forall (fun x => Float64.notna x = true) (mask_filter (map Float64.notna xs) xs).
Proof.
  induction xs as [|x xs IH]; cbn; [constructor |].
  destruct (Float64.notna x) eqn:E; [constructor; assumption | exact IH].
Qed.

(** X26: the Hodrick-Prescott filter never sees a missing value.
    [hp_filter_output] drops the rows whose value is missing before it
    calls the filter on the remaining values, in row order; the frame it
    returns has the dates of those rows, the trend as [output_potential] and
    value minus trend as [output_gap]. *)
Theorem hp_filter_output_skips_missing
  (Lambda : Type) (hpfilter : list float -> Lambda -> result (list float * list float))
  (df out : DataFrame) (column : string) (lamb : Lambda)
  (ds : list Z) (xs : list float) :
  Date df = Datetime64 ds ->
  getitem df column = Ok (FloatCol xs) ->
  length xs = length ds ->
  column <> "output_potential"%string ->
  processing.hp_filter_output Lambda hpfilter df column lamb = Ok out ->
  exists cycle trend,
    hpfilter (mask_filter (map Float64.notna xs) xs) lamb = Ok (cycle, trend)
    /\ Forall (fun x => Float64.notna x = true)
              (mask_filter (map Float64.notna xs) xs)
    /\ Date out = Datetime64 (mask_filter (map Float64.notna xs) ds)
    /\ getitem out "output_potential" = Ok (FloatCol trend)
    /\ getitem out "output_gap"
       = Ok (FloatCol (zip_with Float64.sub
                         (mask_filter (map Float64.notna xs) xs) trend)).
Proof.
  intros HD Hc Hlen Hne H. unfold processing.hp_filter_output in H.
  rewrite HD in H. cbn [to_datetime mbind result_bind Py.bind] in H.
  set (df0 := {| Date := Datetime64 ds; columns := columns df |}) in H.
  assert (Hc0 : getitem df0 column = Ok (FloatCol xs)) by exact Hc.
  assert (Hdrop : dropna df0 [column] = Ok (boolean_index df0 (map Float64.notna xs))).
  { unfold dropna, complete_rows. cbn [traverse]. rewrite Hc0.
    cbn [mbind result_bind Py.bind mret result_ret map all_true notna].
    rewrite zip_with_andb_true_r; [reflexivity |].
    unfold len, df0. cbn. rewrite length_map. lia. }
  rewrite Hdrop in H. cbn [mbind result_bind Py.bind] in H.
  rewrite getitem_boolean_index, Hc0 in H.
  cbn [mbind result_bind Py.bind mask_col to_floats] in H.
  destruct (hpfilter (mask_filter (map Float64.notna xs) xs) lamb)
    as [[cycle trend]|] eqn:Ehp; [| discriminate H].
  cbn [mbind result_bind Py.bind] in H.
  rewrite (getitem_setitem_ne _ column "output_potential") in H by exact Hne.
  rewrite getitem_boolean_index, Hc0 in H.
  cbn [mbind result_bind Py.bind mask_col] in H.
  rewrite getitem_setitem_eq in H.
  cbn [mbind result_bind Py.bind mret result_ret] in H. injection H as <-.
  exists cycle, trend. split; [reflexivity |]. split; [apply mask_filter_notna |].
  split; [reflexivity |]. split.
  - rewrite getitem_setitem_ne by discriminate. apply getitem_setitem_eq.
  - rewrite getitem_setitem_eq. reflexivity.
Qed.

Lemma hp_filter_output_skips_missing_witness :
  exists out cycle trend,
    processing.hp_filter_output Z
      (fun xs _ => Ok (map (fun _ => Float64.zero) xs, xs))
      Examples.daily_selic "valor" 1600%Z = Ok out
    /\ Ok (map (fun _ : float => Float64.zero)
               (mask_filter (map Float64.notna
                               [Examples.dec 1175 2; Float64.nan; Examples.dec 1075 2])
                            [Examples.dec 1175 2; Float64.nan; Examples.dec 1075 2]),
           mask_filter (map Float64.notna
                          [Examples.dec 1175 2; Float64.nan; Examples.dec 1075 2])
                       [Examples.dec 1175 2; Float64.nan; Examples.dec 1075 2])
       = Ok (cycle, trend)
    /\ Forall (fun x => Float64.notna x = true)
              (mask_filter (map Float64.notna
                              [Examples.dec 1175 2; Float64.nan; Examples.dec 1075 2])
                           [Examples.dec 1175 2; Float64.nan; Examples.dec 1075 2])
    /\ Date out
       = Datetime64 (mask_filter
                       (map Float64.notna
                          [Examples.dec 1175 2; Float64.nan; Examples.dec 1075 2])
                       [Examples.day 2024 1 30; Examples.day 2024 1 31;
                        Examples.day 2024 3 1])
    /\ getitem out "output_potential" = Ok (FloatCol trend)
    /\ getitem out "output_gap"
       = Ok (FloatCol (zip_with Float64.sub
                         (mask_filter
                            (map Float64.notna
                               [Examples.dec 1175 2; Float64.nan; Examples.dec 1075 2])
                            [Examples.dec 1175 2; Float64.nan; Examples.dec 1075 2])
                         trend)).
Proof.
  destruct (processing.hp_filter_output Z
              (fun xs _ => Ok (map (fun _ => Float64.zero) xs, xs))
              Examples.daily_selic "valor" 1600%Z) as [out|] eqn:E;
    [| vm_compute in E; discriminate E].
  destruct (hp_filter_output_skips_missing Z
              (fun xs _ => Ok (map (fun _ => Float64.zero) xs, xs))
              Examples.daily_selic out "valor" 1600%Z
              [Examples.day 2024 1 30; Examples.day 2024 1 31; Examples.day 2024 3 1]
              [Examples.dec 1175 2; Float64.nan; Examples.dec 1075 2])
    as (cycle & trend & H); try reflexivity; [discriminate | exact E |].
  exists out, cycle, trend. split; [reflexivity | exact H].
Defined.

Lemma float_div_nan_r (x : float) : Float64.div x Float64.nan = Float64.nan.
Proof. destruct x as [s|s| |s m e]; reflexivity. Qed.

Lemma shift_floats_one (xs : list float) :
  shift_floats 1 xs = take (length xs) (Float64.nan :: xs).
Proof. reflexivity. Qed.

(** The percentage change of a series of monthly means. *)
Lemma pct_change_lookup (rates : list float) :
  exists changes,
    int_mul (pct_change (FloatCol rates)) 100 = FloatCol changes
    /\ length changes = length rates
    /\ (forall x, rates !! 0 = Some x -> changes !! 0 = Some Float64.nan)
    /\ (forall i previous x,
          rates !! i = Some previous -> rates !! S i = Some x ->
          changes !! S i
          = Some (Float64.mul (Float64.sub (Float64.div x previous) (Float64.of_Z 1))
                              (Float64.of_Z 100))).
Proof.
  eexists. split; [reflexivity |]. cbn [to_floats]. rewrite shift_floats_one.
  split; [| split].
  - rewrite length_map, length_zip_with, length_take. cbn [length]. lia.
  - intros x Hx. rewrite list_lookup_fmap, lookup_zip_with, Hx.
    destruct rates as [|r rates]; [discriminate Hx |]. cbn.
    rewrite float_div_nan_r. reflexivity.
  - intros i previous x Hp Hx. rewrite list_lookup_fmap, lookup_zip_with, Hx.
    rewrite lookup_take_lt by (apply lookup_lt_Some in Hx; exact Hx).
    change ((Float64.nan :: rates) !! S i) with (rates !! i).
    cbn [mbind option_bind]. rewrite Hp. reflexivity.
Qed.

Lemma Ok_inj {A : Type} (a b : A) : Ok a = Ok b -> a = b.
Proof. intros [= ->]. reflexivity. Qed.

Lemma setitem_head (D : index_col) (n : string) (c c' : column)
  (rest : list (string * column)) :
  setitem {| Date := D; columns := (n, c) :: rest |} n c'
  = {| Date := D; columns := (n, c') :: rest |}.
Proof. unfold setitem. cbn. rewrite String.eqb_refl. reflexivity. Qed.

(** The rows of a series taken in the order of a permutation of their
    positions are the rows of the series. *)
Lemma zip_gather (ds : list Z) (xs : list float) (order : list nat) :
  length xs = length ds ->
  Forall (fun i => i < length ds) order ->
  zip (omap (ds !!.) order)
      (map (fun o : option nat => default Float64.nan (o ≫= (xs !!.)))
           (map Some order))
  = omap (zip ds xs !!.) order.
Proof.
  intros Hlen Hall. induction Hall as [|i order Hi Hall IH]; [reflexivity |].
  destruct (lookup_lt_is_Some_2 ds i Hi) as [d Hd].
  destruct (lookup_lt_is_Some_2 xs i ltac:(lia)) as [x Hx].
  assert (Hz : zip ds xs !! i = Some (d, x))
    by (apply lookup_zip_with_Some; exists d, x; auto).
  cbn [omap list_omap map mbind option_bind]. rewrite Hd, Hx, Hz.
  cbn [default zip zip_with]. rewrite <- IH. reflexivity.
Qed.

Lemma month_values_reordered (p : Z) (ds : list Z) (xs : list float)
  (order : list nat) :
  order ≡ₚ seq 0 (length ds) ->
  length xs = length ds ->
  month_values p (omap (ds !!.) order)
    (map (fun o : option nat => default Float64.nan (o ≫= (xs !!.)))
         (map Some order))
  ≡ₚ month_values p ds xs.
Proof.
  intros Hperm Hlen. unfold month_values. rewrite zip_gather; [| exact Hlen |].
  - apply omap_Permutation. rewrite Hperm.
    replace (length ds) with (length (zip ds xs))
      by (rewrite length_zip_with; lia).
    rewrite omap_lookup_seq. reflexivity.
  - apply Forall_forall. intros i Hi. rewrite Hperm in Hi.
    apply elem_of_seq in Hi. lia.
Qed.

(** X27: [process_exchange_rate_data] returns one row per calendar month,
    each month the successor of the month before it, from the first to the
    last month of the input.  With the rows taken in the order [argsort]
    gives the dates, [exchange_rate] holds for every month the mean of the
    values of the rows dated in that month (all of them, and no others,
    when [argsort] returns a permutation of the row positions), and
    [exchange_rate_var] its percentage change: the change of the first
    month is missing, and the change of every later month is
    [(x / previous - 1) * 100] in float64 arithmetic, [previous] being the
    mean of the month before. *)
Theorem process_exchange_rate_data_monthly_change
  (argsort : list Z -> list nat) (group_mean : list float -> float)
  (df out : DataFrame) (ds : list Z) (n : string) (xs : list float)
  (rest : list (string * column)) (sorted_ds : list Z) (sorted_xs : list float) :
  Date df = Datetime64 ds ->
  columns df = (n, FloatCol xs) :: rest ->
  "exchange_rate"%string ∉ map fst rest ->
  gather_index (Datetime64 ds) (argsort ds) = Datetime64 sorted_ds ->
  gather (FloatCol xs) (map Some (argsort ds)) = FloatCol sorted_xs ->
  processing.process_exchange_rate_data argsort group_mean df = Ok out ->
  exists rates changes,
    Date out = Datetime64 (map month_end (month_bins sorted_ds))
    /\ getitem out "exchange_rate" = Ok (FloatCol rates)
    /\ getitem out "exchange_rate_var" = Ok (FloatCol changes)
    /\ consecutive (months_of out) = true
    /\ length rates = length (months_of out)
    /\ length changes = length rates
    /\ (forall i p, month_bins sorted_ds !! i = Some p ->
          rates !! i = Some (group_mean (month_values p sorted_ds sorted_xs)))
    /\ (argsort ds ≡ₚ seq 0 (length ds) -> length xs = length ds ->
        forall p, month_values p sorted_ds sorted_xs ≡ₚ month_values p ds xs)
    /\ (forall x, rates !! 0 = Some x -> changes !! 0 = Some Float64.nan)
    /\ (forall i previous x,
          rates !! i = Some previous -> rates !! S i = Some x ->
          changes !! S i
          = Some (Float64.mul (Float64.sub (Float64.div x previous) (Float64.of_Z 1))
                              (Float64.of_Z 100))).
Proof.
  intros HD Hcols _ Hds Hxs.
  unfold processing.process_exchange_rate_data, set_column_name.
  change (Nat.pred (Pos.to_nat 1)) with 0. rewrite Hcols, HD. intros H.
  cbn [lookup list_lookup insert list_insert mbind result_bind Py.bind Date columns
       to_datetime] in H.
  rewrite getitem_cons_eq in H. cbn [mbind result_bind Py.bind] in H.
  rewrite !setitem_head in H.
  rewrite getitem_cons_eq in H. cbn [mbind result_bind Py.bind] in H.
  rewrite !setitem_head in H.
  unfold processing.sort_index, processing.resample_ME_mean in H.
  cbn [Date columns map index_values] in H.
  rewrite Hds, Hxs in H. cbn [index_values to_floats] in H.
  rewrite getitem_cons_eq in H. cbn [mbind result_bind Py.bind mret result_ret] in H.
  apply Ok_inj in H. subst out.
  match goal with
  | |- context [int_mul (pct_change (FloatCol ?r)) 100] => set (rates := r)
  end.
  destruct (pct_change_lookup rates) as (changes & Hch & Hlen & H0 & HS).
  rewrite Hch. exists rates, changes.
  split; [reflexivity |].
  split; [rewrite getitem_setitem_ne by discriminate; apply getitem_cons_eq |].
  split; [apply getitem_setitem_eq |].
  unfold months_of. cbn [setitem Date].
  rewrite (month_labels_months month_end _ month_of_month_end).
  split; [apply month_bins_spec |].
  split; [unfold rates; apply length_map |].
  split; [exact Hlen |].
  split; [intros i p Hp; unfold rates; rewrite list_lookup_fmap, Hp; reflexivity |].
  split; [| split; [exact H0 | exact HS]].
  intros Hperm Hl p. cbn [gather_index] in Hds. cbn [gather] in Hxs.
  injection Hds as <-. injection Hxs as <-.
  apply month_values_reordered; assumption.
Qed.

Lemma process_exchange_rate_data_monthly_change_witness :
  exists out rates changes,
    processing.process_exchange_rate_data Examples.sorted_order Examples.plain_mean
      Examples.daily_rates = Ok out
    /\ Date out
       = Datetime64 (map month_end
                       (month_bins [Examples.day 2024 1 30; Examples.day 2024 1 31;
                                    Examples.day 2024 2 1]))
    /\ getitem out "exchange_rate" = Ok (FloatCol rates)
    /\ getitem out "exchange_rate_var" = Ok (FloatCol changes)
    /\ consecutive (months_of out) = true
    /\ length rates = length (months_of out)
    /\ length changes = length rates
    /\ (forall i p,
          month_bins [Examples.day 2024 1 30; Examples.day 2024 1 31;
                      Examples.day 2024 2 1] !! i = Some p ->
          rates !! i
          = Some (Examples.plain_mean
                    (month_values p
                       [Examples.day 2024 1 30; Examples.day 2024 1 31;
                        Examples.day 2024 2 1]
                       [Examples.dec 49 1; Examples.dec 51 1; Examples.dec 55 1])))
    /\ (forall x, rates !! 0 = Some x -> changes !! 0 = Some Float64.nan)
    /\ (forall i previous x,
          rates !! i = Some previous -> rates !! S i = Some x ->
          changes !! S i
          = Some (Float64.mul (Float64.sub (Float64.div x previous) (Float64.of_Z 1))
                              (Float64.of_Z 100))).
Proof.
  destruct (processing.process_exchange_rate_data Examples.sorted_order
              Examples.plain_mean Examples.daily_rates) as [out|] eqn:E;
    [| vm_compute in E; discriminate E].
  destruct (process_exchange_rate_data_monthly_change Examples.sorted_order
              Examples.plain_mean Examples.daily_rates out
              [Examples.day 2024 1 30; Examples.day 2024 1 31; Examples.day 2024 2 1]
              "valor"
              [Examples.dec 49 1; Examples.dec 51 1; Examples.dec 55 1] []
              [Examples.day 2024 1 30; Examples.day 2024 1 31; Examples.day 2024 2 1]
              [Examples.dec 49 1; Examples.dec 51 1; Examples.dec 55 1]
              eq_refl eq_refl (not_elem_of_nil _) eq_refl eq_refl E)
    as (rates & changes & H1 & H2 & H3 & H4 & H5 & H6 & H7 & _ & H8 & H9).
  exists out, rates, changes. repeat (split; [assumption |]).
  split; [reflexivity |]. repeat (split; [assumption |]). assumption.
Defined.


(** ** The results dictionary of the estimation runs *)

Lemma dict_get_set_eq {V : Type} (k : pipeline.key) (v : V)
  (d : list (pipeline.key * V)) :
  pipeline.dict_get k (pipeline.dict_set k v d) = Some v.
Proof.
  induction d as [|[k' v'] d IH]; cbn.
  - destruct (decide (k = k)); [reflexivity | contradiction].
  - destruct (decide (k' = k)) as [-> | Hne]; cbn.
    + destruct (decide (k = k)); [reflexivity | contradiction].
    + destruct (decide (k' = k)); [contradiction | exact IH].
Qed.

Lemma dict_get_set_ne {V : Type} (k k0 : pipeline.key) (v : V)
  (d : list (pipeline.key * V)) :
  k <> k0 -> pipeline.dict_get k (pipeline.dict_set k0 v d) = pipeline.dict_get k d.
Proof.
  intros Hne. induction d as [|[k' v'] d IH]; cbn.
  - destruct (decide (k0 = k)); [congruence | reflexivity].
  - destruct (decide (k' = k0)) as [-> | Hne']; cbn.
    + destruct (decide (k0 = k)); [congruence | reflexivity].
    + destruct (decide (k' = k)); [reflexivity | exact IH].
Qed.

Section ResultsDictionary.

Variable fit : estimation.OLS -> result analytics.RegressionResults.
Variable lag : Z.
Variable h : heap.
Variable df_final : ref.

Lemma run_sources_spec (year_range : option pipeline.YearRange) (sources : list string)
  (results results' : list (pipeline.key * list analytics.RegressionResults)) :
  pipeline.run_sources fit lag h df_final year_range sources results
  = pipeline.Returned results' ->
  (forall source, source ∈ sources -> written fit lag h df_final source year_range results')
  /\ (forall k, k.2 <> pipeline.normalized_range year_range ->
                pipeline.dict_get k results' = pipeline.dict_get k results)
  /\ (forall source, written fit lag h df_final source year_range results ->
                     written fit lag h df_final source year_range results').
Proof.
  revert results. induction sources as [|s sources IH]; intros results H;
    cbn [pipeline.run_sources] in H.
  - injection H as <-. split; [intros s Hs; inversion Hs |]. split; auto.
  - destruct (pipeline.estimate_taylor_rule fit lag h df_final s _ _)
      as [[est [[r1 r2] r3]]|] eqn:E; [| discriminate H].
    destruct (IH _ H) as (Hin & Hout & Hkeep).
    assert (Hs : written fit lag h df_final s year_range results').
    { apply Hkeep. exists est, r1, r2, r3. split; [exact E | apply dict_get_set_eq]. }
    split; [| split].
    + intros s' Hs'. apply elem_of_cons in Hs' as [-> | Hs']; [exact Hs | apply Hin, Hs'].
    + intros k Hk. rewrite (Hout k Hk). apply dict_get_set_ne.
      intros ->. apply Hk. reflexivity.
    + intros s' (est' & a & b & c & E' & Hget).
      destruct (decide (s' = s)) as [-> | Hne]; [exact Hs |].
      apply Hkeep. exists est', a, b, c. split; [exact E' |].
      rewrite dict_get_set_ne by congruence. exact Hget.
Qed.

Lemma run_ranges_keeps (ranges : list (option pipeline.YearRange))
  (results results' : list (pipeline.key * list analytics.RegressionResults))
  (source : string) (year_range : option pipeline.YearRange) :
  pipeline.run_ranges fit lag h df_final ranges results = pipeline.Returned results' ->
  (forall later, later ∈ ranges ->
     pipeline.normalized_range later <> pipeline.normalized_range year_range) ->
  written fit lag h df_final source year_range results ->
  written fit lag h df_final source year_range results'.
Proof.
  revert results. induction ranges as [|c ranges IH]; intros results H Hlater Hw;
    cbn [pipeline.run_ranges] in H.
  - injection H as <-. exact Hw.
  - destruct (pipeline.run_sources fit lag h df_final c _ results) as [r1|] eqn:E;
      [| discriminate H].
    apply (IH _ H); [intros later Hl; apply Hlater; right; exact Hl |].
    destruct (run_sources_spec _ _ _ _ E) as (_ & Hout & _).
    destruct Hw as (est & a & b & d & E' & Hget).
    exists est, a, b, d. split; [exact E' |]. rewrite Hout; [exact Hget |].
    cbn. intros Heq. apply (Hlater c); [left | congruence].
Qed.

Lemma run_ranges_spec (ranges : list (option pipeline.YearRange))
  (results results' : list (pipeline.key * list analytics.RegressionResults))
  (j : nat) (year_range : option pipeline.YearRange) (source : string) :
  pipeline.run_ranges fit lag h df_final ranges results = pipeline.Returned results' ->
  ranges !! j = Some year_range ->
  (forall j' later, j < j' -> ranges !! j' = Some later ->
     pipeline.normalized_range later <> pipeline.normalized_range year_range) ->
  source ∈ ["market"; "bc"]%string ->
  written fit lag h df_final source year_range results'.
Proof.
  revert results j. induction ranges as [|c ranges IH]; intros results j H Hj Hlater Hs;
    [discriminate Hj |].
  cbn [pipeline.run_ranges] in H.
  destruct (pipeline.run_sources fit lag h df_final c _ results) as [r1|] eqn:E;
    [| discriminate H].
  destruct j as [|j].
  - injection Hj as ->.
    destruct (run_sources_spec _ _ _ _ E) as (Hin & _ & _).
    apply (run_ranges_keeps _ _ _ _ _ H); [| apply Hin, Hs].
    intros later Hl. apply list_elem_of_lookup in Hl as [k Hk].
    apply (Hlater (S k) later); [lia | exact Hk].
  - apply (IH _ j H Hj); [| exact Hs].
    intros j' later Hj' Hl. apply (Hlater (S j') later); [lia | exact Hl].
Qed.

End ResultsDictionary.

(** X28: the results dictionary is keyed by source and years only, so of
    several configured windows over the same years the last one wins.
    Whenever [run_estimation] returns, the entry under a source and the
    years of a configured window holds the three results of the estimation
    run for the last window configured with those years (with that window's
    dummy range); the results of the earlier ones are overwritten. *)
Theorem run_estimation_last_window_wins
  (fit : estimation.OLS -> result analytics.RegressionResults) (lag : Z)
  (h : heap) (df_final : ref) (ranges : list (option pipeline.YearRange))
  (results : list (pipeline.key * list analytics.RegressionResults))
  (j : nat) (year_range : option pipeline.YearRange) (source : string) :
  pipeline.run_estimation fit lag h df_final (Some ranges) = pipeline.Returned results ->
  ranges !! j = Some year_range ->
  (forall j' later, j < j' -> ranges !! j' = Some later ->
     pipeline.normalized_range later <> pipeline.normalized_range year_range) ->
  source ∈ ["market"; "bc"]%string ->
  exists est results_i results_ii results_iii,
    pipeline.estimate_taylor_rule fit lag h df_final source
      (pipeline.normalized_range year_range) (pipeline.dummy_range_of year_range)
    = pipeline.Returned (est, (results_i, results_ii, results_iii))
    /\ pipeline.dict_get (source, pipeline.normalized_range year_range) results
       = Some [results_i; results_ii; results_iii].
Proof.
  intros H Hj Hlater Hs. unfold pipeline.run_estimation in H.
  destruct ranges as [|c ranges]; [discriminate Hj |].
  exact (run_ranges_spec fit lag h df_final _ _ _ j year_range source H Hj Hlater Hs).
Qed.

Lemma run_estimation_last_window_wins_witness :
  exists results est results_i results_ii results_iii,
    pipeline.run_estimation Examples.fit_terms 1 [Examples.small_panel] 0
      (Some Examples.same_years) = pipeline.Returned results
    /\ length results = 2
    /\ pipeline.estimate_taylor_rule Examples.fit_terms 1 [Examples.small_panel] 0
         "market" (Some (5, 10)%Z) (Some (2, 3)%Z)
       = pipeline.Returned (est, (results_i, results_ii, results_iii))
    /\ pipeline.dict_get ("market"%string, Some (5, 10)%Z) results
       = Some [results_i; results_ii; results_iii].
Proof.
  destruct (pipeline.run_estimation Examples.fit_terms 1 [Examples.small_panel] 0
              (Some Examples.same_years)) as [results|] eqn:E;
    [| vm_compute in E; discriminate E].
  destruct (run_estimation_last_window_wins Examples.fit_terms 1
              [Examples.small_panel] 0 Examples.same_years results 1
              (Some {| pipeline.start := 5; pipeline.end_ := 10;
                       pipeline.dummy_range := Some (2, 3)%Z |})
              "market" E eq_refl)
    as (est & r1 & r2 & r3 & Hrun & Hget).
  - intros [|[|j']] later Hj' Hl; [lia | lia | discriminate Hl].
  - apply elem_of_cons. left. reflexivity.
  - exists results, est, r1, r2, r3.
    split; [reflexivity |]. split; [| split; [exact Hrun | exact Hget]].
    vm_compute in E. injection E as <-. reflexivity.
Defined.

(** ** From the merge to the deviations *)

Lemma civil_from_days_month (z : Z) :
  (1 <= civil_month_of_day z <= 12)%Z.
Proof.
  pose proof (Z.mod_pos_bound (z + 719468) 146097 ltac:(lia)) as Hdoe.
  set (doe := ((z + 719468) mod 146097)%Z) in *.
  destruct (year_of_era_spec doe ltac:(lia)) as [Hy Hd].
  pose proof (days_before_year_step (year_of_era doe) ltac:(lia)) as Hstep.
  set (yoe := year_of_era doe) in *.
  set (mp := ((5 * (doe - days_before_year yoe) + 2) / 153)%Z).
  assert (Hmp : (0 <= mp <= 11)%Z).
  { unfold mp. assert (0 <= doe - days_before_year yoe <= 365)%Z by lia.
    Z.div_mod_to_equations. lia. }
  unfold civil_month_of_day, civil_from_days.
  change ((z + 719468) mod 146097)%Z with doe.
  change ((doe - doe / 1460 + doe / 36524 - doe / 146096) / 365)%Z with yoe.
  replace (365 * yoe + yoe / 4 - yoe / 100)%Z with (days_before_year yoe)
    by (unfold days_before_year; rewrite (Z.div_small yoe 400) by lia; lia).
  change ((5 * (doe - days_before_year yoe) + 2) / 153)%Z with mp.
  cbv zeta.
  destruct (Z.ltb_spec mp 10); lia.
Qed.

Lemma month_of_day_civil (z : Z) :
  month_of_day z = ((year_of_day z - 1970) * 12 + (civil_month_of_day z - 1))%Z.
Proof.
  unfold month_of_day, year_of_day, civil_month_of_day.
  destruct (civil_from_days z) as [[y m] d]. reflexivity.
Qed.

Lemma period_year_month_of_day (z : Z) : period_year (month_of_day z) = year_of_day z.
Proof.
  pose proof (civil_from_days_month z) as Hm.
  rewrite month_of_day_civil. unfold period_year.
  Z.div_mod_to_equations. lia.
Qed.

Lemma period_month_month_of_day (z : Z) :
  period_month (month_of_day z) = civil_month_of_day z.
Proof.
  pose proof (civil_from_days_month z) as Hm.
  rewrite month_of_day_civil. unfold period_month.
  Z.div_mod_to_equations. lia.
Qed.

(** X29: the calendar columns of the final dataset.  When the merge, on
    datasets of which every one but the first holds each month at most
    once, is followed by [calculate_deviation_from_target], as in
    [Pipeline.run], the columns [ano] and [mes] of the result hold, row by
    row, the calendar year and the calendar month of the dates of the first
    dataset handed to the merge: the conversion of the dates to months
    loses the day and nothing else. *)
Theorem merge_then_deviation_calendar_columns
  (h h1 h2 : heap) (r : ref) (rest : list ref) (merged final : ref) :
  processing.merge_datasets h (r :: rest) = Ok (h1, merged) ->
  (forall i df, i ∈ rest -> h !! i = Some df -> NoDup (months_of df)) ->
  processing.calculate_deviation_from_target_at h1 merged = Ok (h2, final) ->
  exists first ds out,
    h !! r = Some first /\ Date first = Datetime64 ds
    /\ h2 !! final = Some out
    /\ getitem out "ano" = Ok (IntCol (map year_of_day ds))
    /\ getitem out "mes" = Ok (IntCol (map civil_month_of_day ds)).
Proof.
  intros Hmerge Hnd H.
  destruct (merge_datasets_first_rows _ _ _ _ _ Hmerge Hnd)
    as (first & ds & m & Hr & HD & Hm & HDm & _).
  unfold processing.calculate_deviation_from_target_at in H.
  apply bind_Ok_inv in H as (m' & Hl & H). apply load_Ok in Hl.
  assert (m' = m) by congruence. subst m'.
  apply bind_Ok_inv in H as (out & Hout & H).
  unfold alloc in H. injection H as <- <-.
  exists first, ds, out. split; [exact Hr |]. split; [exact HD |].
  split; [apply list_lookup_middle; reflexivity |].
  unfold processing.calculate_deviation_from_target in Hout.
  apply bind_Ok_inv in Hout as (t1 & _ & Hout).
  apply bind_Ok_inv in Hout as (b & _ & Hout).
  apply bind_Ok_inv in Hout as (t2 & _ & Hout).
  apply bind_Ok_inv in Hout as (tn & _ & Hout).
  apply bind_Ok_inv in Hout as (f & _ & Hout).
  apply bind_Ok_inv in Hout as (t3 & _ & Hout).
  apply bind_Ok_inv in Hout as (tn' & _ & Hout).
  apply Ok_inj in Hout. subst out.
  split.
  - rewrite !getitem_setitem_ne by discriminate. rewrite getitem_setitem_eq.
    rewrite HDm. cbn [dt_year]. rewrite map_map. do 2 f_equal.
    apply map_ext. intros z. apply period_year_month_of_day.
  - rewrite !getitem_setitem_ne by discriminate. rewrite getitem_setitem_eq.
    cbn [setitem Date]. rewrite HDm. cbn [dt_month_values]. rewrite map_map.
    do 2 f_equal. apply map_ext. intros z. apply period_month_month_of_day.
Qed.

Lemma merge_then_deviation_calendar_columns_witness :
  exists h1 merged h2 final first ds out,
    processing.merge_datasets Examples.raw_sources [0; 1] = Ok (h1, merged)
    /\ processing.calculate_deviation_from_target_at h1 merged = Ok (h2, final)
    /\ Examples.raw_sources !! 0 = Some first /\ Date first = Datetime64 ds
    /\ h2 !! final = Some out
    /\ getitem out "ano" = Ok (IntCol (map year_of_day ds))
    /\ getitem out "mes" = Ok (IntCol (map civil_month_of_day ds)).
Proof.
  destruct (processing.merge_datasets Examples.raw_sources [0; 1])
    as [[h1 merged]|] eqn:E; [| vm_compute in E; discriminate E].
  destruct (processing.calculate_deviation_from_target_at h1 merged)
    as [[h2 final]|] eqn:E2;
    [| vm_compute in E; injection E as <- <-; vm_compute in E2; discriminate E2].
  destruct (merge_then_deviation_calendar_columns Examples.raw_sources h1 h2 0 [1]
              merged final E)
    as (first & ds & out & H).
  - intros i df Hi Hdf. apply list_elem_of_singleton in Hi. subst i.
    injection Hdf as <-. apply (bool_decide_unpack _). vm_compute. exact I.
  - exact E2.
  - exists h1, merged, h2, final, first, ds, out.
    split; [reflexivity |]. split; [exact E2 | exact H].
Defined.
